(** * ScriptureLoop: the server-side game-economy engine

    A shallow embedding of the PL/pgSQL functions [award_xp],
    [gift_booster], [redeem_grace_pass], [run_weekly_league_update],
    [get_leaderboard] and [process_offline_actions] (sql/functions.sql), of
    the tables they read and write (sql/schema.sql), and of the two
    client-side [UserService] classes (services/userService.ts: the one
    backed by Supabase, with [updateStreak] and
    [restoreStreakWithGracePass], and the one backed by AsyncStorage, with
    [addXP], [updateStreak] and [purchaseBooster]).

    Modelling conventions.
    - A table is the list of its rows, in storage order.  Surrogate [id]
      columns filled by [uuid_generate_v4()] are left out where nothing reads
      them; where the code only tests such an id for NULL (an idempotency
      probe), the model tests for the existence of the row.
    - Columns and arguments hold values: the NULLs the schema would admit in
      columns that have a default, and NULL arguments, are not modelled.
      [auth.uid()] is the exception: it is NULL for an unauthenticated
      caller; and so are the amount and the source that
      [process_offline_actions] reads from a payload, which may lack them.
    - An [INTEGER] is a [Z]; PostgreSQL raises [numeric_value_out_of_range]
      when a result leaves the 32-bit range, which [int4] writes out.  The
      loop counters of the league update are bounded by the number of rows
      processed and carry no check.
    - A function body runs in one transaction: it either returns a JSON value
      together with the new database, or raises, in which case the caller's
      database is the one it had before the call.
    - [NOW()] is the transaction's start time, in microseconds since the
      epoch; a [DATE] is a day number since the epoch; inside a JSON value
      both are kept as they are.  The session runs with TimeZone UTC and
      DateStyle ISO. *)

From Stdlib Require Import ZArith List Ascii String Bool Lia.
From Stdlib Require Import Sorted Permutation.
From Stdlib Require Import DecimalString.
Import ListNotations.
Open Scope Z_scope.

(** ** SQL values *)

Abbreviation uuid := string (only parsing).
Abbreviation timestamptz := Z (only parsing).
Abbreviation date := Z (only parsing).

#[warnings="-register-all"]
Inductive jsonb : Type :=
| JNull
| JBool (b : bool)
| JNum (n : Z)
| JStr (s : string)
| JTime (t : timestamptz)
| JDate (d : date)
| JArr (items : list jsonb)
| JObj (fields : list (string * jsonb)).

Definition jsonb_build_object (fields : list (string * jsonb)) : jsonb :=
  JObj fields.

(** [j -> key] *)
Fixpoint assoc_get (key : string) (fields : list (string * jsonb)) : option jsonb :=
  match fields with
  | [] => None
  | (k, v) :: rest => if String.eqb k key then Some v else assoc_get key rest
  end.

Definition json_get (key : string) (j : jsonb) : option jsonb :=
  match j with
  | JObj fields => assoc_get key fields
  | _ => None
  end.

(** [integer::TEXT] *)
Definition int_text (z : Z) : string := NilZero.string_of_int (Z.to_int z).

(** ** Exceptions and the transaction monad *)

Inductive sqlstate : Type :=
| numeric_value_out_of_range
| unique_violation
| foreign_key_violation.

Inductive result (A : Type) : Type :=
| Ok (a : A)
| Raise (e : sqlstate).

Arguments Ok {A} a.
Arguments Raise {A} e.

Definition bind {A B : Type} (m : result A) (k : A -> result B) : result B :=
  match m with
  | Ok a => k a
  | Raise e => Raise e
  end.

Notation "x <- m ;; k" := (bind m (fun x => k))
  (at level 61, m at next level, right associativity).
Notation "' pat <- m ;; k" := (bind m (fun x => match x with pat => k end))
  (at level 61, pat pattern, m at next level, right associativity).

Definition int4_min : Z := -2147483648.
Definition int4_max : Z := 2147483647.

Definition in_int4 (z : Z) : Prop := int4_min <= z <= int4_max.

Definition int4 (z : Z) : result Z :=
  if (int4_min <=? z) && (z <=? int4_max) then Ok z
  else Raise numeric_value_out_of_range.

(** [UPDATE tbl SET ... WHERE cond]: the SET expressions are evaluated on
    every row the WHERE clause selects, and any of them may raise. *)
Fixpoint update_where {A : Type} (cond : A -> bool) (set : A -> result A)
    (tbl : list A) : result (list A) :=
  match tbl with
  | [] => Ok []
  | r :: rest =>
      r' <- (if cond r then set r else Ok r) ;;
      rest' <- update_where cond set rest ;;
      Ok (r' :: rest')
  end.

(** ** ORDER BY

    [order_by before l] sorts [l] so that [x] comes before [y] only if
    [before x y]; rows that compare equal keep their storage order (PostgreSQL
    leaves the order of such rows unspecified). *)

Section OrderBy.
Variable A : Type.
Variable before : A -> A -> bool.

Fixpoint place (x : A) (l : list A) : list A :=
  match l with
  | [] => [x]
  | y :: rest => if before x y then x :: y :: rest else y :: place x rest
  end.

Definition order_by (l : list A) : list A := fold_right place [] l.

(** Every row comes before all the rows after it. *)
Definition ordered : list A -> Prop :=
  StronglySorted (fun x y => before x y = true).
End OrderBy.

Arguments place {A} before x l.
Arguments order_by {A} before l.
Arguments ordered {A} before _.

(** ** Tables (sql/schema.sql) *)

Module users.
Record row : Type := mk {
  id : uuid;
  name : string;
  xp : Z;
  weekly_xp : Z;
  lifetime_xp : Z;
  level : Z;
  streak : Z;
  last_active_date : date;
  today_completed : bool;
  total_days_studied : Z;
  grace_passes_used : Z;
  grace_passes_available : Z;
  gems : Z;
  league : Z;
  league_position : Z;
  has_used_morning_bonus : bool;
  has_streak_bonus : bool;
  updated_at : timestamptz
}.

(** [CREATE TRIGGER update_users_updated_at BEFORE UPDATE ON users]:
    every updated row gets [updated_at = NOW()]. *)
Definition update_updated_at_column (v_now : timestamptz) (r : row) : row :=
  mk (id r) (name r) (xp r) (weekly_xp r) (lifetime_xp r) (level r)
     (streak r) (last_active_date r) (today_completed r)
     (total_days_studied r) (grace_passes_used r) (grace_passes_available r)
     (gems r) (league r) (league_position r) (has_used_morning_bonus r)
     (has_streak_bonus r) v_now.

Definition set_has_used_morning_bonus (b : bool) (r : row) : row :=
  mk (id r) (name r) (xp r) (weekly_xp r) (lifetime_xp r) (level r)
     (streak r) (last_active_date r) (today_completed r)
     (total_days_studied r) (grace_passes_used r) (grace_passes_available r)
     (gems r) (league r) (league_position r) b
     (has_streak_bonus r) (updated_at r).

Definition set_has_streak_bonus (b : bool) (r : row) : row :=
  mk (id r) (name r) (xp r) (weekly_xp r) (lifetime_xp r) (level r)
     (streak r) (last_active_date r) (today_completed r)
     (total_days_studied r) (grace_passes_used r) (grace_passes_available r)
     (gems r) (league r) (league_position r) (has_used_morning_bonus r)
     b (updated_at r).

(** SET xp = .., weekly_xp = .., lifetime_xp = .., level = .., gems = .. *)
Definition set_progress (xp' weekly' lifetime' level' gems' : Z) (r : row) : row :=
  mk (id r) (name r) xp' weekly' lifetime' level'
     (streak r) (last_active_date r) (today_completed r)
     (total_days_studied r) (grace_passes_used r) (grace_passes_available r)
     gems' (league r) (league_position r) (has_used_morning_bonus r)
     (has_streak_bonus r) (updated_at r).

(** SET grace_passes_used = .., grace_passes_available = .., streak = .. *)
Definition set_grace (used' available' streak' : Z) (r : row) : row :=
  mk (id r) (name r) (xp r) (weekly_xp r) (lifetime_xp r) (level r)
     streak' (last_active_date r) (today_completed r)
     (total_days_studied r) used' available'
     (gems r) (league r) (league_position r) (has_used_morning_bonus r)
     (has_streak_bonus r) (updated_at r).

(** SET league = .., league_position = .., weekly_xp = 0,
    has_used_morning_bonus = FALSE *)
Definition set_league (league' position' : Z) (r : row) : row :=
  mk (id r) (name r) (xp r) 0 (lifetime_xp r) (level r)
     (streak r) (last_active_date r) (today_completed r)
     (total_days_studied r) (grace_passes_used r) (grace_passes_available r)
     (gems r) league' position' false
     (has_streak_bonus r) (updated_at r).
End users.

Module xp_ledger.
Record row : Type := mk {
  user_id : uuid;
  action_id : string;
  amount : Z;
  source : string;
  meta : jsonb;
  created_at : timestamptz
}.
End xp_ledger.

Module activities.
Record row : Type := mk {
  user_id : option uuid;
  type : string;
  details : string;
  meta : jsonb;
  created_at : timestamptz
}.
End activities.

Module boosters.
Record row : Type := mk {
  user_id : uuid;
  type : string;
  expires_at : timestamptz;
  is_active : bool;
  created_at : timestamptz
}.
End boosters.

Module offline_actions.
Record row : Type := mk {
  user_id : uuid;
  action_id : string;
  action_type : string;
  payload : jsonb;
  processed : bool;
  created_at : timestamptz
}.

Definition set_processed (b : bool) (r : row) : row :=
  mk (user_id r) (action_id r) (action_type r) (payload r) b (created_at r).
End offline_actions.

(** One entry of [league_snapshots.user_rankings]. *)
Module ranking.
Record entry : Type := mk {
  user_id : uuid;
  name : string;
  weekly_xp : Z;
  old_league : Z;
  new_league : Z;
  rank : Z
}.
End ranking.

Module league_snapshots.
Record row : Type := mk {
  week_start : date;
  week_end : date;
  user_rankings : list ranking.entry;
  created_at : timestamptz
}.
End league_snapshots.

Record database : Type := mkDb {
  t_users : list users.row;
  t_xp_ledger : list xp_ledger.row;
  t_activities : list activities.row;
  t_boosters : list boosters.row;
  t_offline_actions : list offline_actions.row;
  t_league_snapshots : list league_snapshots.row
}.

Definition with_users (us : list users.row) (db : database) : database :=
  mkDb us (t_xp_ledger db) (t_activities db) (t_boosters db)
       (t_offline_actions db) (t_league_snapshots db).

Definition with_xp_ledger (l : list xp_ledger.row) (db : database) : database :=
  mkDb (t_users db) l (t_activities db) (t_boosters db)
       (t_offline_actions db) (t_league_snapshots db).

Definition with_activities (l : list activities.row) (db : database) : database :=
  mkDb (t_users db) (t_xp_ledger db) l (t_boosters db)
       (t_offline_actions db) (t_league_snapshots db).

Definition with_boosters (l : list boosters.row) (db : database) : database :=
  mkDb (t_users db) (t_xp_ledger db) (t_activities db) l
       (t_offline_actions db) (t_league_snapshots db).

Definition with_offline_actions (l : list offline_actions.row) (db : database) : database :=
  mkDb (t_users db) (t_xp_ledger db) (t_activities db) (t_boosters db)
       l (t_league_snapshots db).

Definition with_league_snapshots (l : list league_snapshots.row) (db : database) : database :=
  mkDb (t_users db) (t_xp_ledger db) (t_activities db) (t_boosters db)
       (t_offline_actions db) l.

(** The caller's session: [auth.uid()] and [NOW()]. *)
Record session : Type := mkSession {
  auth_uid : option uuid;
  now : timestamptz
}.

(** ** Queries shared by the functions *)

(** [SELECT * FROM users WHERE id = v_user_id]; a NULL id matches no row. *)
Definition select_user (v_user_id : option uuid) (db : database) : option users.row :=
  match v_user_id with
  | None => None
  | Some uid => find (fun r => String.eqb (users.id r) uid) (t_users db)
  end.

Definition is_user (v_user_id : option uuid) (r : users.row) : bool :=
  match v_user_id with
  | None => false
  | Some uid => String.eqb (users.id r) uid
  end.

(** [UPDATE users SET ... WHERE id = v_user_id], followed by the
    [updated_at] trigger on each updated row. *)
Definition update_user (v_now : timestamptz) (v_user_id : option uuid)
    (set : users.row -> result users.row) (db : database) : result database :=
  us <- update_where (is_user v_user_id)
          (fun r => r' <- set r ;; Ok (users.update_updated_at_column v_now r'))
          (t_users db) ;;
  Ok (with_users us db).

(** [SELECT id FROM xp_ledger WHERE action_id = p_action_id] *)
Definition select_ledger (p_action_id : string) (db : database) : option xp_ledger.row :=
  find (fun e => String.eqb (xp_ledger.action_id e) p_action_id) (t_xp_ledger db).

(** [INSERT INTO xp_ledger]: [action_id] is UNIQUE. *)
Definition insert_xp_ledger (e : xp_ledger.row) (db : database) : result database :=
  match select_ledger (xp_ledger.action_id e) db with
  | Some _ => Raise unique_violation
  | None => Ok (with_xp_ledger (t_xp_ledger db ++ [e]) db)
  end.

(** [INSERT INTO activities]: [user_id REFERENCES users(id)], NULL allowed. *)
Definition insert_activity (a : activities.row) (db : database) : result database :=
  match activities.user_id a with
  | Some uid =>
      if existsb (fun r => String.eqb (users.id r) uid) (t_users db)
      then Ok (with_activities (t_activities db ++ [a]) db)
      else Raise foreign_key_violation
  | None => Ok (with_activities (t_activities db ++ [a]) db)
  end.

(** [EXTRACT(HOUR FROM v_now AT TIME ZONE 'UTC')] *)
Definition extract_hour_utc (v_now : timestamptz) : Z :=
  (v_now / 3600000000) mod 24.

(** The boosters [award_xp] looks at:
    [WHERE user_id = v_user_id AND is_active = TRUE AND expires_at > v_now]. *)
Definition active_boosters (v_user_id : uuid) (v_now : timestamptz)
    (db : database) : list boosters.row :=
  filter (fun b => String.eqb (boosters.user_id b) v_user_id
                   && boosters.is_active b
                   && (v_now <? boosters.expires_at b))
         (t_boosters db).

(** [ORDER BY expires_at DESC] *)
Definition expires_desc (a b : boosters.row) : bool :=
  boosters.expires_at b <=? boosters.expires_at a.

(** ** award_xp *)

Definition already_processed_xp : jsonb :=
  jsonb_build_object [("success", JBool true);
                      ("message", JStr "Already processed");
                      ("xp_awarded", JNum 0)]%string.

Definition user_not_found : jsonb :=
  jsonb_build_object [("success", JBool false);
                      ("error", JStr "User not found")]%string.

Definition xp_awarded_response (v_final_amount v_new_level v_gems_earned : Z) : jsonb :=
  jsonb_build_object [("success", JBool true);
                      ("xp_awarded", JNum v_final_amount);
                      ("new_level", JNum v_new_level);
                      ("gems_earned", JNum v_gems_earned)]%string.

(** Step 1, the morning bonus: [FLOOR(v_final_amount * 1.5)] between 06:00
    and 09:00 UTC, once per day. *)
Definition apply_morning_bonus (v_now : timestamptz) (v_user_id : option uuid)
    (v_user_record : users.row) (v_final_amount : Z) (db : database)
  : result (Z * database) :=
  let v_hour := extract_hour_utc v_now in
  if (6 <=? v_hour) && (v_hour <? 9)
     && negb (users.has_used_morning_bonus v_user_record)
  then
    a <- int4 ((v_final_amount * 3) / 2) ;;
    db' <- update_user v_now v_user_id
             (fun r => Ok (users.set_has_used_morning_bonus true r)) db ;;
    Ok (a, db')
  else Ok (v_final_amount, db).

(** Step 2, the one-shot streak bonus. *)
Definition apply_streak_bonus (v_now : timestamptz) (v_user_id : option uuid)
    (v_user_record : users.row) (v_final_amount : Z) (db : database)
  : result (Z * database) :=
  if users.has_streak_bonus v_user_record
  then
    a <- int4 (v_final_amount * 2) ;;
    db' <- update_user v_now v_user_id
             (fun r => Ok (users.set_has_streak_bonus false r)) db ;;
    Ok (a, db')
  else Ok (v_final_amount, db).

(** Step 3, the active booster with the latest expiry. *)
Definition apply_booster (v_now : timestamptz) (v_user_record : users.row)
    (v_final_amount : Z) (db : database) : result Z :=
  match order_by expires_desc
          (active_boosters (users.id v_user_record) v_now db) with
  | [] => Ok v_final_amount
  | b :: _ =>
      let v_booster_type := boosters.type b in
      if String.eqb v_booster_type "3x" then int4 (v_final_amount * 3)
      else if String.eqb v_booster_type "2x" then int4 (v_final_amount * 2)
      else Ok v_final_amount
  end.

(** Rewards, ledger entry, user statistics, social activity, response. *)
Definition record_award (env : session) (v_user_record : users.row)
    (v_final_amount : Z) (p_source p_action_id : string) (p_meta : jsonb)
    (db : database) : result (jsonb * database) :=
  let v_user_id := auth_uid env in
  let v_now := now env in
  v_total <- int4 (users.xp v_user_record + v_final_amount) ;;
  let v_new_level := Z.quot v_total 500 + 1 in
  let v_gems_earned := Z.quot v_final_amount 100 in
  db <- insert_xp_ledger
          (xp_ledger.mk (users.id v_user_record) p_action_id v_final_amount
                        p_source p_meta v_now) db ;;
  db <- update_user v_now v_user_id
          (fun r =>
             xp' <- int4 (users.xp r + v_final_amount) ;;
             weekly' <- int4 (users.weekly_xp r + v_final_amount) ;;
             lifetime' <- int4 (users.lifetime_xp r + v_final_amount) ;;
             gems' <- int4 (users.gems r + v_gems_earned) ;;
             Ok (users.set_progress xp' weekly' lifetime' v_new_level gems' r))
          db ;;
  db <- insert_activity
          (activities.mk v_user_id "challenge_completed"
             ("Completed " ++ p_source ++ " and earned "
                ++ int_text v_final_amount ++ " XP")%string
             (jsonb_build_object [("xp_earned", JNum v_final_amount);
                                  ("source", JStr p_source)]%string)
             v_now) db ;;
  Ok (xp_awarded_response v_final_amount v_new_level v_gems_earned, db).

Definition award_xp (env : session) (p_amount : Z) (p_source p_action_id : string)
    (p_meta : jsonb) (db : database) : result (jsonb * database) :=
  let v_user_id := auth_uid env in
  let v_now := now env in
  match select_ledger p_action_id db with
  | Some _ => Ok (already_processed_xp, db)
  | None =>
    match select_user v_user_id db with
    | None => Ok (user_not_found, db)
    | Some v_user_record =>
      '(v_final_amount, db) <-
         apply_morning_bonus v_now v_user_id v_user_record p_amount db ;;
      '(v_final_amount, db) <-
         apply_streak_bonus v_now v_user_id v_user_record v_final_amount db ;;
      v_final_amount <- apply_booster v_now v_user_record v_final_amount db ;;
      record_award env v_user_record v_final_amount p_source p_action_id p_meta db
    end
  end.

(** ** gift_booster *)

(** [timestamptz::TEXT] under DateStyle ISO and TimeZone UTC, for the years
    0001 to 9999: [YYYY-MM-DD HH:MI:SS[.ffffff]+00]. *)
Definition pad2 (z : Z) : string :=
  if z <? 10 then ("0" ++ int_text z)%string else int_text z.

Definition pad4 (z : Z) : string :=
  if z <? 10 then ("000" ++ int_text z)%string
  else if z <? 100 then ("00" ++ int_text z)%string
  else if z <? 1000 then ("0" ++ int_text z)%string
  else int_text z.

(** Day number to (year, month, day) of the proleptic Gregorian calendar. *)
Definition civil_from_days (d : Z) : Z * Z * Z :=
  let z := d + 719468 in
  let era := z / 146097 in
  let doe := z - era * 146097 in
  let yoe := (doe - doe / 1460 + doe / 36524 - doe / 146096) / 365 in
  let doy := doe - (365 * yoe + yoe / 4 - yoe / 100) in
  let mp := (5 * doy + 2) / 153 in
  let dd := doy - (153 * mp + 2) / 5 + 1 in
  let m := if mp <? 10 then mp + 3 else mp - 9 in
  let y := yoe + era * 400 + (if m <=? 2 then 1 else 0) in
  (y, m, dd).

Fixpoint fraction_text (digits : nat) (scale us : Z) : string :=
  match digits with
  | O => EmptyString
  | S digits' =>
      if us =? 0 then EmptyString
      else (int_text (us / scale)
              ++ fraction_text digits' (scale / 10) (us mod scale))%string
  end.

Definition timestamptz_text (t : timestamptz) : string :=
  let secs := t / 1000000 in
  let us := t mod 1000000 in
  let sod := secs mod 86400 in
  let '(y, m, dd) := civil_from_days (secs / 86400) in
  let hh := pad2 (sod / 3600) in
  let mi := pad2 ((sod / 60) mod 60) in
  let ss := pad2 (sod mod 60) in
  let fraction :=
    if us =? 0 then EmptyString
    else ("." ++ fraction_text 6 100000 us)%string in
  (pad4 y ++ "-" ++ pad2 m ++ "-" ++ pad2 dd ++ " "
     ++ hh ++ ":" ++ mi ++ ":" ++ ss ++ fraction ++ "+00")%string.

Definition already_processed : jsonb :=
  jsonb_build_object [("success", JBool true);
                      ("message", JStr "Already processed")]%string.

Definition invalid_booster_type : jsonb :=
  jsonb_build_object [("success", JBool false);
                      ("error", JStr "Invalid booster type")]%string.

(** The idempotency probe:
    [SELECT id FROM boosters
      WHERE user_id = p_to_user_id AND created_at::TEXT = p_action_id]. *)
Definition select_gift (p_to_user_id : uuid) (p_action_id : string)
    (db : database) : option boosters.row :=
  find (fun b => String.eqb (boosters.user_id b) p_to_user_id
                 && String.eqb (timestamptz_text (boosters.created_at b)) p_action_id)
       (t_boosters db).

(** [INSERT INTO boosters (user_id, type, expires_at)]:
    [user_id REFERENCES users(id)], [is_active] defaults to TRUE and
    [created_at] to NOW(). *)
Definition insert_booster (v_now : timestamptz) (p_user_id : uuid) (p_type : string)
    (v_expires_at : timestamptz) (db : database) : result database :=
  if existsb (fun r => String.eqb (users.id r) p_user_id) (t_users db)
  then Ok (with_boosters
             (t_boosters db ++ [boosters.mk p_user_id p_type v_expires_at true v_now])
             db)
  else Raise foreign_key_violation.

Definition hours (n : Z) : Z := n * 3600000000.

(** The validation of [p_booster_type], giving [v_duration] in hours. *)
Definition booster_duration (p_booster_type : string) : option Z :=
  if String.eqb p_booster_type "2x" then Some 2
  else if String.eqb p_booster_type "3x" then Some 1
  else None.

Definition gift_booster (env : session) (p_to_user_id : uuid)
    (p_booster_type p_action_id : string) (db : database)
  : result (jsonb * database) :=
  let v_from_user_id := auth_uid env in
  match select_gift p_to_user_id p_action_id db with
  | Some _ => Ok (already_processed, db)
  | None =>
    match booster_duration p_booster_type with
    | None => Ok (invalid_booster_type, db)
    | Some v_duration =>
      let v_expires_at := now env + hours v_duration in
      db <- insert_booster (now env) p_to_user_id p_booster_type v_expires_at db ;;
      db <- insert_activity
              (activities.mk v_from_user_id "booster_gifted"
                 ("Gifted a " ++ p_booster_type ++ " XP booster")%string
                 (jsonb_build_object [("to_user_id", JStr p_to_user_id);
                                      ("booster_type", JStr p_booster_type)]%string)
                 (now env)) db ;;
      Ok (jsonb_build_object [("success", JBool true);
                              ("expires_at", JTime v_expires_at)]%string, db)
    end
  end.

(** ** redeem_grace_pass *)

Definition no_grace_passes : jsonb :=
  jsonb_build_object [("success", JBool false);
                      ("error", JStr "No grace passes available")]%string.

(** [SELECT id FROM offline_actions
      WHERE action_id = p_action_id AND processed = TRUE] *)
Definition select_processed (p_action_id : string) (db : database)
  : option offline_actions.row :=
  find (fun a => String.eqb (offline_actions.action_id a) p_action_id
                 && offline_actions.processed a)
       (t_offline_actions db).

(** [INSERT INTO offline_actions ... ON CONFLICT (action_id)
      DO UPDATE SET processed = TRUE] *)
Definition upsert_processed (a : offline_actions.row) (db : database) : database :=
  let same r := String.eqb (offline_actions.action_id r) (offline_actions.action_id a) in
  if existsb same (t_offline_actions db)
  then with_offline_actions
         (map (fun r => if same r then offline_actions.set_processed true r else r)
              (t_offline_actions db)) db
  else with_offline_actions (t_offline_actions db ++ [a]) db.

Definition redeem_grace_pass (env : session) (p_action_id : string)
    (db : database) : result (jsonb * database) :=
  let v_user_id := auth_uid env in
  match select_processed p_action_id db with
  | Some _ => Ok (already_processed, db)
  | None =>
    match select_user v_user_id db with
    | None => Ok (user_not_found, db)
    | Some v_user_record =>
      if users.grace_passes_available v_user_record <=? 0
      then Ok (no_grace_passes, db)
      else
        db <- update_user (now env) v_user_id
                (fun r =>
                   used' <- int4 (users.grace_passes_used r + 1) ;;
                   available' <- int4 (users.grace_passes_available r - 1) ;;
                   Ok (users.set_grace used' available'
                         (if 0 <? users.streak r then users.streak r else 1) r))
                db ;;
        let db := upsert_processed
                    (offline_actions.mk (users.id v_user_record) p_action_id
                       "redeem_grace_pass" (JObj []) true (now env)) db in
        remaining <- int4 (users.grace_passes_available v_user_record - 1) ;;
        Ok (jsonb_build_object [("success", JBool true);
                                ("grace_passes_remaining", JNum remaining)]%string,
            db)
    end
  end.

(** ** run_weekly_league_update *)

(** [v_league_sizes]: Bronze 50, Silver 30, Gold 20, Diamond 10. *)
Definition v_league_sizes : list (Z * Z) := [(1, 50); (2, 30); (3, 20); (4, 10)].

Fixpoint league_size (sizes : list (Z * Z)) (league : Z) : option Z :=
  match sizes with
  | [] => None
  | (k, v) :: rest => if k =? league then Some v else league_size rest league
  end.

(** [ORDER BY weekly_xp DESC, xp DESC] *)
Definition weekly_desc (a b : users.row) : bool :=
  (users.weekly_xp b <? users.weekly_xp a)
  || ((users.weekly_xp a =? users.weekly_xp b) && (users.xp b <=? users.xp a)).

(** The members of one league, as the inner FOR loop receives them:
    [SELECT id, weekly_xp, league, name FROM users
      WHERE league = v_current_league ORDER BY weekly_xp DESC, xp DESC]. *)
Definition league_members (v_current_league : Z) (tbl : list users.row)
  : list users.row :=
  order_by weekly_desc
    (filter (fun r => users.league r =? v_current_league) tbl).

(** The promotion / relegation decision of one loop iteration. *)
Definition decide_league (v_current_league v_league_count v_weekly_xp : Z) : Z :=
  if (v_current_league <? 4) && (v_league_count <=? 3) && (500 <=? v_weekly_xp)
  then v_current_league + 1
  else if (1 <? v_current_league)
          && match league_size v_league_sizes v_current_league with
             | Some size => size - 5 <? v_league_count
             | None => false
             end
  then v_current_league - 1
  else v_current_league.

(** The variables the loops carry. *)
Record league_loop : Type := mkLoop {
  l_users : list users.row;
  l_league_count : Z;
  l_rank : Z;
  l_rankings : list ranking.entry
}.

(** [UPDATE users SET league = .., league_position = .., weekly_xp = 0,
      has_used_morning_bonus = FALSE, updated_at = NOW() WHERE id = ..] *)
Definition settle (v_now : timestamptz) (v_id : uuid) (v_new_league v_rank : Z)
    (tbl : list users.row) : list users.row :=
  map (fun r => if String.eqb (users.id r) v_id
                then users.update_updated_at_column v_now
                       (users.set_league v_new_league v_rank r)
                else r)
      tbl.

(** The body of the inner loop, for the fetched row [v_user_record]. *)
Definition league_step (v_now : timestamptz) (v_current_league : Z)
    (st : league_loop) (v_user_record : users.row) : league_loop :=
  let v_league_count := l_league_count st + 1 in
  let v_new_league :=
    decide_league v_current_league v_league_count (users.weekly_xp v_user_record) in
  mkLoop
    (settle v_now (users.id v_user_record) v_new_league (l_rank st) (l_users st))
    v_league_count
    (l_rank st + 1)
    (l_rankings st ++
       [ranking.mk (users.id v_user_record) (users.name v_user_record)
                   (users.weekly_xp v_user_record) v_current_league v_new_league
                   (l_rank st)]).

(** One iteration of the outer loop: the member query runs against the table
    as the previous iterations left it. *)
Definition league_pass (v_now : timestamptz) (st : league_loop)
    (v_current_league : Z) : league_loop :=
  fold_left (league_step v_now v_current_league)
            (league_members v_current_league (l_users st))
            (mkLoop (l_users st) 0 (l_rank st) (l_rankings st)).

(** [generate_series(4, 1, -1)] *)
Definition leagues_descending : list Z := [4; 3; 2; 1].

Definition current_date (v_now : timestamptz) : date := v_now / 86400000000.

(** [DATE_TRUNC('week', d)]: the Monday of the week of [d]
    (day 0, 1970-01-01, was a Thursday). *)
Definition date_trunc_week (d : date) : date := d - (d + 3) mod 7.

Definition ranking_json (e : ranking.entry) : jsonb :=
  jsonb_build_object [("user_id", JStr (ranking.user_id e));
                      ("name", JStr (ranking.name e));
                      ("weekly_xp", JNum (ranking.weekly_xp e));
                      ("old_league", JNum (ranking.old_league e));
                      ("new_league", JNum (ranking.new_league e));
                      ("rank", JNum (ranking.rank e))]%string.

Definition run_weekly_league_update (env : session) (db : database)
  : jsonb * database :=
  let v_week_start := date_trunc_week (current_date (now env) - 7) in
  let v_week_end := v_week_start + 6 in
  let st := fold_left (league_pass (now env)) leagues_descending
                      (mkLoop (t_users db) 0 1 []) in
  let v_rankings := l_rankings st in
  let db := with_users (l_users st) db in
  let db := with_league_snapshots
              (t_league_snapshots db ++
                 [league_snapshots.mk v_week_start v_week_end v_rankings (now env)])
              db in
  let users_processed := Z.of_nat (List.length v_rankings) in
  (jsonb_build_object [("success", JBool true);
                       ("week_start", JDate v_week_start);
                       ("week_end", JDate v_week_end);
                       ("users_processed", JNum users_processed);
                       ("rankings", JArr (map ranking_json v_rankings))]%string,
   db).

(** ** get_leaderboard *)

Module leaderboard.
Record row : Type := mk {
  user_id : uuid;
  name : string;
  xp : Z;
  weekly_xp : Z;
  league : Z;
  league_position : Z;
  rank : Z
}.
End leaderboard.

(** [ORDER BY u.league DESC, u.weekly_xp DESC, u.xp DESC] *)
Definition league_weekly_desc (a b : users.row) : bool :=
  (users.league b <? users.league a)
  || ((users.league a =? users.league b) && weekly_desc a b).

(** [ORDER BY u.league DESC, u.lifetime_xp DESC] *)
Definition league_lifetime_desc (a b : users.row) : bool :=
  (users.league b <? users.league a)
  || ((users.league a =? users.league b)
      && (users.lifetime_xp b <=? users.lifetime_xp a)).

(** [ROW_NUMBER() OVER (ORDER BY ...)] over rows already in that order. *)
Fixpoint row_number (n : Z) (l : list users.row) : list leaderboard.row :=
  match l with
  | [] => []
  | u :: rest =>
      leaderboard.mk (users.id u) (users.name u) (users.xp u) (users.weekly_xp u)
                     (users.league u) (users.league_position u) n
      :: row_number (n + 1) rest
  end.

Definition get_leaderboard (p_league : option Z) (p_timeframe : string)
    (db : database) : list leaderboard.row :=
  let selected :=
    filter (fun u => match p_league with
                     | None => true
                     | Some l => users.league u =? l
                     end)
           (t_users db) in
  if String.eqb p_timeframe "weekly"
  then row_number 1 (order_by league_weekly_desc selected)
  else row_number 1 (order_by league_lifetime_desc selected).

(** ** process_offline_actions *)

(** What ends [process_offline_actions] early: an exception of a function it
    calls, a cast of the payload that fails, or a NULL that reaches a NOT NULL
    column. *)
Inductive abort : Type :=
| raised (e : sqlstate)
| invalid_text_representation
| not_null_violation.

Inductive attempt (A : Type) : Type :=
| Done (a : A)
| Aborted (e : abort).

Arguments Done {A} a.
Arguments Aborted {A} e.

Definition and_then {A B : Type} (m : attempt A) (k : A -> attempt B) : attempt B :=
  match m with
  | Done a => k a
  | Aborted e => Aborted e
  end.

Notation "x <-- m ;; k" := (and_then m (fun x => k))
  (at level 61, m at next level, right associativity).
Notation "' pat <-- m ;; k" := (and_then m (fun x => match x with pat => k end))
  (at level 61, pat pattern, m at next level, right associativity).

Definition lift {A : Type} (m : result A) : attempt A :=
  match m with
  | Ok a => Done a
  | Raise e => Aborted (raised e)
  end.

Definition unknown_action_type : jsonb :=
  jsonb_build_object [("success", JBool false);
                      ("error", JStr "Unknown action type")]%string.

(** [ORDER BY created_at ASC] *)
Definition created_asc (a b : offline_actions.row) : bool :=
  offline_actions.created_at a <=? offline_actions.created_at b.

(** The rows the FOR loop runs over:
    [SELECT * FROM offline_actions
      WHERE user_id = p_user_id AND processed = FALSE ORDER BY created_at ASC]. *)
Definition queued_actions (p_user_id : uuid) (db : database)
  : list offline_actions.row :=
  order_by created_asc
    (filter (fun a => String.eqb (offline_actions.user_id a) p_user_id
                      && negb (offline_actions.processed a))
            (t_offline_actions db)).

(** [UPDATE offline_actions SET processed = TRUE WHERE id = v_action.id]:
    the row is found by its [action_id], which is UNIQUE and NOT NULL, in
    place of its surrogate [id]. *)
Definition mark_processed (v_action : offline_actions.row) (db : database)
  : database :=
  with_offline_actions
    (map (fun r => if String.eqb (offline_actions.action_id r)
                                 (offline_actions.action_id v_action)
                   then offline_actions.set_processed true r else r)
         (t_offline_actions db)) db.

(** [award_xp] as the queue calls it: the payload may lack the amount or the
    source, which then are NULL.  The two early returns do not look at them; a
    NULL amount makes every amount computed from it NULL; and the INSERT into
    [xp_ledger], whose [amount] and [source] are NOT NULL, raises. *)
Definition award_xp_nullable (env : session) (p_amount : option Z)
    (p_source : option string) (p_action_id : string) (p_meta : jsonb)
    (db : database) : attempt (jsonb * database) :=
  match p_amount, p_source with
  | Some amount, Some source =>
      lift (award_xp env amount source p_action_id p_meta db)
  | _, _ =>
    match select_ledger p_action_id db with
    | Some _ => Done (already_processed_xp, db)
    | None =>
      match select_user (auth_uid env) db with
      | None => Done (user_not_found, db)
      | Some v_user_record =>
        match p_amount with
        | None => Aborted not_null_violation
        | Some amount =>
          _ <-- lift ('(v_final_amount, db) <-
                        apply_morning_bonus (now env) (auth_uid env)
                          v_user_record amount db ;;
                      '(v_final_amount, db) <-
                        apply_streak_bonus (now env) (auth_uid env)
                          v_user_record v_final_amount db ;;
                      v_final_amount <-
                        apply_booster (now env) v_user_record v_final_amount db ;;
                      int4 (users.xp v_user_record + v_final_amount)) ;;
          Aborted not_null_violation
        end
      end
    end
  end.

Section ProcessOfflineActions.

(** Two functions of the server: the input function of [integer], applied to
    the text of a JSON value that is not a number, and the output function of
    [jsonb], for arrays, objects and timestamps. *)
Variable int4in : string -> attempt Z.
Variable jsonb_out : jsonb -> string.

(** [j ->> key]: the value as text, NULL for a missing key and for JSON
    null. *)
Definition json_get_text (key : string) (j : jsonb) : option string :=
  match json_get key j with
  | None => None
  | Some JNull => None
  | Some (JStr s) => Some s
  | Some (JNum n) => Some (int_text n)
  | Some (JBool b) => Some (if b then "true" else "false")%string
  | Some v => Some (jsonb_out v)
  end.

(** [(v_action.payload->>'amount')::INTEGER] *)
Definition payload_amount (payload : jsonb) : attempt (option Z) :=
  match json_get "amount" payload with
  | Some (JNum n) => n <-- lift (int4 n) ;; Done (Some n)
  | _ =>
      match json_get_text "amount" payload with
      | None => Done None
      | Some t => n <-- int4in t ;; Done (Some n)
      end
  end.

(** [COALESCE(v_action.payload->'meta', '{}')] *)
Definition payload_meta (payload : jsonb) : jsonb :=
  match json_get "meta" payload with
  | Some v => v
  | None => JObj []
  end.

(** The CASE on [v_action.action_type]. *)
Definition dispatch_action (env : session) (v_action : offline_actions.row)
    (db : database) : attempt (jsonb * database) :=
  let payload := offline_actions.payload v_action in
  if String.eqb (offline_actions.action_type v_action) "award_xp" then
    p_amount <-- payload_amount payload ;;
    award_xp_nullable env p_amount (json_get_text "source" payload)
      (offline_actions.action_id v_action) (payload_meta payload) db
  else if String.eqb (offline_actions.action_type v_action) "redeem_grace_pass" then
    lift (redeem_grace_pass env (offline_actions.action_id v_action) db)
  else Done (unknown_action_type, db).

(** The body of the loop: dispatch, mark as processed, count. *)
Definition process_action (env : session) (st : attempt (Z * database))
    (v_action : offline_actions.row) : attempt (Z * database) :=
  '(v_processed_count, db) <-- st ;;
  '(_, db) <-- dispatch_action env v_action db ;;
  Done (v_processed_count + 1, mark_processed v_action db).

Definition process_offline_actions (env : session) (p_user_id : uuid)
    (db : database) : attempt (jsonb * database) :=
  '(v_processed_count, db) <--
     fold_left (process_action env) (queued_actions p_user_id db) (Done (0, db)) ;;
  Done (jsonb_build_object [("success", JBool true);
                            ("processed_count", JNum v_processed_count)]%string,
        db).
End ProcessOfflineActions.

(** ** The client-side services (TypeScript)

    A JavaScript number holding an integer is a [Z] (exact below 2^53);
    [Date.now()] is in milliseconds; a calendar day is its day number.  The
    two services share the shape of [UserStats]; the storage-backed one
    spells the fields in camelCase ([weeklyXP], [hasStreakBonus], ...). *)

Module Stats.
Record Booster : Type := mkBooster {
  type : string;
  expiresAt : Z
}.

Record UserStats : Type := mk {
  streak : Z;
  xp : Z;
  weekly_xp : Z;
  lifetime_xp : Z;
  level : Z;
  gems : Z;
  today_completed : bool;
  last_active_date : date;
  total_days_studied : Z;
  has_used_morning_bonus : bool;
  has_streak_bonus : bool;
  active_booster : option Booster
}.

(** [Partial<UserStats>], for the fields the modelled calls write. *)
Record Partial : Type := mkPartial {
  p_streak : option Z;
  p_xp : option Z;
  p_weekly_xp : option Z;
  p_lifetime_xp : option Z;
  p_level : option Z;
  p_gems : option Z;
  p_today_completed : option bool;
  p_last_active_date : option date;
  p_total_days_studied : option Z;
  p_has_used_morning_bonus : option bool;
  p_has_streak_bonus : option bool
}.

Definition over {A : Type} (old : A) (new : option A) : A :=
  match new with
  | Some v => v
  | None => old
  end.

(** [{ ...stats, ...updates }] *)
Definition merge (stats : UserStats) (updates : Partial) : UserStats :=
  mk (over (streak stats) (p_streak updates))
     (over (xp stats) (p_xp updates))
     (over (weekly_xp stats) (p_weekly_xp updates))
     (over (lifetime_xp stats) (p_lifetime_xp updates))
     (over (level stats) (p_level updates))
     (over (gems stats) (p_gems updates))
     (over (today_completed stats) (p_today_completed updates))
     (over (last_active_date stats) (p_last_active_date updates))
     (over (total_days_studied stats) (p_total_days_studied updates))
     (over (has_used_morning_bonus stats) (p_has_used_morning_bonus updates))
     (over (has_streak_bonus stats) (p_has_streak_bonus updates))
     (active_booster stats).



Definition activity (streak' : Z) (today : date) (days' : Z) : Partial :=
  mkPartial (Some streak') None None None None None (Some true) (Some today)
            (Some days') None None.

Record FriendActivity : Type := mkActivity {
  a_type : string;
  details : string
}.

(** [{ ...stats, gems, activeBooster }] *)
Definition set_booster (gems' : Z) (b : Booster) (stats : UserStats) : UserStats :=
  mk (streak stats) (xp stats) (weekly_xp stats) (lifetime_xp stats)
     (level stats) gems' (today_completed stats) (last_active_date stats)
     (total_days_studied stats) (has_used_morning_bonus stats)
     (has_streak_bonus stats) (Some b).

(** [{ streak }] *)
Definition only_streak (streak' : Z) : Partial :=
  mkPartial (Some streak') None None None None None None None None None None.
End Stats.

(** An entry of the booster shop; its name and description are not read. *)
Module BoosterItem.
Record item : Type := mk {
  id : string;
  type : string;
  gemCost : Z;
  duration : Z
}.
End BoosterItem.

Definition ms_per_day : Z := 24 * 60 * 60 * 1000.

(** The UTF-8 bytes of the emoji that ends a milestone message. *)
Definition fire : string :=
  String "240"%char (String "159"%char (String "148"%char
    (String "165"%char EmptyString))).

(** The Supabase-backed [UserService]: [getCurrentUser()] resolves to the
    cached profile ([None] for [null]); a write to [user_stats] may fail, in
    which case [updateUserStats] queues the update and leaves the cache as it
    is. *)
Module UserService.
Record client : Type := mkClient {
  currentUser : option Stats.UserStats;
  friend_activities : list Stats.FriendActivity;
  offline_queue : list Stats.Partial
}.

Record device : Type := mkDevice {
  date_now : Z;
  write_ok : bool
}.

Record StreakReport : Type := mkReport {
  streakBroken : bool;
  previousStreak : Z
}.

Definition updateUserStats (dev : device) (updates : Stats.Partial)
    (c : client) : client :=
  match currentUser c with
  | None => c
  | Some stats =>
      if write_ok dev
      then mkClient (Some (Stats.merge stats updates))
                    (friend_activities c) (offline_queue c)
      else mkClient (currentUser c) (friend_activities c)
                    (offline_queue c ++ [updates])
  end.

Definition createFriendActivity (a : Stats.FriendActivity) (c : client) : client :=
  match currentUser c with
  | None => c
  | Some _ => mkClient (currentUser c) (friend_activities c ++ [a])
                       (offline_queue c)
  end.

(** [new Date(ms).toISOString().split('T')[0]] *)
Definition iso_day (ms : Z) : date := ms / ms_per_day.

Definition updateStreak (dev : device) (c : client) : StreakReport * client :=
  match currentUser c with
  | None => (mkReport false 0, c)
  | Some stats =>
      let today := iso_day (date_now dev) in
      let lastActive := Stats.last_active_date stats in
      let yesterday := iso_day (date_now dev - ms_per_day) in
      let previousStreak := Stats.streak stats in
      let '(newStreak, streakBroken) :=
        if lastActive =? yesterday then (Stats.streak stats + 1, false)
        else if negb (lastActive =? today)
             then (1, 3 <=? Stats.streak stats)
             else (Stats.streak stats, false) in
      let c := updateUserStats dev
                 (Stats.activity newStreak today
                    (Stats.total_days_studied stats + 1)) c in
      let c := if Z.rem newStreak 7 =? 0
               then createFriendActivity
                      (Stats.mkActivity "milestone_reached"
                         ("Reached a " ++ int_text newStreak
                            ++ "-day streak! " ++ fire)%string) c
               else c in
      (mkReport streakBroken previousStreak, c)
  end.

Definition restoreStreakWithGracePass (dev : device) (previousStreak : Z)
    (c : client) : client :=
  updateUserStats dev (Stats.only_streak previousStreak) c.
End UserService.

(** The AsyncStorage-backed [UserService] (services/userService.ts): the
    profile is read from and written to local storage, and days and hours are
    those of the device's time zone. *)
Module LocalUserService.
Record storage : Type := mkStorage {
  stored : option Stats.UserStats;
  console : list Stats.FriendActivity
}.

Record device : Type := mkDevice {
  date_now : Z;
  getHours : Z -> Z;
  toDateString : Z -> date
}.

Definition updateUserStats (updates : Stats.Partial) (s : storage) : storage :=
  match stored s with
  | None => s
  | Some stats => mkStorage (Some (Stats.merge stats updates)) (console s)
  end.

(** [createFriendActivity] only logs. *)
Definition createFriendActivity (a : Stats.FriendActivity) (s : storage) : storage :=
  mkStorage (stored s) (console s ++ [a]).

(** The amount [addXP] ends up adding: morning bonus, then streak bonus,
    then booster. *)
Definition finalAmount (dev : device) (stats : Stats.UserStats) (amount : Z) : Z :=
  let hour := getHours dev (date_now dev) in
  let a := amount in
  let a := if (6 <=? hour) && (hour <? 9)
              && negb (Stats.has_used_morning_bonus stats)
           then (a * 3) / 2 else a in
  let a := if Stats.has_streak_bonus stats then a * 2 else a in
  match Stats.active_booster stats with
  | Some b =>
      if date_now dev <? Stats.expiresAt b
      then a * (if String.eqb (Stats.type b) "3x" then 3 else 2)
      else a
  | None => a
  end.


Definition updateStreak (dev : device) (s : storage) : storage :=
  match stored s with
  | None => s
  | Some user =>
      let today := toDateString dev (date_now dev) in
      let lastActive := Stats.last_active_date user in
      let yesterday := toDateString dev (date_now dev - ms_per_day) in
      let newStreak :=
        if lastActive =? yesterday then Stats.streak user + 1
        else if negb (lastActive =? today) then 1
        else Stats.streak user in
      updateUserStats
        (Stats.activity newStreak today (Stats.total_days_studied user + 1)) s
  end.


(** The catalogue: a 2x booster for 50 gems that lasts 2 hours, a 3x booster
    for 100 gems that lasts 1 hour. *)
Definition getBoosterShop : list BoosterItem.item :=
  [BoosterItem.mk "2x_xp" "2x" 50 2; BoosterItem.mk "3x_xp" "3x" 100 1]%string.

Definition purchaseBooster (dev : device) (boosterId : string) (s : storage)
  : bool * storage :=
  match stored s,
        find (fun b => String.eqb (BoosterItem.id b) boosterId) getBoosterShop with
  | Some user, Some booster =>
      if BoosterItem.gemCost booster <=? Stats.gems user
      then
        let expiresAt := date_now dev + BoosterItem.duration booster * 60 * 60 * 1000 in
        (true,
         mkStorage
           (Some (Stats.set_booster
                    (Stats.gems user - BoosterItem.gemCost booster)
                    (Stats.mkBooster (BoosterItem.type booster) expiresAt) user))
           (console s))
      else (false, s)
  | _, _ => (false, s)
  end.
End LocalUserService.

(** ** Constraints of the schema and derived views *)

(** [users.id] is the PRIMARY KEY. *)
Definition pk_users (db : database) : Prop :=
  NoDup (map users.id (t_users db)).

(** [xp_ledger.action_id] is UNIQUE. *)
Definition ledger_unique (db : database) : Prop :=
  NoDup (map xp_ledger.action_id (t_xp_ledger db)).

(** The ledger entries recorded under one [action_id]. *)
Definition ledger_entries (p_action_id : string) (db : database)
  : list xp_ledger.row :=
  filter (fun e => String.eqb (xp_ledger.action_id e) p_action_id)
         (t_xp_ledger db).

(** The table with the row of key [i] replaced by [u']. *)
Definition replace_row (i : uuid) (u' : users.row) (tbl : list users.row)
  : list users.row :=
  map (fun r => if String.eqb (users.id r) i then u' else r) tbl.

Definition morning_window (v_now : timestamptz) : bool :=
  (6 <=? extract_hour_utc v_now) && (extract_hour_utc v_now <? 9).

(** The multiplier of the booster [award_xp] picks, 1 when there is none. *)
Definition booster_factor (v_now : timestamptz) (u : users.row) (db : database) : Z :=
  match order_by expires_desc (active_boosters (users.id u) v_now db) with
  | [] => 1
  | b :: _ =>
      if String.eqb (boosters.type b) "3x" then 3
      else if String.eqb (boosters.type b) "2x" then 2
      else 1
  end.

(** The amount [award_xp] ends up with when no step overflows. *)
Definition bonus_amount (v_now : timestamptz) (u : users.row) (db : database)
    (p_amount : Z) : Z :=
  let a := if morning_window v_now && negb (users.has_used_morning_bonus u)
           then (p_amount * 3) / 2 else p_amount in
  let a := if users.has_streak_bonus u then a * 2 else a in
  a * booster_factor v_now u db.

(** The caller's row after a successful award of [final] XP. *)
Definition awarded_row (v_now : timestamptz) (u : users.row) (final : Z) : users.row :=
  users.mk (users.id u) (users.name u)
    (users.xp u + final) (users.weekly_xp u + final) (users.lifetime_xp u + final)
    (Z.quot (users.xp u + final) 500 + 1)
    (users.streak u) (users.last_active_date u) (users.today_completed u)
    (users.total_days_studied u) (users.grace_passes_used u)
    (users.grace_passes_available u)
    (users.gems u + Z.quot final 100)
    (users.league u) (users.league_position u)
    (morning_window v_now || users.has_used_morning_bonus u) false v_now.

(** The database after a successful award of [final] XP to [u]. *)
Definition awarded_db (env : session) (u : users.row) (final : Z)
    (p_source p_action_id : string) (p_meta : jsonb) (db : database) : database :=
  mkDb (replace_row (users.id u) (awarded_row (now env) u final) (t_users db))
       (t_xp_ledger db ++
          [xp_ledger.mk (users.id u) p_action_id final p_source p_meta (now env)])
       (t_activities db ++
          [activities.mk (auth_uid env) "challenge_completed"
             ("Completed " ++ p_source ++ " and earned " ++ int_text final ++ " XP")%string
             (jsonb_build_object [("xp_earned", JNum final);
                                  ("source", JStr p_source)]%string)
             (now env)])
       (t_boosters db) (t_offline_actions db) (t_league_snapshots db).

(** The range conditions under which a first-time award of [p_amount] to
    [u] raises nothing. *)
Definition award_in_range (v_now : timestamptz) (u : users.row) (db : database)
    (p_amount : Z) : Prop :=
  let final := bonus_amount v_now u db p_amount in
  in_int4 p_amount /\ in_int4 final
  /\ in_int4 (users.xp u + final)
  /\ in_int4 (users.weekly_xp u + final)
  /\ in_int4 (users.lifetime_xp u + final)
  /\ in_int4 (users.gems u + Z.quot final 100).

(** The caller's row after a successful redemption. *)
Definition redeemed_row (v_now : timestamptz) (u : users.row) : users.row :=
  users.update_updated_at_column v_now
    (users.set_grace (users.grace_passes_used u + 1)
                     (users.grace_passes_available u - 1)
                     (if 0 <? users.streak u then users.streak u else 1) u).

Definition redeemed_db (env : session) (u : users.row) (p_action_id : string)
    (db : database) : database :=
  upsert_processed
    (offline_actions.mk (users.id u) p_action_id "redeem_grace_pass" (JObj [])
                        true (now env))
    (with_users (replace_row (users.id u) (redeemed_row (now env) u) (t_users db)) db).

(** The leaderboard row of a user at a given rank. *)
Definition board_row (n : Z) (u : users.row) : leaderboard.row :=
  leaderboard.mk (users.id u) (users.name u) (users.xp u) (users.weekly_xp u)
                 (users.league u) (users.league_position u) n.

(** ** Views of the league update *)

(** The 1-based position, counted from [n], of the row with key [i]. *)
Fixpoint position_from (n : Z) (i : uuid) (l : list users.row) : option Z :=
  match l with
  | [] => None
  | x :: rest =>
      if String.eqb (users.id x) i then Some n else position_from (n + 1) i rest
  end.

(** A member's rank in their league: the position at which the league's
    member query returns them. *)
Definition league_rank (u : users.row) (tbl : list users.row) : option Z :=
  position_from 1 (users.id u) (league_members (users.league u) tbl).

(** What the iterations over the fetched rows [recs] do to one row [x] of the
    table, the counters standing at [v_league_count] and [v_rank]. *)
Fixpoint row_after (v_now : timestamptz) (v_current_league v_league_count v_rank : Z)
    (recs : list users.row) (x : users.row) : users.row :=
  match recs with
  | [] => x
  | v_user_record :: rest =>
      row_after v_now v_current_league (v_league_count + 1) (v_rank + 1) rest
        (if String.eqb (users.id x) (users.id v_user_record)
         then users.update_updated_at_column v_now
                (users.set_league
                   (decide_league v_current_league (v_league_count + 1)
                                  (users.weekly_xp v_user_record))
                   v_rank x)
         else x)
  end.

(** What one pass over league [v_current_league] does to a row of the table
    [tbl] it starts from, the global rank standing at [v_rank]. *)
Definition pass_row (v_now : timestamptz) (v_current_league : Z)
    (tbl : list users.row) (v_rank : Z) (x : users.row) : users.row :=
  if users.league x =? v_current_league
  then match position_from 1 (users.id x) (league_members v_current_league tbl) with
       | Some p =>
           users.update_updated_at_column v_now
             (users.set_league
                (decide_league v_current_league p (users.weekly_xp x))
                (v_rank + p - 1) x)
       | None => x
       end
  else x.

(** A row of the table while the leagues above [L] are processed: it is as
    it was, or it belonged to a league above [L] and its weekly XP is reset. *)
Definition kept_or_reset (L : Z) (x x' : users.row) : Prop :=
  users.id x' = users.id x
  /\ (x' = x \/ (L < users.league x /\ users.weekly_xp x' = 0)).

Definition above_processed (L : Z) (tbl0 tbl : list users.row) : Prop :=
  exists G, tbl = map G tbl0 /\ forall x, kept_or_reset L x (G x).

(** A member's row once their league has been processed: promoted to
    [L + 1], or at most in [L], with the weekly counters reset. *)
Definition settled (L : Z) (promoted : bool) (y : users.row) : Prop :=
  users.weekly_xp y = 0 /\ users.has_used_morning_bonus y = false
  /\ 1 <= users.league y
  /\ (if promoted then users.league y = L + 1 else users.league y <= L).

(** ** Frames and orderings of the further properties *)

(** The rows of [users] after a call made by [uid]: the same keys in the same
    places, and every row but the caller's as it was. *)
Definition touches_only (uid : option uuid) (tbl tbl' : list users.row) : Prop :=
  Forall2 (fun r r' => users.id r' = users.id r
                       /\ (is_user uid r = false -> r' = r)) tbl tbl'.


(** What one dispatched action may change: the caller's row, the ledger and
    the activities.  No row of the queue turns unprocessed or is added
    unprocessed, and for a caller without a row nothing but the queue
    changes. *)
Definition step_frame (env : session) (db db' : database) : Prop :=
  touches_only (auth_uid env) (t_users db) (t_users db')
  /\ (forall r, In r (t_offline_actions db') ->
                offline_actions.processed r = false ->
                In r (t_offline_actions db))
  /\ (select_user (auth_uid env) db = None ->
      db' = with_offline_actions (t_offline_actions db') db).

(** A row whose league standing alone may differ from [u]'s: the league, the
    position, the weekly XP, the morning-bonus flag and [updated_at]. *)
Definition standing_only (u u' : users.row) : Prop :=
  exists v_league v_position v_weekly_xp v_morning v_updated_at,
    u' = users.mk (users.id u) (users.name u) (users.xp u) v_weekly_xp
           (users.lifetime_xp u) (users.level u) (users.streak u)
           (users.last_active_date u) (users.today_completed u)
           (users.total_days_studied u) (users.grace_passes_used u)
           (users.grace_passes_available u) (users.gems u)
           v_league v_position v_morning (users.has_streak_bonus u) v_updated_at.

(** The state of the loops when [run_weekly_league_update] leaves them. *)
Definition league_loops (env : session) (db : database) : league_loop :=
  fold_left (league_pass (now env)) leagues_descending
            (mkLoop (t_users db) 0 1 []).

(** Entries of the rankings in the order of the leagues, highest first. *)
Definition by_old_league (a b : ranking.entry) : Prop :=
  ranking.old_league b <= ranking.old_league a.

(** ** Scenarios

    The rows and calls of tests/idempotency.test.sql,
    tests/league_promotion.test.sql and tests/unit_tests.js. *)

Local Open Scope string_scope.

(** 2026-11-01 (a Sunday), 07:00:00 and 12:00:00 UTC. *)
Definition sunday : date := 20758.
Definition sunday_7am : timestamptz := 1793516400000000.
Definition sunday_noon : timestamptz := 1793534400000000.

(** [INSERT INTO users (id, email, name, league, weekly_xp, xp)], the other
    columns at their defaults. *)
Definition inserted_user (v_id : uuid) (v_name : string)
    (v_league v_weekly_xp v_xp : Z) : users.row :=
  users.mk v_id v_name v_xp v_weekly_xp 0 1 0 sunday false 0 0 1 50
           v_league 0 false false sunday_7am.

Definition test_user : users.row :=
  inserted_user "00000000-0000-0000-0000-000000000001" "Test User" 1 0 100.

Definition as_test_user (v_now : timestamptz) : session :=
  mkSession (Some (users.id test_user)) v_now.

(** A stranger: authenticated, but without a row in [users]. *)
Definition as_stranger (v_now : timestamptz) : session :=
  mkSession (Some "99999999-0000-0000-0000-000000000009") v_now.

Definition db_test_user : database := mkDb [test_user] [] [] [] [] [].

(** The test user once 50 XP have been recorded under one action. *)
Definition db_test_user_awarded : database :=
  awarded_db (as_test_user sunday_noon) test_user 50
             "test_challenge" "test_idempotency_1" (JObj []) db_test_user.

(** The test user holding the streak-bonus flag and a 2x booster bought at
    06:30 that runs until 08:30. *)
Definition db_bonuses : database :=
  mkDb [users.set_has_streak_bonus true test_user] [] []
       [boosters.mk (users.id test_user) "2x" (sunday_7am + 5400000000) true
                    (sunday_7am - 1800000000)]
       [] [].

(** The grace-pass user of tests/unit_tests.js: two passes, streak 0. *)
Definition grace_user : users.row :=
  users.set_grace 0 2 0
    (inserted_user "00000000-0000-0000-0000-000000000002" "Grace User" 1 0 0).

Definition db_grace : database := mkDb [grace_user] [] [] [] [] [].

Definition as_grace_user (v_now : timestamptz) : session :=
  mkSession (Some (users.id grace_user)) v_now.

(** A giver and a recipient. *)
Definition recipient : users.row :=
  inserted_user "00000000-0000-0000-0000-000000000003" "Friend" 1 0 0.

Definition db_friends : database := mkDb [test_user; recipient] [] [] [] [] [].

(** Test 1 of tests/league_promotion.test.sql, each user having used the
    morning bonus. *)
Definition bronze_top : users.row :=
  users.set_has_used_morning_bonus true
    (inserted_user "10000000-0000-0000-0000-000000000001" "Bronze Top" 1 800 2000).
Definition bronze_second : users.row :=
  users.set_has_used_morning_bonus true
    (inserted_user "10000000-0000-0000-0000-000000000002" "Bronze Second" 1 600 1500).
Definition bronze_third : users.row :=
  users.set_has_used_morning_bonus true
    (inserted_user "10000000-0000-0000-0000-000000000003" "Bronze Third" 1 550 1200).
Definition bronze_fourth : users.row :=
  users.set_has_used_morning_bonus true
    (inserted_user "10000000-0000-0000-0000-000000000004" "Bronze Fourth" 1 300 800).

Definition bronze_four : list users.row :=
  [bronze_top; bronze_second; bronze_third; bronze_fourth].

Definition db_bronze_four : database := mkDb bronze_four [] [] [] [] [].

Definition db_bronze_four_updated : database :=
  snd (run_weekly_league_update (mkSession None sunday_noon) db_bronze_four).

(** Test 3 of tests/league_promotion.test.sql. *)
Definition diamond_user : users.row :=
  inserted_user "40000000-0000-0000-0000-000000000001" "Diamond User" 4 200 5000.
Definition bronze_user : users.row :=
  inserted_user "10000000-0000-0000-0000-000000000001" "Bronze User" 1 800 1000.

Definition db_four_leagues : database :=
  mkDb [bronze_user;
        inserted_user "20000000-0000-0000-0000-000000000001" "Silver User" 2 600 2000;
        inserted_user "30000000-0000-0000-0000-000000000001" "Gold User" 3 400 3000;
        diamond_user]
       [] [] [] [] [].

(** Six Diamond members and fifteen Gold members, all with weekly XP. *)
Definition numbered (prefix : string) (n : nat) : string :=
  prefix ++ int_text (Z.of_nat n).

Definition six_diamond : list users.row :=
  map (fun n => inserted_user (numbered "diamond-" n) (numbered "Diamond " n)
                              4 (700 - Z.of_nat n) 5000)
      (seq 1 6).

Definition fifteen_gold : list users.row :=
  map (fun n => inserted_user (numbered "gold-" n) (numbered "Gold " n)
                              3 (400 - Z.of_nat n) 3000)
      (seq 1 15).

Definition db_two_leagues : database :=
  mkDb (six_diamond ++ fifteen_gold)%list [] [] [] [] [].

Definition db_two_leagues_updated : database :=
  snd (run_weekly_league_update (mkSession None sunday_noon) db_two_leagues).

(** The league of the user with key [i]. *)
Definition league_of (i : uuid) (db : database) : option Z :=
  option_map users.league (select_user (Some i) db).

(** How often the rankings of the latest snapshot list the user [i]. *)
Definition times_ranked (i : uuid) (db : database) : nat :=
  match rev (t_league_snapshots db) with
  | [] => O
  | snapshot :: _ =>
      List.length (filter (fun e => String.eqb (ranking.user_id e) i)
                          (league_snapshots.user_rankings snapshot))
  end.

(** A signed-in client whose streak of 5 was last extended on [day]. *)
Definition streak_client (day : date) : UserService.client :=
  UserService.mkClient
    (Some (Stats.mk 5 0 0 0 1 50 false day 5 false false None)) [] [].

Definition device_sunday_noon : UserService.device :=
  UserService.mkDevice 1793534400000 true.

(** The test user is awarded 50 XP while a friend has a row of their own. *)
Definition db_friends_awarded : database :=
  awarded_db (as_test_user sunday_noon) test_user 50
             "test_challenge" "friends_1" (JObj []) db_friends.

(** The test user after 100 XP at 07:00 with the three bonuses (600 XP), and
    after 100 XP more a minute later, the booster still running. *)
Definition db_bonuses_awarded : database :=
  awarded_db (as_test_user sunday_7am)
             (users.set_has_streak_bonus true test_user) 600
             "Daily Challenge" "challenge_1" (JObj []) db_bonuses.

Definition db_bonuses_awarded_again : database :=
  awarded_db (as_test_user (sunday_7am + 60000000))
             (awarded_row sunday_7am (users.set_has_streak_bonus true test_user) 600)
             200 "Memory Verses" "flashcards_1" (JObj []) db_bonuses_awarded.

(** The test user has gifted the friend a 3x booster at noon. *)
Definition db_friends_gifted : database :=
  mkDb (t_users db_friends) []
       [activities.mk (Some (users.id test_user)) "booster_gifted"
          "Gifted a 3x XP booster"
          (jsonb_build_object [("to_user_id", JStr (users.id recipient));
                               ("booster_type", JStr "3x")])
          sunday_noon]
       [boosters.mk (users.id recipient) "3x" (sunday_noon + hours 1) true
                    sunday_noon]
       [] [].

(** The grace-pass user with one pass left, and after redeeming it. *)
Definition db_last_pass : database :=
  mkDb [users.set_grace 1 1 4 grace_user] [] [] [] [] [].

Definition db_last_pass_redeemed : database :=
  redeemed_db (as_grace_user sunday_noon) (users.set_grace 1 1 4 grace_user)
              "tok2" db_last_pass.

(** The test user's queue: an award of 50 XP, a grace pass and an action of
    an unknown type, queued at 07:00, 07:01 and 07:02. *)
Definition queued_award : offline_actions.row :=
  offline_actions.mk (users.id test_user) "offline_award_xp_1" "award_xp"
    (jsonb_build_object [("amount", JNum 50);
                         ("source", JStr "Offline Challenge")])
    false sunday_7am.

Definition queued_grace_pass : offline_actions.row :=
  offline_actions.mk (users.id test_user) "offline_redeem_grace_pass_1"
    "redeem_grace_pass" (JObj []) false (sunday_7am + 60000000).

Definition queued_unknown : offline_actions.row :=
  offline_actions.mk (users.id test_user) "offline_sync_profile_1"
    "sync_profile" (JObj []) false (sunday_7am + 120000000).

Definition db_queue : database :=
  mkDb [test_user; recipient] [] [] []
       [queued_unknown; queued_award; queued_grace_pass] [].

Definition db_queue_award_only : database :=
  mkDb [test_user; recipient] [] [] [] [queued_award] [].

(** A server whose [integer] input accepts no text at all, and whose
    [jsonb] output is left blank: the queued payloads hold JSON numbers and
    strings only. *)
Definition int4in_rejecting (t : string) : attempt Z :=
  Aborted invalid_text_representation.

Definition jsonb_out_blank (j : jsonb) : string := EmptyString.

(** The queue after a run by its owner, by the friend and by a stranger. *)
Definition db_queue_after (env : session) : database :=
  match process_offline_actions int4in_rejecting jsonb_out_blank env
          (users.id test_user) db_queue with
  | Done (_, db) => db
  | Aborted _ => db_queue
  end.

Definition as_recipient (v_now : timestamptz) : session :=
  mkSession (Some (users.id recipient)) v_now.

(** Rows of the four Bronze users after the update. *)
Definition bronze_top_promoted : users.row :=
  users.update_updated_at_column sunday_noon (users.set_league 2 1 bronze_top).


(** A device in UTC, a day after [device_sunday_noon], and local storage
    holding a user with 120 gems. *)
Definition device_monday_noon : UserService.device :=
  UserService.mkDevice (1793534400000 + 86400000) true.

Definition local_device (ms : Z) : LocalUserService.device :=
  LocalUserService.mkDevice ms (fun t => (t / 3600000) mod 24)
                            (fun t => t / ms_per_day).

Definition local_storage : LocalUserService.storage :=
  LocalUserService.mkStorage
    (Some (Stats.mk 5 0 0 0 1 120 false (sunday - 1) 5 true false None)) [].


Local Close Scope string_scope.

(** * Properties *)

(** ** The transaction monad *)

Lemma bind_Ok : forall (A B : Type) (m : result A) (k : A -> result B) (b : B),
    bind m k = Ok b -> exists a, m = Ok a /\ k a = Ok b.
Proof.
  intros A B [a | e] k b H; simpl in H.
  - exists a; auto.
  - discriminate.
Qed.

Lemma int4_in : forall z, in_int4 z -> int4 z = Ok z.
Proof.
  unfold in_int4, int4; intros z [Hlo Hhi].
  apply Z.leb_le in Hlo. apply Z.leb_le in Hhi.
  now rewrite Hlo, Hhi.
Qed.

Lemma int4_Ok : forall z r, int4 z = Ok r -> r = z /\ in_int4 z.
Proof.
  unfold in_int4, int4; intros z r H.
  destruct (int4_min <=? z) eqn:Hlo; destruct (z <=? int4_max) eqn:Hhi;
    simpl in H; try discriminate.
  apply Z.leb_le in Hlo. apply Z.leb_le in Hhi.
  injection H as <-. auto.
Qed.

(** ** Updates by primary key *)

Lemma update_where_untouched :
  forall (A : Type) (cond : A -> bool) (set : A -> result A) (tbl : list A),
    (forall r, In r tbl -> cond r = false) ->
    update_where cond set tbl = Ok tbl.
Proof.
  induction tbl as [| r rest IH]; intros H; simpl; [reflexivity |].
  rewrite (H r (or_introl eq_refl)); simpl.
  rewrite IH; [reflexivity |].
  intros x Hx; apply H; now right.
Qed.

Lemma replace_row_untouched : forall i u' tbl,
    ~ In i (map users.id tbl) -> replace_row i u' tbl = tbl.
Proof.
  induction tbl as [| r rest IH]; intros H; simpl; [reflexivity |].
  simpl in H.
  destruct (String.eqb (users.id r) i) eqn:E.
  - apply String.eqb_eq in E. tauto.
  - f_equal. apply IH. tauto.
Qed.

Lemma update_where_pk :
  forall i set tbl u,
    NoDup (map users.id tbl) ->
    find (fun r => String.eqb (users.id r) i) tbl = Some u ->
    update_where (fun r => String.eqb (users.id r) i) set tbl
    = (u' <- set u ;; Ok (replace_row i u' tbl)).
Proof.
  induction tbl as [| r rest IH]; intros u Hnd Hfind; simpl in *; [discriminate |].
  inversion Hnd as [| ? ? Hnotin Hnd']; subst.
  destruct (String.eqb (users.id r) i) eqn:E.
  - injection Hfind as <-.
    apply String.eqb_eq in E. subst i.
    destruct (set r) as [u' | e]; simpl; [| reflexivity].
    rewrite update_where_untouched; simpl.
    + now rewrite (replace_row_untouched _ u' _ Hnotin).
    + intros x Hx. apply String.eqb_neq. intros Heq.
      apply Hnotin. rewrite <- Heq. now apply in_map.
  - simpl. rewrite (IH u Hnd' Hfind).
    destruct (set u) as [u' | e]; reflexivity.
Qed.

Lemma find_id : forall i tbl u,
    find (fun r => String.eqb (users.id r) i) tbl = Some u -> users.id u = i.
Proof.
  intros i tbl u H. apply find_some in H. now apply String.eqb_eq.
Qed.

Lemma select_user_Some : forall uid db u,
    select_user uid db = Some u ->
    uid = Some (users.id u)
    /\ find (fun r => String.eqb (users.id r) (users.id u)) (t_users db) = Some u.
Proof.
  unfold select_user; intros [i |] db u H; [| discriminate].
  pose proof (find_id _ _ _ H) as Hid. subst i. auto.
Qed.

Lemma update_user_pk : forall v_now uid set db u,
    pk_users db ->
    select_user uid db = Some u ->
    update_user v_now uid set db
    = (u' <- set u ;;
       Ok (with_users
             (replace_row (users.id u) (users.update_updated_at_column v_now u')
                          (t_users db)) db)).
Proof.
  intros v_now uid set db u Hpk Hsel.
  destruct (select_user_Some _ _ _ Hsel) as [-> Hfind].
  unfold update_user, is_user.
  rewrite (update_where_pk _ _ _ _ Hpk Hfind).
  destruct (set u); reflexivity.
Qed.

Lemma map_id_replace_row : forall i u' tbl,
    users.id u' = i -> map users.id (replace_row i u' tbl) = map users.id tbl.
Proof.
  intros i u' tbl Hid. unfold replace_row. rewrite map_map.
  apply map_ext. intros r.
  destruct (String.eqb (users.id r) i) eqn:E; [| reflexivity].
  apply String.eqb_eq in E. congruence.
Qed.

Lemma find_replace_row : forall i u' tbl u,
    users.id u' = i ->
    find (fun r => String.eqb (users.id r) i) tbl = Some u ->
    find (fun r => String.eqb (users.id r) i) (replace_row i u' tbl) = Some u'.
Proof.
  induction tbl as [| r rest IH]; intros u Hid Hfind; simpl in *; [discriminate |].
  destruct (String.eqb (users.id r) i) eqn:E; simpl.
  - subst i. now rewrite String.eqb_refl.
  - rewrite E. eapply IH; eauto.
Qed.

Lemma replace_row_twice : forall i u1 u2 tbl,
    users.id u1 = i ->
    replace_row i u2 (replace_row i u1 tbl) = replace_row i u2 tbl.
Proof.
  intros i u1 u2 tbl Hid. unfold replace_row. rewrite map_map.
  apply map_ext. intros r.
  destruct (String.eqb (users.id r) i) eqn:E.
  - subst i. now rewrite String.eqb_refl.
  - now rewrite E.
Qed.

Lemma select_user_replace_row : forall uid db u u',
    select_user uid db = Some u ->
    users.id u' = users.id u ->
    select_user uid (with_users (replace_row (users.id u) u' (t_users db)) db)
    = Some u'.
Proof.
  intros uid db u u' Hsel Hid.
  destruct (select_user_Some _ _ _ Hsel) as [-> Hfind].
  unfold select_user; simpl.
  eapply find_replace_row; eauto.
Qed.

Lemma pk_users_replace_row : forall db i u',
    pk_users db -> users.id u' = i ->
    pk_users (with_users (replace_row i u' (t_users db)) db).
Proof.
  unfold pk_users; intros db i u' Hpk Hid; simpl.
  now rewrite map_id_replace_row.
Qed.

(** ** award_xp *)

Lemma existsb_of_find : forall i tbl u,
    find (fun r => String.eqb (users.id r) i) tbl = Some u ->
    existsb (fun r => String.eqb (users.id r) i) tbl = true.
Proof.
  intros i tbl u H. apply existsb_exists. exists u.
  split; [eapply find_some; eauto | now apply (find_some _ _ H)].
Qed.

Lemma insert_activity_user : forall a db u,
    select_user (activities.user_id a) db = Some u ->
    insert_activity a db = Ok (with_activities (t_activities db ++ [a]) db).
Proof.
  intros a db u Hsel. unfold insert_activity.
  destruct (select_user_Some _ _ _ Hsel) as [Huid Hfind].
  rewrite Huid. now rewrite (existsb_of_find _ _ _ Hfind).
Qed.

Ltac check_int4 :=
  match goal with
  | |- context [int4 ?z] =>
      let H := fresh "Hrange" in
      destruct (int4 z) as [? | ?] eqn:H; cbn [bind];
      [apply int4_Ok in H; destruct H as [-> H] | reflexivity]
  end.

Lemma record_award_pk : forall env u uc a p_source p_action_id p_meta db,
    pk_users db ->
    select_ledger p_action_id db = None ->
    select_user (auth_uid env) db = Some uc ->
    users.id uc = users.id u ->
    users.xp uc = users.xp u ->
    record_award env u a p_source p_action_id p_meta db
    = (_ <- int4 (users.xp u + a) ;;
       _ <- int4 (users.weekly_xp uc + a) ;;
       _ <- int4 (users.lifetime_xp uc + a) ;;
       _ <- int4 (users.gems uc + Z.quot a 100) ;;
       Ok (xp_awarded_response a (Z.quot (users.xp u + a) 500 + 1) (Z.quot a 100),
           mkDb (replace_row (users.id u)
                   (users.update_updated_at_column (now env)
                      (users.set_progress (users.xp u + a) (users.weekly_xp uc + a)
                         (users.lifetime_xp uc + a)
                         (Z.quot (users.xp u + a) 500 + 1)
                         (users.gems uc + Z.quot a 100) uc))
                   (t_users db))
                (t_xp_ledger db ++
                   [xp_ledger.mk (users.id u) p_action_id a p_source p_meta (now env)])
                (t_activities db ++
                   [activities.mk (auth_uid env) "challenge_completed"
                      ("Completed " ++ p_source ++ " and earned "
                         ++ int_text a ++ " XP")%string
                      (jsonb_build_object [("xp_earned", JNum a);
                                           ("source", JStr p_source)]%string)
                      (now env)])
                (t_boosters db) (t_offline_actions db) (t_league_snapshots db))).
Proof.
  intros env u uc a src aid meta db Hpk Hfresh Huser Hid Hxp.
  unfold record_award.
  check_int4.
  unfold insert_xp_ledger. cbn [xp_ledger.action_id]. rewrite Hfresh. cbn [bind].
  rewrite (update_user_pk (now env) (auth_uid env) _ _ uc); [| exact Hpk | exact Huser].
  rewrite Hxp, (int4_in _ Hrange). cbn [bind].
  do 3 check_int4.
  erewrite insert_activity_user.
  - cbn [bind]. rewrite Hid. reflexivity.
  - cbn [activities.user_id].
    apply (select_user_replace_row (auth_uid env) (with_xp_ledger _ db) uc).
    + exact Huser.
    + reflexivity.
Qed.

Lemma morning_flag : forall w used,
    (if w && negb used then true else used) = w || used.
Proof. now intros [|] [|]. Qed.


Ltac award_tail u0 uc Hpkc Hselc Hfresh Hflag :=
  match goal with
  | |- bind (apply_booster ?n ?u ?a ?dbc) _ = bind (apply_booster ?n ?u ?a ?db) _ =>
      change (apply_booster n u a dbc) with (apply_booster n u a db);
      destruct (apply_booster n u a db) as [final | e]; cbn [bind];
      [| reflexivity]
  end;
  rewrite (record_award_pk _ u0 uc _ _ _ _ _ Hpkc Hfresh Hselc eq_refl eq_refl);
  cbn [users.xp users.weekly_xp users.lifetime_xp users.gems users.id
       users.update_updated_at_column users.set_has_used_morning_bonus
       users.set_has_streak_bonus];
  repeat check_int4;
  unfold awarded_db; cbn [t_users t_xp_ledger t_activities t_boosters
                          t_offline_actions t_league_snapshots with_users];
  repeat (rewrite replace_row_twice by reflexivity);
  do 3 f_equal;
  unfold awarded_row, users.update_updated_at_column, users.set_progress,
    users.set_has_used_morning_bonus, users.set_has_streak_bonus;
  cbn [users.id users.name users.xp users.weekly_xp users.lifetime_xp
       users.level users.streak users.last_active_date users.today_completed
       users.total_days_studied users.grace_passes_used
       users.grace_passes_available users.gems users.league
       users.league_position users.has_used_morning_bonus
       users.has_streak_bonus users.updated_at];
  rewrite <- Hflag; try reflexivity.

Lemma award_xp_fresh_eq : forall env p_amount p_source p_action_id p_meta db u,
    pk_users db ->
    select_ledger p_action_id db = None ->
    select_user (auth_uid env) db = Some u ->
    award_xp env p_amount p_source p_action_id p_meta db
    = (a1 <- (if morning_window (now env) && negb (users.has_used_morning_bonus u)
              then int4 ((p_amount * 3) / 2) else Ok p_amount) ;;
       a2 <- (if users.has_streak_bonus u then int4 (a1 * 2) else Ok a1) ;;
       final <- apply_booster (now env) u a2 db ;;
       _ <- int4 (users.xp u + final) ;;
       _ <- int4 (users.weekly_xp u + final) ;;
       _ <- int4 (users.lifetime_xp u + final) ;;
       _ <- int4 (users.gems u + Z.quot final 100) ;;
       Ok (xp_awarded_response final (Z.quot (users.xp u + final) 500 + 1)
                               (Z.quot final 100),
           awarded_db env u final p_source p_action_id p_meta db)).
Proof.
  intros env amt src aid meta db u Hpk Hfresh Huser.
  unfold award_xp. rewrite Hfresh, Huser.
  unfold apply_morning_bonus, apply_streak_bonus.
  fold (morning_window (now env)).
  assert (Hflag := morning_flag (morning_window (now env)) (users.has_used_morning_bonus u)).
  destruct (morning_window (now env) && negb (users.has_used_morning_bonus u)) eqn:Hm;
    destruct (users.has_streak_bonus u) eqn:Hs.
  - check_int4.
    rewrite (update_user_pk _ _ _ _ u Hpk Huser). cbn [bind]. cbv beta iota.
    check_int4.
    set (u1 := users.update_updated_at_column (now env)
                 (users.set_has_used_morning_bonus true u)).
    assert (Hpk1 := pk_users_replace_row db (users.id u) u1 Hpk eq_refl).
    assert (Hsel1 := select_user_replace_row _ db u u1 Huser eq_refl).
    rewrite (update_user_pk _ _ _ _ u1 Hpk1 Hsel1).
    cbn [bind]. cbv beta iota.
    set (u2 := users.update_updated_at_column (now env)
                 (users.set_has_streak_bonus false u1)).
    assert (Hpk2 := pk_users_replace_row _ (users.id u1) u2 Hpk1 eq_refl).
    assert (Hsel2 := select_user_replace_row _ _ u1 u2 Hsel1 eq_refl).
    subst u1 u2.
    award_tail u (users.update_updated_at_column (now env)
                 (users.set_has_streak_bonus false (users.update_updated_at_column (now env)
                 (users.set_has_used_morning_bonus true u)))) Hpk2 Hsel2 Hfresh Hflag.
  - check_int4.
    rewrite (update_user_pk _ _ _ _ u Hpk Huser). cbn [bind]. cbv beta iota.
    set (u1 := users.update_updated_at_column (now env)
                 (users.set_has_used_morning_bonus true u)).
    assert (Hpk1 := pk_users_replace_row db (users.id u) u1 Hpk eq_refl).
    assert (Hsel1 := select_user_replace_row _ db u u1 Huser eq_refl).
    subst u1.
    award_tail u (users.update_updated_at_column (now env)
                 (users.set_has_used_morning_bonus true u)) Hpk1 Hsel1 Hfresh Hflag.
    now rewrite Hs.
  - cbn [bind]. cbv beta iota.
    check_int4.
    rewrite (update_user_pk _ _ _ _ u Hpk Huser). cbn [bind]. cbv beta iota.
    set (u1 := users.update_updated_at_column (now env)
                 (users.set_has_streak_bonus false u)).
    assert (Hpk1 := pk_users_replace_row db (users.id u) u1 Hpk eq_refl).
    assert (Hsel1 := select_user_replace_row _ db u u1 Huser eq_refl).
    subst u1.
    award_tail u (users.update_updated_at_column (now env)
                 (users.set_has_streak_bonus false u)) Hpk1 Hsel1 Hfresh Hflag.
  - cbn [bind]. cbv beta iota.
    award_tail u u Hpk Huser Hfresh Hflag.
    now rewrite Hs.
Qed.

(** *** What a returning call leaves in the ledger *)

Lemma update_user_Ok : forall v_now uid set db db',
    update_user v_now uid set db = Ok db' ->
    exists us, db' = with_users us db.
Proof.
  unfold update_user; intros v_now uid set db db' H.
  apply bind_Ok in H. destruct H as [us [_ H]].
  injection H as <-. now exists us.
Qed.

Lemma apply_morning_bonus_Ok : forall v_now uid u a db a' db',
    apply_morning_bonus v_now uid u a db = Ok (a', db') ->
    exists us, db' = with_users us db.
Proof.
  unfold apply_morning_bonus; intros v_now uid u a db a' db' H.
  destruct ((6 <=? extract_hour_utc v_now) && (extract_hour_utc v_now <? 9)
            && negb (users.has_used_morning_bonus u)).
  - apply bind_Ok in H. destruct H as [x [_ H]].
    apply bind_Ok in H. destruct H as [db1 [Hup H]].
    injection H as _ <-. eapply update_user_Ok; eauto.
  - injection H as _ <-. exists (t_users db). now destruct db.
Qed.

Lemma apply_streak_bonus_Ok : forall v_now uid u a db a' db',
    apply_streak_bonus v_now uid u a db = Ok (a', db') ->
    exists us, db' = with_users us db.
Proof.
  unfold apply_streak_bonus; intros v_now uid u a db a' db' H.
  destruct (users.has_streak_bonus u).
  - apply bind_Ok in H. destruct H as [x [_ H]].
    apply bind_Ok in H. destruct H as [db1 [Hup H]].
    injection H as _ <-. eapply update_user_Ok; eauto.
  - injection H as _ <-. exists (t_users db). now destruct db.
Qed.

Lemma insert_activity_Ok : forall a db db',
    insert_activity a db = Ok db' ->
    db' = with_activities (t_activities db ++ [a]) db.
Proof.
  unfold insert_activity; intros a db db' H.
  destruct (activities.user_id a) as [uid |].
  - destruct (existsb _ _); [now injection H as <- | discriminate].
  - now injection H as <-.
Qed.

Lemma record_award_Ok : forall env u a p_source p_action_id p_meta db r db',
    record_award env u a p_source p_action_id p_meta db = Ok (r, db') ->
    json_get "success" r = Some (JBool true)
    /\ t_xp_ledger db'
       = t_xp_ledger db
           ++ [xp_ledger.mk (users.id u) p_action_id a p_source p_meta (now env)].
Proof.
  unfold record_award; intros env u a src aid meta db r db' H.
  apply bind_Ok in H. destruct H as [v_total [_ H]].
  apply bind_Ok in H. destruct H as [db1 [Hins H]].
  apply bind_Ok in H. destruct H as [db2 [Hup H]].
  apply bind_Ok in H. destruct H as [db3 [Hact H]].
  injection H as <- <-.
  split; [reflexivity |].
  apply insert_activity_Ok in Hact. subst db3.
  apply update_user_Ok in Hup. destruct Hup as [us ->].
  unfold insert_xp_ledger in Hins.
  destruct (select_ledger _ db); [discriminate |].
  injection Hins as <-. reflexivity.
Qed.

Lemma award_xp_replay : forall env p_amount p_source p_action_id p_meta db e,
    select_ledger p_action_id db = Some e ->
    award_xp env p_amount p_source p_action_id p_meta db
    = Ok (already_processed_xp, db).
Proof.
  intros env amt src aid meta db e H. unfold award_xp. now rewrite H.
Qed.

Lemma award_xp_records : forall env p_amount p_source p_action_id p_meta db u r db',
    select_ledger p_action_id db = None ->
    select_user (auth_uid env) db = Some u ->
    award_xp env p_amount p_source p_action_id p_meta db = Ok (r, db') ->
    exists final,
      json_get "success" r = Some (JBool true)
      /\ t_xp_ledger db'
         = t_xp_ledger db
             ++ [xp_ledger.mk (users.id u) p_action_id final p_source p_meta (now env)].
Proof.
  intros env amt src aid meta db u r db' Hfresh Huser H.
  unfold award_xp in H. rewrite Hfresh, Huser in H.
  apply bind_Ok in H. destruct H as [[a1 db1] [Hm H]].
  apply bind_Ok in H. destruct H as [[a2 db2] [Hs H]].
  apply bind_Ok in H. destruct H as [final [_ H]].
  apply record_award_Ok in H. destruct H as [Hsucc Hledger].
  apply apply_morning_bonus_Ok in Hm. destruct Hm as [us1 ->].
  apply apply_streak_bonus_Ok in Hs. destruct Hs as [us2 ->].
  exists final. split; [exact Hsucc | exact Hledger].
Qed.

Lemma find_app_last : forall (A : Type) (p : A -> bool) l x,
    find p l = None -> p x = true -> find p (l ++ [x]) = Some x.
Proof.
  induction l as [| y l IH]; intros x Hnone Hx; simpl in *.
  - now rewrite Hx.
  - destruct (p y); [discriminate | now apply IH].
Qed.

Lemma filter_find_none : forall (A : Type) (p : A -> bool) l,
    find p l = None -> filter p l = [].
Proof.
  induction l as [| y l IH]; intros H; simpl in *; [reflexivity |].
  destruct (p y); [discriminate | now apply IH].
Qed.

Lemma unique_key_once : forall (l : list xp_ledger.row) k e,
    NoDup (map xp_ledger.action_id l) ->
    find (fun x => String.eqb (xp_ledger.action_id x) k) l = Some e ->
    List.length (filter (fun x => String.eqb (xp_ledger.action_id x) k) l) = 1%nat.
Proof.
  induction l as [| y l IH]; intros k e Hnd Hfind; simpl in *; [discriminate |].
  inversion Hnd as [| ? ? Hnotin Hnd']; subst.
  destruct (String.eqb (xp_ledger.action_id y) k) eqn:E.
  - simpl. f_equal.
    destruct (filter (fun x => String.eqb (xp_ledger.action_id x) k) l) as [| z rest] eqn:Hf;
      [reflexivity |].
    exfalso. apply Hnotin.
    assert (Hz : In z (filter (fun x => String.eqb (xp_ledger.action_id x) k) l))
      by (rewrite Hf; now left).
    apply filter_In in Hz. destruct Hz as [Hin Hk].
    apply String.eqb_eq in E, Hk. rewrite E, <- Hk. now apply in_map.
  - eapply IH; eauto.
Qed.

(** C10.  A call to [award_xp] whose [action_id] is already in the ledger
    returns the "Already processed" success with zero XP and leaves the whole
    database as it was, whoever calls: the ledger probe comes before the
    lookup of the caller's row, so the outcome is never "User not found". *)
Theorem award_xp_replay_before_user_lookup :
  forall env p_amount p_source p_action_id p_meta db,
    select_ledger p_action_id db <> None ->
    award_xp env p_amount p_source p_action_id p_meta db
    = Ok (already_processed_xp, db)
    /\ json_get "success" already_processed_xp = Some (JBool true)
    /\ json_get "xp_awarded" already_processed_xp = Some (JNum 0).
Proof.
  intros env amt src aid meta db H.
  destruct (select_ledger aid db) as [e |] eqn:He; [| congruence].
  split; [eapply award_xp_replay; eauto | split; reflexivity].
Qed.

(** C1.  When a user's call to [award_xp] returns, it reports success, and a
    second call with the same arguments (made at any later time) changes
    nothing in the database, reports success with [xp_awarded = 0], and the
    ledger holds exactly one entry for the [action_id]. *)
Theorem award_xp_idempotent :
  forall env1 env2 p_amount p_source p_action_id p_meta db r1 db1,
    ledger_unique db ->
    select_user (auth_uid env1) db <> None ->
    award_xp env1 p_amount p_source p_action_id p_meta db = Ok (r1, db1) ->
    json_get "success" r1 = Some (JBool true)
    /\ award_xp env2 p_amount p_source p_action_id p_meta db1
       = Ok (already_processed_xp, db1)
    /\ json_get "xp_awarded" already_processed_xp = Some (JNum 0)
    /\ List.length (ledger_entries p_action_id db1) = 1%nat.
Proof.
  intros env1 env2 amt src aid meta db r1 db1 Huniq Huser H1.
  destruct (select_ledger aid db) as [e |] eqn:He.
  - rewrite (award_xp_replay env1 amt src aid meta db e He) in H1.
    injection H1 as <- <-.
    repeat split.
    + eapply award_xp_replay; eauto.
    + unfold ledger_entries. eapply unique_key_once; eauto.
  - destruct (select_user (auth_uid env1) db) as [u |] eqn:Hu; [| congruence].
    destruct (award_xp_records _ _ _ _ _ _ _ _ _ He Hu H1) as [final [Hsucc Hledger]].
    split; [exact Hsucc |].
    assert (Hnow : select_ledger aid db1
                   = Some (xp_ledger.mk (users.id u) aid final src meta (now env1))).
    { unfold select_ledger. rewrite Hledger.
      apply find_app_last; [exact He | apply String.eqb_refl]. }
    repeat split.
    + eapply award_xp_replay; eauto.
    + unfold ledger_entries. rewrite Hledger, filter_app.
      unfold select_ledger in He. rewrite (filter_find_none _ _ _ He).
      simpl. now rewrite String.eqb_refl.
Qed.

(** ** ORDER BY *)

Section OrderByFacts.
Variable A : Type.
Variable before : A -> A -> bool.

Lemma place_perm : forall x l, Permutation (place before x l) (x :: l).
Proof.
  induction l as [| y l IH]; simpl; [apply Permutation_refl |].
  destruct (before x y); [apply Permutation_refl |].
  eapply perm_trans; [apply perm_skip, IH | apply perm_swap].
Qed.

Lemma order_by_perm : forall l, Permutation (order_by before l) l.
Proof.
  induction l as [| x l IH]; simpl; [constructor |].
  eapply perm_trans; [apply place_perm | now apply perm_skip].
Qed.

Lemma order_by_In : forall x l, In x (order_by before l) <-> In x l.
Proof.
  intros x l; split; apply Permutation_in;
    [apply order_by_perm | apply Permutation_sym, order_by_perm].
Qed.

Lemma order_by_length : forall l, List.length (order_by before l) = List.length l.
Proof. intros l. apply Permutation_length, order_by_perm. Qed.

Hypothesis before_total : forall x y, before x y = true \/ before y x = true.
Hypothesis before_trans :
  forall x y z, before x y = true -> before y z = true -> before x z = true.

Lemma place_ordered : forall x l, ordered before l -> ordered before (place before x l).
Proof.
  induction l as [| y l IH]; intros Hl; simpl.
  - constructor; constructor.
  - inversion Hl as [| ? ? Hl' Hy]; subst.
    destruct (before x y) eqn:E.
    + constructor; [exact Hl |].
      constructor; [exact E |].
      eapply Forall_impl; [| exact Hy].
      intros z Hz. eapply before_trans; eauto.
    + constructor; [now apply IH |].
      apply Forall_forall. intros z Hz.
      apply (Permutation_in _ (place_perm x l)) in Hz.
      destruct Hz as [<- | Hz].
      * destruct (before_total x y) as [H | H]; congruence.
      * rewrite Forall_forall in Hy. now apply Hy.
Qed.

Lemma order_by_ordered : forall l, ordered before (order_by before l).
Proof.
  induction l as [| x l IH]; simpl; [constructor | now apply place_ordered].
Qed.

(** Inserting a row before a list it precedes entirely puts it in front. *)
Lemma place_front : forall x l,
    Forall (fun y => before x y = true) l -> place before x l = x :: l.
Proof.
  intros x [| y l] H; simpl; [reflexivity |].
  inversion H; subst. now match goal with E : before x y = true |- _ => rewrite E end.
Qed.

Lemma filter_place : forall (p : A -> bool) x l,
    ordered before l ->
    filter p (place before x l)
    = if p x then place before x (filter p l) else filter p l.
Proof.
  induction l as [| y l IH]; intros Hl; simpl.
  - now destruct (p x).
  - inversion Hl as [| ? ? Hl' Hy]; subst.
    destruct (before x y) eqn:E; simpl.
    + destruct (p x) eqn:Px; [| reflexivity].
      destruct (p y) eqn:Py; simpl; [now rewrite E |].
      symmetry. apply place_front.
      apply Forall_forall. intros z Hz.
      apply filter_In in Hz. destruct Hz as [Hz _].
      rewrite Forall_forall in Hy. eapply before_trans; eauto.
    + rewrite (IH Hl').
      destruct (p x) eqn:Px; destruct (p y) eqn:Py; simpl;
        try rewrite E; reflexivity.
Qed.

(** Selection commutes with ordering: equal rows keep their storage order. *)
Lemma filter_order_by : forall (p : A -> bool) l,
    filter p (order_by before l) = order_by before (filter p l).
Proof.
  induction l as [| x l IH]; simpl; [reflexivity |].
  rewrite filter_place by apply order_by_ordered.
  rewrite IH. now destruct (p x).
Qed.

(** In an ordered before list, a selection closed under "comes before" is a prefix. *)
Lemma ordered_prefix : forall (p : A -> bool) l,
    ordered before l ->
    (forall x y, before x y = true -> p y = true -> p x = true) ->
    l = filter p l ++ filter (fun x => negb (p x)) l.
Proof.
  induction l as [| x l IH]; intros Hl Hp; simpl; [reflexivity |].
  inversion Hl as [| ? ? Hl' Hx]; subst.
  destruct (p x) eqn:Px; simpl.
  - f_equal. now apply IH.
  - assert (Hnone : filter p l = []).
    { destruct (filter p l) as [| z rest] eqn:Hf; [reflexivity |].
      assert (Hz : In z (filter p l)) by (rewrite Hf; now left).
      apply filter_In in Hz. destruct Hz as [Hz Pz].
      rewrite Forall_forall in Hx.
      rewrite (Hp x z (Hx z Hz) Pz) in Px. discriminate. }
    rewrite Hnone. simpl. f_equal.
    rewrite (IH Hl' Hp) at 1. now rewrite Hnone.
Qed.
End OrderByFacts.

(** *** Bonuses *)

Lemma booster_factor_cases : forall v_now u db,
    booster_factor v_now u db = 1 \/ booster_factor v_now u db = 2
    \/ booster_factor v_now u db = 3.
Proof.
  intros v_now u db. unfold booster_factor.
  destruct (order_by expires_desc _) as [| b rest]; [now left |].
  destruct (String.eqb (boosters.type b) "3x"); [now right; right |].
  destruct (String.eqb (boosters.type b) "2x"); [now right; left | now left].
Qed.

Lemma apply_booster_Ok : forall v_now u a db,
    in_int4 (a * booster_factor v_now u db) ->
    apply_booster v_now u a db = Ok (a * booster_factor v_now u db).
Proof.
  intros v_now u a db. unfold booster_factor, apply_booster.
  destruct (order_by expires_desc _) as [| b rest].
  - intros _. now rewrite Z.mul_1_r.
  - destruct (String.eqb (boosters.type b) "3x"); [apply int4_in |].
    destruct (String.eqb (boosters.type b) "2x"); [apply int4_in |].
    intros _. now rewrite Z.mul_1_r.
Qed.

Lemma apply_booster_inv : forall v_now u a db r,
    apply_booster v_now u a db = Ok r -> r = a * booster_factor v_now u db.
Proof.
  intros v_now u a db r. unfold booster_factor, apply_booster.
  destruct (order_by expires_desc _) as [| b rest].
  - intros H. injection H as <-. now rewrite Z.mul_1_r.
  - destruct (String.eqb (boosters.type b) "3x");
      [intros H; now apply int4_Ok in H |].
    destruct (String.eqb (boosters.type b) "2x");
      [intros H; now apply int4_Ok in H |].
    intros H. injection H as <-. now rewrite Z.mul_1_r.
Qed.

Lemma booster_factor_2x : forall v_now u db,
    active_boosters (users.id u) v_now db <> [] ->
    (forall b, In b (active_boosters (users.id u) v_now db) ->
               boosters.type b = "2x"%string) ->
    booster_factor v_now u db = 2.
Proof.
  intros v_now u db Hne Hall. unfold booster_factor.
  destruct (order_by expires_desc (active_boosters (users.id u) v_now db))
    as [| b rest] eqn:Ho.
  - exfalso. apply Hne.
    apply Permutation_nil. rewrite <- Ho.
    first [apply order_by_perm | apply Permutation_sym, order_by_perm].
  - assert (Hb : boosters.type b = "2x"%string).
    { apply Hall. apply (order_by_In _ expires_desc). rewrite Ho. now left. }
    now rewrite Hb.
Qed.

Lemma award_xp_fresh_Ok : forall env p_amount p_source p_action_id p_meta db u,
    pk_users db ->
    select_ledger p_action_id db = None ->
    select_user (auth_uid env) db = Some u ->
    award_in_range (now env) u db p_amount ->
    let final := bonus_amount (now env) u db p_amount in
    award_xp env p_amount p_source p_action_id p_meta db
    = Ok (xp_awarded_response final (Z.quot (users.xp u + final) 500 + 1)
                              (Z.quot final 100),
          awarded_db env u final p_source p_action_id p_meta db).
Proof.
  intros env amt src aid meta db u Hpk Hfresh Huser
         (Hamt & Hfinal & Hxp & Hweekly & Hlifetime & Hgems) final.
  rewrite (award_xp_fresh_eq env amt src aid meta db u Hpk Hfresh Huser).
  unfold bonus_amount in *. subst final.
  set (a1 := if morning_window (now env) && negb (users.has_used_morning_bonus u)
             then amt * 3 / 2 else amt) in *.
  set (a2 := if users.has_streak_bonus u then a1 * 2 else a1) in *.
  assert (Hsteps : in_int4 a1 /\ in_int4 a2).
  { unfold in_int4, int4_min, int4_max in *. subst a2 a1.
    destruct (booster_factor_cases (now env) u db) as [Hf | [Hf | Hf]];
      rewrite Hf in Hfinal;
      destruct (morning_window (now env) && negb (users.has_used_morning_bonus u));
      destruct (users.has_streak_bonus u);
      Z.to_euclidean_division_equations; lia. }
  destruct Hsteps as [H1 H2].
  replace (if morning_window (now env) && negb (users.has_used_morning_bonus u)
           then int4 (amt * 3 / 2) else Ok amt) with (Ok a1)
    by (subst a1; destruct (morning_window (now env) && negb _);
        [now rewrite int4_in | reflexivity]).
  cbn [bind].
  replace (if users.has_streak_bonus u then int4 (a1 * 2) else Ok a1) with (Ok a2)
    by (subst a2; destruct (users.has_streak_bonus u);
        [now rewrite int4_in | reflexivity]).
  cbn [bind].
  rewrite (apply_booster_Ok _ _ _ _ Hfinal). cbn [bind].
  rewrite (int4_in _ Hxp), (int4_in _ Hweekly), (int4_in _ Hlifetime),
    (int4_in _ Hgems).
  reflexivity.
Qed.

Lemma award_xp_fresh_inv : forall env p_amount p_source p_action_id p_meta db u r db',
    pk_users db ->
    select_ledger p_action_id db = None ->
    select_user (auth_uid env) db = Some u ->
    award_xp env p_amount p_source p_action_id p_meta db = Ok (r, db') ->
    let final := bonus_amount (now env) u db p_amount in
    r = xp_awarded_response final (Z.quot (users.xp u + final) 500 + 1)
                            (Z.quot final 100)
    /\ db' = awarded_db env u final p_source p_action_id p_meta db.
Proof.
  intros env amt src aid meta db u r db' Hpk Hfresh Huser H final.
  rewrite (award_xp_fresh_eq env amt src aid meta db u Hpk Hfresh Huser) in H.
  apply bind_Ok in H. destruct H as [a1 [H1 H]].
  apply bind_Ok in H. destruct H as [a2 [H2 H]].
  apply bind_Ok in H. destruct H as [a3 [H3 H]].
  apply bind_Ok in H. destruct H as [? [_ H]].
  apply bind_Ok in H. destruct H as [? [_ H]].
  apply bind_Ok in H. destruct H as [? [_ H]].
  apply bind_Ok in H. destruct H as [? [_ H]].
  apply apply_booster_inv in H3.
  assert (Hfinal : a3 = final).
  { subst final a3. unfold bonus_amount.
    destruct (morning_window (now env) && negb (users.has_used_morning_bonus u));
      [apply int4_Ok in H1; destruct H1 as [-> _] | injection H1 as <-];
      (destruct (users.has_streak_bonus u);
       [apply int4_Ok in H2; destruct H2 as [-> _] | injection H2 as <-]);
      reflexivity. }
  rewrite Hfinal in H. injection H as <- <-. auto.
Qed.

Lemma morning_window_at_seven : forall v_now,
    extract_hour_utc v_now = 7 -> morning_window v_now = true.
Proof. intros v_now H. unfold morning_window. now rewrite H. Qed.

(** C3.  A first-time [award_xp] made at 07:xx UTC by a user whose morning
    bonus is unused, who holds the streak-bonus flag, and whose active
    boosters are all of type 2x, awards [floor(p_amount * 1.5) * 2 * 2]: the
    floor is taken at the morning step only, then the streak bonus doubles,
    then the booster doubles.  For [p_amount = 100] the amount is 600. *)
Theorem award_xp_bonus_compounding :
  forall env p_amount p_source p_action_id p_meta db u,
    pk_users db ->
    select_ledger p_action_id db = None ->
    select_user (auth_uid env) db = Some u ->
    extract_hour_utc (now env) = 7 ->
    users.has_used_morning_bonus u = false ->
    users.has_streak_bonus u = true ->
    active_boosters (users.id u) (now env) db <> [] ->
    (forall b, In b (active_boosters (users.id u) (now env) db) ->
               boosters.type b = "2x"%string) ->
    let final := ((p_amount * 3) / 2) * 2 * 2 in
    in_int4 p_amount -> in_int4 final ->
    in_int4 (users.xp u + final) ->
    in_int4 (users.weekly_xp u + final) ->
    in_int4 (users.lifetime_xp u + final) ->
    in_int4 (users.gems u + Z.quot final 100) ->
    award_xp env p_amount p_source p_action_id p_meta db
    = Ok (xp_awarded_response final (Z.quot (users.xp u + final) 500 + 1)
                              (Z.quot final 100),
          awarded_db env u final p_source p_action_id p_meta db)
    /\ (p_amount = 100 -> final = 600).
Proof.
  intros env amt src aid meta db u Hpk Hfresh Huser Hhour Hmorning Hstreak
         Hsome Hall final Hamt Hfinal Hxp Hweekly Hlifetime Hgems.
  assert (Hbonus : bonus_amount (now env) u db amt = final).
  { unfold bonus_amount.
    rewrite (morning_window_at_seven _ Hhour), Hmorning, Hstreak,
      (booster_factor_2x _ _ _ Hsome Hall).
    reflexivity. }
  split.
  - rewrite <- Hbonus.
    apply award_xp_fresh_Ok; try assumption.
    unfold award_in_range. rewrite Hbonus. auto 10.
  - intros ->. reflexivity.
Qed.

(** C6, as amended.  [award_xp] does not look at the sign of [p_amount]: a
    negative amount from an existing user under an unrecorded [action_id] is
    processed like any other.  The call succeeds with a negative
    [xp_awarded] (at most [p_amount]), appends one ledger entry holding it,
    and adds it to the user's [xp], [weekly_xp] and [lifetime_xp]. *)
Theorem award_xp_negative_amount_processed :
  forall env p_amount p_source p_action_id p_meta db u,
    p_amount < 0 ->
    pk_users db ->
    select_ledger p_action_id db = None ->
    select_user (auth_uid env) db = Some u ->
    award_in_range (now env) u db p_amount ->
    exists final db',
      final <= p_amount
      /\ award_xp env p_amount p_source p_action_id p_meta db
         = Ok (xp_awarded_response final (Z.quot (users.xp u + final) 500 + 1)
                                   (Z.quot final 100), db')
      /\ t_xp_ledger db'
         = t_xp_ledger db
             ++ [xp_ledger.mk (users.id u) p_action_id final p_source p_meta (now env)]
      /\ exists u', select_user (auth_uid env) db' = Some u'
           /\ users.xp u' = users.xp u + final
           /\ users.weekly_xp u' = users.weekly_xp u + final
           /\ users.lifetime_xp u' = users.lifetime_xp u + final.
Proof.
  intros env amt src aid meta db u Hneg Hpk Hfresh Huser Hrange.
  exists (bonus_amount (now env) u db amt).
  exists (awarded_db env u (bonus_amount (now env) u db amt) src aid meta db).
  split; [| split; [| split]].
  - unfold bonus_amount.
    destruct (booster_factor_cases (now env) u db) as [Hf | [Hf | Hf]];
      rewrite Hf;
      destruct (morning_window (now env) && negb (users.has_used_morning_bonus u));
      destruct (users.has_streak_bonus u);
      Z.to_euclidean_division_equations; lia.
  - now apply award_xp_fresh_Ok.
  - reflexivity.
  - exists (awarded_row (now env) u (bonus_amount (now env) u db amt)).
    split; [| repeat split].
    unfold awarded_db.
    apply (select_user_replace_row (auth_uid env) db u); [exact Huser | reflexivity].
Qed.

(** ** Lists *)

Lemma find_app : forall (A : Type) (p : A -> bool) l l',
    find p (l ++ l') = match find p l with
                       | Some x => Some x
                       | None => find p l'
                       end.
Proof.
  induction l as [| y l IH]; intros l'; simpl; [reflexivity |].
  now destruct (p y).
Qed.

(** ** gift_booster *)

Lemma gift_booster_fresh : forall env p_to p_type p_action_id db giver d,
    select_gift p_to p_action_id db = None ->
    booster_duration p_type = Some d ->
    existsb (fun r => String.eqb (users.id r) p_to) (t_users db) = true ->
    select_user (auth_uid env) db = Some giver ->
    gift_booster env p_to p_type p_action_id db
    = Ok (jsonb_build_object [("success", JBool true);
                              ("expires_at", JTime (now env + hours d))]%string,
          mkDb (t_users db) (t_xp_ledger db)
               (t_activities db ++
                  [activities.mk (auth_uid env) "booster_gifted"
                     ("Gifted a " ++ p_type ++ " XP booster")%string
                     (jsonb_build_object [("to_user_id", JStr p_to);
                                          ("booster_type", JStr p_type)]%string)
                     (now env)])
               (t_boosters db ++
                  [boosters.mk p_to p_type (now env + hours d) true (now env)])
               (t_offline_actions db) (t_league_snapshots db)).
Proof.
  intros env p_to p_type aid db giver d Hprobe Hdur Hto Hgiver.
  unfold gift_booster. rewrite Hprobe.
  rewrite Hdur.
  unfold insert_booster. rewrite Hto. cbn [bind].
  erewrite insert_activity_user; [reflexivity |].
  exact Hgiver.
Qed.

(** Replaying a gift: the probe compares the text of [created_at] with the
    [action_id], so unless the two coincide the second call inserts again. *)
Lemma gift_booster_replay_inserts_again :
  forall env1 env2 p_to p_type p_action_id db giver d,
    auth_uid env2 = auth_uid env1 ->
    select_gift p_to p_action_id db = None ->
    timestamptz_text (now env1) <> p_action_id ->
    booster_duration p_type = Some d ->
    existsb (fun r => String.eqb (users.id r) p_to) (t_users db) = true ->
    select_user (auth_uid env1) db = Some giver ->
    exists r1 db1 r2 db2,
      gift_booster env1 p_to p_type p_action_id db = Ok (r1, db1)
      /\ gift_booster env2 p_to p_type p_action_id db1 = Ok (r2, db2)
      /\ t_boosters db2
         = t_boosters db
             ++ [boosters.mk p_to p_type (now env1 + hours d) true (now env1);
                 boosters.mk p_to p_type (now env2 + hours d) true (now env2)].
Proof.
  intros env1 env2 p_to p_type aid db giver d Hsame Hprobe Htext Hdur Hto Hgiver.
  eexists. eexists. eexists. eexists.
  split; [eapply gift_booster_fresh; eauto |].
  split.
  - eapply gift_booster_fresh with (giver := giver); eauto.
    + unfold select_gift in *. cbn [t_boosters].
      rewrite find_app, Hprobe. cbn [find boosters.user_id boosters.created_at].
      apply String.eqb_neq in Htext. rewrite Htext.
      now rewrite andb_false_r.
    + rewrite Hsame. exact Hgiver.
  - cbn [t_boosters]. now rewrite <- app_assoc.
Qed.

(** ** redeem_grace_pass *)

Lemma upsert_processed_found : forall a db,
    offline_actions.processed a = true ->
    select_processed (offline_actions.action_id a) (upsert_processed a db) <> None.
Proof.
  intros a db Ha. unfold upsert_processed, select_processed.
  destruct (existsb _ (t_offline_actions db)) eqn:E; cbn [t_offline_actions with_offline_actions].
  - apply existsb_exists in E. destruct E as [r [Hin Hr]].
    induction (t_offline_actions db) as [| x l IH]; [contradiction |].
    cbn [map find].
    destruct (String.eqb (offline_actions.action_id x) (offline_actions.action_id a)) eqn:Ex.
    + cbn [offline_actions.set_processed offline_actions.action_id offline_actions.processed].
      rewrite Ex. cbn. discriminate.
    + rewrite Ex. cbn [andb].
      destruct Hin as [-> | Hin]; [congruence | now apply IH].
  - rewrite find_app.
    destruct (find _ (t_offline_actions db)); [discriminate |].
    cbn [find]. rewrite String.eqb_refl, Ha. discriminate.
Qed.

Lemma redeem_grace_pass_replay : forall env p_action_id db,
    select_processed p_action_id db <> None ->
    redeem_grace_pass env p_action_id db = Ok (already_processed, db).
Proof.
  intros env aid db H. unfold redeem_grace_pass.
  now destruct (select_processed aid db).
Qed.

Lemma redeem_grace_pass_fresh : forall env p_action_id db u,
    pk_users db ->
    select_processed p_action_id db = None ->
    select_user (auth_uid env) db = Some u ->
    0 < users.grace_passes_available u ->
    in_int4 (users.grace_passes_used u + 1) ->
    in_int4 (users.grace_passes_available u - 1) ->
    redeem_grace_pass env p_action_id db
    = Ok (jsonb_build_object
            [("success", JBool true);
             ("grace_passes_remaining",
              JNum (users.grace_passes_available u - 1))]%string,
          redeemed_db env u p_action_id db).
Proof.
  intros env aid db u Hpk Hfresh Huser Havail Hused Hleft.
  unfold redeem_grace_pass. rewrite Hfresh, Huser.
  destruct (users.grace_passes_available u <=? 0) eqn:E;
    [apply Z.leb_le in E; lia |].
  rewrite (update_user_pk _ _ _ _ u Hpk Huser).
  rewrite (int4_in _ Hused), (int4_in _ Hleft). cbn [bind].
  reflexivity.
Qed.

(** C8.  For a caller with a row and an [action_id] not yet processed:
    with no grace pass available the call fails with "No grace passes
    available" and changes nothing; otherwise it succeeds, increments
    [grace_passes_used], decrements [grace_passes_available], leaves a
    positive streak alone and sets a streak of 0 to 1; and every replay of
    the [action_id] returns "Already processed" without changing anything. *)
Theorem redeem_grace_pass_contract :
  forall env p_action_id db u,
    pk_users db ->
    select_processed p_action_id db = None ->
    select_user (auth_uid env) db = Some u ->
    (users.grace_passes_available u <= 0 ->
     redeem_grace_pass env p_action_id db = Ok (no_grace_passes, db))
    /\ (0 < users.grace_passes_available u ->
        in_int4 (users.grace_passes_used u + 1) ->
        in_int4 (users.grace_passes_available u - 1) ->
        exists r db' u',
          redeem_grace_pass env p_action_id db = Ok (r, db')
          /\ json_get "success" r = Some (JBool true)
          /\ select_user (auth_uid env) db' = Some u'
          /\ users.grace_passes_used u' = users.grace_passes_used u + 1
          /\ users.grace_passes_available u' = users.grace_passes_available u - 1
          /\ users.streak u' = (if 0 <? users.streak u then users.streak u else 1)
          /\ (users.streak u = 0 -> users.streak u' = 1)
          /\ forall env', redeem_grace_pass env' p_action_id db'
                          = Ok (already_processed, db')).
Proof.
  intros env aid db u Hpk Hfresh Huser. split.
  - intros Hnone. unfold redeem_grace_pass. rewrite Hfresh, Huser.
    apply Z.leb_le in Hnone. now rewrite Hnone.
  - intros Havail Hused Hleft.
    exists (jsonb_build_object
              [("success", JBool true);
               ("grace_passes_remaining",
                JNum (users.grace_passes_available u - 1))]%string).
    exists (redeemed_db env u aid db). exists (redeemed_row (now env) u).
    split; [now apply redeem_grace_pass_fresh |].
    split; [reflexivity |].
    split.
    { unfold redeemed_db, upsert_processed, select_user.
      destruct (existsb _ _);
        cbn [t_users with_offline_actions];
        apply (select_user_replace_row (auth_uid env) db u);
        solve [exact Huser | reflexivity]. }
    repeat split.
    + intros H0. cbn. now rewrite H0.
    + intros env'. apply redeem_grace_pass_replay.
      unfold redeemed_db.
      apply (upsert_processed_found
               (offline_actions.mk (users.id u) aid "redeem_grace_pass" (JObj [])
                                   true (now env))).
      reflexivity.
Qed.

(** ** The streak tracker *)

Lemma iso_day_yesterday : forall ms,
    UserService.iso_day (ms - ms_per_day) = UserService.iso_day ms - 1.
Proof.
  intros ms. unfold UserService.iso_day.
  change ms_per_day with 86400000.
  replace (ms - 86400000) with (ms + (-1) * 86400000) by lia.
  rewrite Z.div_add by lia. lia.
Qed.

Lemma createFriendActivity_user : forall a c,
    UserService.currentUser (UserService.createFriendActivity a c)
    = UserService.currentUser c.
Proof.
  intros a c. unfold UserService.createFriendActivity.
  destruct (UserService.currentUser c) eqn:E; [reflexivity | exact E].
Qed.

(** C9.  [updateStreak], for a signed-in user whose statistics can be
    written: [last_active_date] becomes today; the streak grows by one when
    the last active day was yesterday, stays when it was today, and is reset
    to 1 otherwise; [previousStreak] is the old streak, and
    [streakBroken = true] is reported exactly when the streak was reset and
    had reached 3. *)
Theorem updateStreak_cases :
  forall dev c stats,
    UserService.currentUser c = Some stats ->
    UserService.write_ok dev = true ->
    let today := UserService.iso_day (UserService.date_now dev) in
    let yesterday := today - 1 in
    let lastActive := Stats.last_active_date stats in
    let report := fst (UserService.updateStreak dev c) in
    exists stats',
      UserService.currentUser (snd (UserService.updateStreak dev c)) = Some stats'
      /\ Stats.last_active_date stats' = today
      /\ (lastActive = yesterday -> Stats.streak stats' = Stats.streak stats + 1)
      /\ (lastActive = today -> Stats.streak stats' = Stats.streak stats)
      /\ (lastActive <> yesterday -> lastActive <> today -> Stats.streak stats' = 1)
      /\ UserService.previousStreak report = Stats.streak stats
      /\ (UserService.streakBroken report = true
          <-> lastActive <> yesterday /\ lastActive <> today
              /\ 3 <= Stats.streak stats).
Proof.
  intros dev c stats Huser Hwrite today yesterday lastActive report.
  subst report. unfold UserService.updateStreak.
  rewrite Huser, iso_day_yesterday.
  fold today. fold yesterday. fold lastActive.
  destruct (lastActive =? yesterday) eqn:Ey;
    [| destruct (lastActive =? today) eqn:Et]; cbn [negb fst snd].
  - apply Z.eqb_eq in Ey.
    eexists. split.
    { destruct (Z.rem _ 7 =? 0); rewrite ?createFriendActivity_user;
        unfold UserService.updateUserStats; rewrite Huser, Hwrite; reflexivity. }
    cbn. repeat split; try lia; try discriminate.
  - apply Z.eqb_neq in Ey. apply Z.eqb_eq in Et.
    eexists. split.
    { destruct (Z.rem _ 7 =? 0); rewrite ?createFriendActivity_user;
        unfold UserService.updateUserStats; rewrite Huser, Hwrite; reflexivity. }
    cbn. repeat split; try lia; try discriminate.
  - apply Z.eqb_neq in Ey. apply Z.eqb_neq in Et.
    eexists. split.
    { destruct (Z.rem _ 7 =? 0); rewrite ?createFriendActivity_user;
        unfold UserService.updateUserStats; rewrite Huser, Hwrite; reflexivity. }
    cbn. repeat split; try lia; try contradiction.
    all: rewrite ?Z.leb_le in *; intuition lia.
Qed.

(** X29 [local_updateStreak_cases]: the storage-backed [updateStreak]
    follows the same three cases, for the days the device's calendar gives:
    last active yesterday, the streak grows by one; last active today, it
    stays; otherwise it is 1.  Around a change of the device's UTC offset
    "24 hours ago" can fall on today's date, which the second hypothesis
    rules out. *)
Lemma local_updateStreak_cases :
  forall dev s stats,
    LocalUserService.stored s = Some stats ->
    let today := LocalUserService.toDateString dev (LocalUserService.date_now dev) in
    let yesterday :=
      LocalUserService.toDateString dev (LocalUserService.date_now dev - ms_per_day) in
    let lastActive := Stats.last_active_date stats in
    yesterday <> today ->
    exists stats',
      LocalUserService.stored (LocalUserService.updateStreak dev s) = Some stats'
      /\ Stats.last_active_date stats' = today
      /\ (lastActive = yesterday -> Stats.streak stats' = Stats.streak stats + 1)
      /\ (lastActive = today -> Stats.streak stats' = Stats.streak stats)
      /\ (lastActive <> yesterday -> lastActive <> today -> Stats.streak stats' = 1).
Proof.
  intros dev s stats Hstored today yesterday lastActive Hdays.
  unfold LocalUserService.updateStreak, LocalUserService.updateUserStats.
  rewrite Hstored. fold today. fold yesterday. fold lastActive.
  eexists. split; [reflexivity |]. cbn.
  destruct (lastActive =? yesterday) eqn:Ey;
    [| destruct (lastActive =? today) eqn:Et]; cbn [negb];
    rewrite ?Z.eqb_eq, ?Z.eqb_neq in *; repeat split; intros; congruence.
Qed.

(** The storage-backed [addXP] compounds the bonuses in the same order as
    [award_xp], when the hour the device's clock shows ([getHours], local
    time) is 7. *)
Lemma local_addXP_bonus_order :
  forall dev stats amount b,
    LocalUserService.getHours dev (LocalUserService.date_now dev) = 7 ->
    Stats.has_used_morning_bonus stats = false ->
    Stats.has_streak_bonus stats = true ->
    Stats.active_booster stats = Some b ->
    Stats.type b = "2x"%string ->
    LocalUserService.date_now dev < Stats.expiresAt b ->
    LocalUserService.finalAmount dev stats amount = ((amount * 3) / 2) * 2 * 2
    /\ (amount = 100 -> LocalUserService.finalAmount dev stats amount = 600).
Proof.
  intros dev stats amount b Hhour Hmorning Hstreak Hbooster Htype Hlive.
  assert (H : LocalUserService.finalAmount dev stats amount
              = ((amount * 3) / 2) * 2 * 2).
  { unfold LocalUserService.finalAmount.
    rewrite Hhour, Hmorning, Hstreak, Hbooster, Htype.
    apply Z.ltb_lt in Hlive. now rewrite Hlive. }
  split; [exact H |]. intros ->. rewrite H. reflexivity.
Qed.

(** ** get_leaderboard *)

Ltac order_facts :=
  unfold league_weekly_desc, league_lifetime_desc, weekly_desc in *;
  repeat rewrite ?orb_true_iff, ?andb_true_iff, ?Z.ltb_lt, ?Z.eqb_eq, ?Z.leb_le in *.

Lemma weekly_desc_total : forall x y,
    weekly_desc x y = true \/ weekly_desc y x = true.
Proof. intros x y. order_facts. lia. Qed.

Lemma weekly_desc_trans : forall x y z,
    weekly_desc x y = true -> weekly_desc y z = true -> weekly_desc x z = true.
Proof. intros x y z. order_facts. lia. Qed.

Lemma league_weekly_desc_total : forall x y,
    league_weekly_desc x y = true \/ league_weekly_desc y x = true.
Proof. intros x y. order_facts. lia. Qed.

Lemma league_weekly_desc_trans : forall x y z,
    league_weekly_desc x y = true -> league_weekly_desc y z = true ->
    league_weekly_desc x z = true.
Proof. intros x y z. order_facts. lia. Qed.

Lemma league_lifetime_desc_total : forall x y,
    league_lifetime_desc x y = true \/ league_lifetime_desc y x = true.
Proof. intros x y. order_facts. lia. Qed.

Lemma league_lifetime_desc_trans : forall x y z,
    league_lifetime_desc x y = true -> league_lifetime_desc y z = true ->
    league_lifetime_desc x z = true.
Proof. intros x y z. order_facts. lia. Qed.

Lemma row_number_In : forall l n r,
    In r (row_number n l) ->
    exists u, In u l /\ r = board_row (leaderboard.rank r) u
              /\ n <= leaderboard.rank r.
Proof.
  induction l as [| x l IH]; intros n r H; simpl in H; [contradiction |].
  destruct H as [<- | H].
  - exists x. cbn. split; [now left | split; [reflexivity | lia]].
  - destruct (IH _ _ H) as [u [Hu [Hr Hn]]].
    exists u. split; [now right | split; [exact Hr | lia]].
Qed.

Lemma row_number_complete : forall l n u,
    In u l -> exists k, In (board_row k u) (row_number n l).
Proof.
  induction l as [| x l IH]; intros n u H; [contradiction |].
  destruct H as [-> | H].
  - exists n. now left.
  - destruct (IH (n + 1) u H) as [k Hk]. exists k. now right.
Qed.

Lemma row_number_length : forall l n,
    List.length (row_number n l) = List.length l.
Proof. induction l as [| x l IH]; intros n; simpl; [| rewrite IH]; reflexivity. Qed.

(** Ranks follow the order of the rows: the row at index [k] has rank [n + k]. *)
Lemma row_number_nth : forall l n k r,
    nth_error (row_number n l) k = Some r -> leaderboard.rank r = n + Z.of_nat k.
Proof.
  induction l as [| x l IH]; intros n k r H; destruct k; simpl in H; try discriminate.
  - injection H as <-. cbn. lia.
  - rewrite (IH _ _ _ H). lia.
Qed.

Lemma row_number_league_first :
  forall (before : users.row -> users.row -> bool),
    (forall x y, before x y = true -> users.league y <= users.league x) ->
    forall l n,
      ordered before l ->
      forall ra rb,
        In ra (row_number n l) -> In rb (row_number n l) ->
        leaderboard.league rb < leaderboard.league ra ->
        leaderboard.rank ra < leaderboard.rank rb.
Proof.
  intros before Hleague.
  induction l as [| x l IH]; intros n Hl ra rb Ha Hb Hlt; [contradiction |].
  inversion Hl as [| ? ? Hl' Hx]; subst.
  rewrite Forall_forall in Hx.
  simpl in Ha, Hb.
  destruct Ha as [<- | Ha]; destruct Hb as [<- | Hb].
  - cbn in Hlt. lia.
  - destruct (row_number_In _ _ _ Hb) as [u [Hu [Hr Hn]]]. cbn. lia.
  - destruct (row_number_In _ _ _ Ha) as [u [Hu [Hr Hn]]].
    rewrite Hr in Hlt. cbn in Hlt.
    specialize (Hleague _ _ (Hx u Hu)). lia.
  - eapply IH; eauto.
Qed.

(** C2.  With no league filter and for either timeframe, [get_leaderboard]
    ranks by league first: of two returned rows the one in the higher league
    has the smaller rank, whatever the XP columns hold; every user of the
    table has a row, so a user in a higher league is ranked strictly before a
    user in a lower one; and ranks number the rows in the order returned. *)
Theorem get_leaderboard_league_first :
  forall p_timeframe db,
    (forall ra rb,
        In ra (get_leaderboard None p_timeframe db) ->
        In rb (get_leaderboard None p_timeframe db) ->
        leaderboard.league rb < leaderboard.league ra ->
        leaderboard.rank ra < leaderboard.rank rb)
    /\ (forall a b,
           In a (t_users db) -> In b (t_users db) ->
           users.league b < users.league a ->
           exists ka kb,
             In (board_row ka a) (get_leaderboard None p_timeframe db)
             /\ In (board_row kb b) (get_leaderboard None p_timeframe db)
             /\ ka < kb)
    /\ (forall k r,
           nth_error (get_leaderboard None p_timeframe db) k = Some r ->
           leaderboard.rank r = 1 + Z.of_nat k).
Proof.
  intros tf db.
  assert (Hfirst : forall ra rb,
             In ra (get_leaderboard None tf db) ->
             In rb (get_leaderboard None tf db) ->
             leaderboard.league rb < leaderboard.league ra ->
             leaderboard.rank ra < leaderboard.rank rb).
  { unfold get_leaderboard.
    destruct (String.eqb tf "weekly").
    - apply (row_number_league_first league_weekly_desc).
      + intros x y. order_facts. lia.
      + apply order_by_ordered;
          [apply league_weekly_desc_total | apply league_weekly_desc_trans].
    - apply (row_number_league_first league_lifetime_desc).
      + intros x y. order_facts. lia.
      + apply order_by_ordered;
          [apply league_lifetime_desc_total | apply league_lifetime_desc_trans]. }
  assert (Hall : forall u, In u (t_users db) ->
                           exists k, In (board_row k u) (get_leaderboard None tf db)).
  { intros u Hu. unfold get_leaderboard.
    assert (Hsel : In u (filter (fun _ : users.row => true) (t_users db)))
      by (apply filter_In; auto).
    destruct (String.eqb tf "weekly"); apply row_number_complete;
      now apply order_by_In. }
  split; [exact Hfirst | split].
  - intros a b Ha Hb Hlt.
    destruct (Hall a Ha) as [ka Hka]. destruct (Hall b Hb) as [kb Hkb].
    exists ka, kb. split; [exact Hka | split; [exact Hkb |]].
    apply (Hfirst _ _ Hka Hkb). exact Hlt.
  - intros k r H. unfold get_leaderboard in H.
    destruct (String.eqb tf "weekly"); apply (row_number_nth _ _ _ _ H).
Qed.

(** ** run_weekly_league_update *)

Lemma fold_league_step_users : forall v_now cur recs st,
    l_users (fold_left (league_step v_now cur) recs st)
    = map (row_after v_now cur (l_league_count st) (l_rank st) recs) (l_users st).
Proof.
  induction recs as [| r rest IH]; intros st; simpl.
  - now rewrite map_id.
  - rewrite IH. cbn [league_step l_users l_league_count l_rank].
    unfold settle. rewrite map_map. reflexivity.
Qed.

Lemma row_after_id : forall v_now cur recs c k x,
    users.id (row_after v_now cur c k recs x) = users.id x.
Proof.
  induction recs as [| r rest IH]; intros c k x; simpl; [reflexivity |].
  rewrite IH. now destruct (String.eqb (users.id x) (users.id r)).
Qed.

Lemma row_after_untouched : forall v_now cur recs c k x,
    ~ In (users.id x) (map users.id recs) ->
    row_after v_now cur c k recs x = x.
Proof.
  induction recs as [| r rest IH]; intros c k x H; simpl in *; [reflexivity |].
  destruct (String.eqb (users.id x) (users.id r)) eqn:E.
  - apply String.eqb_eq in E. exfalso. apply H. now left.
  - apply IH. tauto.
Qed.

Lemma row_after_position : forall v_now cur recs c k n x p,
    NoDup (map users.id recs) ->
    (forall r, In r recs -> users.id r = users.id x -> r = x) ->
    position_from n (users.id x) recs = Some p ->
    row_after v_now cur c k recs x
    = users.update_updated_at_column v_now
        (users.set_league (decide_league cur (c + (p - n) + 1) (users.weekly_xp x))
                          (k + (p - n)) x).
Proof.
  induction recs as [| r rest IH]; intros c k n x p Hnd Hsame Hpos; simpl in *;
    [discriminate |].
  inversion Hnd as [| ? ? Hnotin Hnd']; subst.
  destruct (String.eqb (users.id r) (users.id x)) eqn:E.
  - injection Hpos as <-.
    apply String.eqb_eq in E.
    assert (Hr : r = x) by (apply Hsame; auto).
    subst r. rewrite String.eqb_refl.
    rewrite row_after_untouched.
    + replace (c + (n - n) + 1) with (c + 1) by lia.
      replace (k + (n - n)) with k by lia. reflexivity.
    + exact Hnotin.
  - rewrite String.eqb_sym, E.
    rewrite (IH (c + 1) (k + 1) (n + 1) x p Hnd'); auto.
    replace (c + 1 + (p - (n + 1)) + 1) with (c + (p - n) + 1) by lia.
    replace (k + 1 + (p - (n + 1))) with (k + (p - n)) by lia. reflexivity.
Qed.

Lemma position_from_In : forall l n i p,
    position_from n i l = Some p ->
    exists x, In x l /\ users.id x = i.
Proof.
  induction l as [| y l IH]; intros n i p H; simpl in H; [discriminate |].
  destruct (String.eqb (users.id y) i) eqn:E.
  - exists y. apply String.eqb_eq in E. auto with datatypes.
  - destruct (IH _ _ _ H) as [x [Hx Hi]]. exists x. auto with datatypes.
Qed.

Lemma position_from_found : forall l n x,
    In x l -> exists p, position_from n (users.id x) l = Some p /\ n <= p.
Proof.
  induction l as [| y l IH]; intros n x H; [contradiction |]. simpl.
  destruct (String.eqb (users.id y) (users.id x)) eqn:E.
  - exists n. split; [reflexivity | lia].
  - destruct H as [-> | H]; [now rewrite String.eqb_refl in E |].
    destruct (IH (n + 1) x H) as [p [Hp Hn]]. exists p. split; [exact Hp | lia].
Qed.

Lemma position_from_app : forall l l' n i p,
    position_from n i l = Some p -> position_from n i (l ++ l') = Some p.
Proof.
  induction l as [| y l IH]; intros l' n i p H; simpl in *; [discriminate |].
  destruct (String.eqb (users.id y) i); [exact H | now apply IH].
Qed.

Lemma pk_same_row : forall tbl x y,
    NoDup (map users.id tbl) -> In x tbl -> In y tbl ->
    users.id x = users.id y -> x = y.
Proof.
  induction tbl as [| z tbl IH]; intros x y Hnd Hx Hy Hid; [contradiction |].
  simpl in Hnd. inversion Hnd as [| ? ? Hnotin Hnd']; subst.
  destruct Hx as [-> | Hx]; destruct Hy as [-> | Hy]; auto.
  - exfalso. apply Hnotin. rewrite Hid. now apply in_map.
  - exfalso. apply Hnotin. rewrite <- Hid. now apply in_map.
Qed.

Lemma league_members_In : forall cur tbl x,
    In x (league_members cur tbl) <-> In x tbl /\ users.league x = cur.
Proof.
  intros cur tbl x. unfold league_members.
  rewrite order_by_In, filter_In, Z.eqb_eq. tauto.
Qed.

Lemma league_members_pk : forall cur tbl,
    NoDup (map users.id tbl) -> NoDup (map users.id (league_members cur tbl)).
Proof.
  intros cur tbl Hnd. unfold league_members.
  eapply Permutation_NoDup.
  - apply Permutation_map, Permutation_sym, order_by_perm.
  - induction tbl as [| z tbl IH]; simpl; [constructor |].
    simpl in Hnd. inversion Hnd as [| ? ? Hnotin Hnd']; subst.
    destruct (users.league z =? cur); simpl; [| now apply IH].
    constructor; [| now apply IH].
    intros Hin. apply Hnotin.
    apply in_map_iff in Hin. destruct Hin as [w [Hw Hin]].
    apply filter_In in Hin. rewrite <- Hw. apply in_map. tauto.
Qed.

(** The closed form of one pass. *)
Lemma league_pass_users : forall v_now st cur,
    NoDup (map users.id (l_users st)) ->
    l_users (league_pass v_now st cur)
    = map (pass_row v_now cur (l_users st) (l_rank st)) (l_users st).
Proof.
  intros v_now st cur Hpk. unfold league_pass.
  rewrite fold_league_step_users. cbn [l_users l_league_count l_rank].
  apply map_ext_in. intros x Hx. unfold pass_row.
  destruct (users.league x =? cur) eqn:E.
  - apply Z.eqb_eq in E.
    assert (Hmem : In x (league_members cur (l_users st)))
      by (apply league_members_In; auto).
    destruct (position_from_found _ 1 _ Hmem) as [p [Hp _]].
    rewrite Hp.
    rewrite (row_after_position v_now cur _ 0 (l_rank st) 1 x p); auto.
    + replace (0 + (p - 1) + 1) with p by lia.
      replace (l_rank st + (p - 1)) with (l_rank st + p - 1) by lia. reflexivity.
    + now apply league_members_pk.
    + intros r Hr Hid. apply league_members_In in Hr.
      eapply pk_same_row; eauto. tauto.
  - apply Z.eqb_neq in E.
    apply row_after_untouched.
    intros Hin. apply in_map_iff in Hin. destruct Hin as [r [Hid Hr]].
    apply league_members_In in Hr. destruct Hr as [Hr Hcur].
    assert (r = x) by (eapply pk_same_row; eauto).
    subst r. contradiction.
Qed.

Lemma league_pass_ids : forall v_now st cur,
    map users.id (l_users (league_pass v_now st cur)) = map users.id (l_users st).
Proof.
  intros v_now st cur. unfold league_pass.
  rewrite fold_league_step_users, map_map. cbn [l_users].
  apply map_ext. intros x. apply row_after_id.
Qed.

Lemma league_passes_ids : forall v_now curs st,
    map users.id (l_users (fold_left (league_pass v_now) curs st))
    = map users.id (l_users st).
Proof.
  induction curs as [| cur curs IH]; intros st; simpl; [reflexivity |].
  now rewrite IH, league_pass_ids.
Qed.

(** *** The decision *)

Lemma decide_league_promotes : forall cur p w,
    decide_league cur p w = cur + 1 <-> cur < 4 /\ p <= 3 /\ 500 <= w.
Proof.
  intros cur p w. unfold decide_league.
  destruct ((cur <? 4) && (p <=? 3) && (500 <=? w)) eqn:E.
  - repeat rewrite andb_true_iff in E.
    rewrite Z.ltb_lt, !Z.leb_le in E. tauto.
  - assert (Hno : ~ (cur < 4 /\ p <= 3 /\ 500 <= w)).
    { intros H. rewrite <- Z.ltb_lt, <- !Z.leb_le in H.
      destruct H as [H1 [H2 H3]]. now rewrite H1, H2, H3 in E. }
    destruct ((1 <? cur) && _); (split; intros H; [lia | exfalso; tauto]).
Qed.

Lemma decide_league_le : forall cur p w, decide_league cur p w <= cur + 1.
Proof.
  intros cur p w. unfold decide_league.
  destruct (_ && _ && _); [lia |]. destruct ((1 <? cur) && _); lia.
Qed.

Lemma decide_league_low : forall cur p w, w < 500 -> decide_league cur p w <= cur.
Proof.
  intros cur p w Hw. unfold decide_league.
  replace (500 <=? w) with false by (symmetry; apply Z.leb_gt; lia).
  rewrite andb_false_r. destruct ((1 <? cur) && _); lia.
Qed.

Lemma decide_league_ge : forall cur p w, 1 <= cur -> 1 <= decide_league cur p w.
Proof.
  intros cur p w Hcur. unfold decide_league.
  destruct (_ && _ && _); [lia |].
  destruct (1 <? cur) eqn:E; cbn [andb]; [| lia].
  apply Z.ltb_lt in E. destruct (match _ with Some _ => _ | None => _ end); lia.
Qed.

(** *** One row through one pass *)

Lemma pass_row_id : forall v_now cur tbl k x,
    users.id (pass_row v_now cur tbl k x) = users.id x.
Proof.
  intros v_now cur tbl k x. unfold pass_row.
  destruct (users.league x =? cur); [| reflexivity].
  now destruct (position_from 1 (users.id x) (league_members cur tbl)).
Qed.

Lemma pass_row_other : forall v_now cur tbl k x,
    users.league x <> cur -> pass_row v_now cur tbl k x = x.
Proof.
  intros v_now cur tbl k x H. unfold pass_row.
  apply Z.eqb_neq in H. now rewrite H.
Qed.

Lemma pass_row_cases : forall v_now cur tbl k x,
    pass_row v_now cur tbl k x = x
    \/ (users.league x = cur
        /\ exists p,
            pass_row v_now cur tbl k x
            = users.update_updated_at_column v_now
                (users.set_league (decide_league cur p (users.weekly_xp x))
                                  (k + p - 1) x)).
Proof.
  intros v_now cur tbl k x. unfold pass_row.
  destruct (users.league x =? cur) eqn:E; [| now left].
  destruct (position_from 1 (users.id x) (league_members cur tbl)) as [p |];
    [| now left].
  right. apply Z.eqb_eq in E. split; [exact E | now exists p].
Qed.

Lemma pass_row_member : forall v_now cur tbl k x,
    In x tbl -> users.league x = cur ->
    exists p,
      position_from 1 (users.id x) (league_members cur tbl) = Some p
      /\ pass_row v_now cur tbl k x
         = users.update_updated_at_column v_now
             (users.set_league (decide_league cur p (users.weekly_xp x))
                               (k + p - 1) x).
Proof.
  intros v_now cur tbl k x Hx Hcur.
  assert (Hmem : In x (league_members cur tbl)) by (apply league_members_In; auto).
  destruct (position_from_found _ 1 _ Hmem) as [p [Hp _]].
  exists p. split; [exact Hp |].
  unfold pass_row. apply Z.eqb_eq in Hcur. now rewrite Hcur, Hp.
Qed.

(** *** Before a league's own pass *)

Lemma above_processed_ids : forall L tbl0 tbl,
    above_processed L tbl0 tbl -> map users.id tbl = map users.id tbl0.
Proof.
  intros L tbl0 tbl [G [-> HG]]. rewrite map_map.
  apply map_ext. intros x. apply HG.
Qed.

Lemma above_processed_step : forall v_now L tbl0 st cur,
    NoDup (map users.id tbl0) ->
    above_processed L tbl0 (l_users st) ->
    L < cur ->
    above_processed L tbl0 (l_users (league_pass v_now st cur)).
Proof.
  intros v_now L tbl0 st cur Hpk Habove Hcur.
  assert (Hids := above_processed_ids _ _ _ Habove).
  rewrite league_pass_users by (now rewrite Hids).
  destruct Habove as [G [HT HG]].
  exists (fun x => pass_row v_now cur (l_users st) (l_rank st) (G x)).
  split; [rewrite HT at 2; now rewrite map_map |].
  intros x. destruct (HG x) as [Hid Hx].
  split; [now rewrite pass_row_id |].
  destruct (pass_row_cases v_now cur (l_users st) (l_rank st) (G x))
    as [-> | [Hleague [p ->]]]; [exact Hx |].
  right. split; [| reflexivity].
  destruct Hx as [Hx | [Hx _]]; [rewrite Hx in Hleague; lia | exact Hx].
Qed.

Lemma above_processed_passes : forall v_now L tbl0 curs st,
    NoDup (map users.id tbl0) ->
    above_processed L tbl0 (l_users st) ->
    (forall c, In c curs -> L < c) ->
    above_processed L tbl0 (l_users (fold_left (league_pass v_now) curs st)).
Proof.
  induction curs as [| cur curs IH]; intros st Hpk Habove Hcurs; simpl;
    [exact Habove |].
  apply IH; auto with datatypes.
  apply above_processed_step; auto with datatypes.
Qed.

Lemma above_processed_keeps : forall L tbl0 tbl u,
    above_processed L tbl0 tbl -> In u tbl0 -> users.league u = L -> In u tbl.
Proof.
  intros L tbl0 tbl u [G [-> HG]] Hu Hleague.
  destruct (HG u) as [_ [Hx | [Hx _]]]; [| lia].
  rewrite <- Hx. now apply in_map.
Qed.

(** The members of [L] with positive weekly XP are those of the start. *)
Lemma above_processed_scorers : forall L tbl0 tbl,
    above_processed L tbl0 tbl ->
    filter (fun x => 0 <? users.weekly_xp x)
           (filter (fun x => users.league x =? L) tbl)
    = filter (fun x => 0 <? users.weekly_xp x)
             (filter (fun x => users.league x =? L) tbl0).
Proof.
  intros L tbl0 tbl [G [-> HG]].
  induction tbl0 as [| x tbl0 IH]; simpl; [reflexivity |].
  destruct (HG x) as [_ [Hx | [Hx Hw]]].
  - rewrite Hx. destruct (users.league x =? L); simpl; [| exact IH].
    destruct (0 <? users.weekly_xp x); [f_equal |]; exact IH.
  - replace (users.league x =? L) with false by (symmetry; apply Z.eqb_neq; lia).
    destruct (users.league (G x) =? L); simpl; [| exact IH].
    rewrite Hw. exact IH.
Qed.

Lemma scorer_position : forall tbl lg u,
    In u tbl -> users.league u = lg -> 0 < users.weekly_xp u ->
    exists p,
      position_from 1 (users.id u)
        (order_by weekly_desc
           (filter (fun x => 0 <? users.weekly_xp x)
                   (filter (fun x => users.league x =? lg) tbl))) = Some p
      /\ position_from 1 (users.id u) (league_members lg tbl) = Some p.
Proof.
  intros tbl lg u Hu Hleague Hw.
  set (scorers := order_by weekly_desc
                    (filter (fun x => 0 <? users.weekly_xp x)
                            (filter (fun x => users.league x =? lg) tbl))).
  assert (Hin : In u scorers).
  { apply order_by_In. apply filter_In. split.
    - apply filter_In. split; [exact Hu | now apply Z.eqb_eq].
    - now apply Z.ltb_lt. }
  destruct (position_from_found _ 1 _ Hin) as [p [Hp _]].
  exists p. split; [exact Hp |].
  unfold league_members.
  rewrite (ordered_prefix _ weekly_desc (fun x => 0 <? users.weekly_xp x)
             (order_by weekly_desc (filter (fun x => users.league x =? lg) tbl))).
  - apply position_from_app.
    rewrite filter_order_by;
      [exact Hp | apply weekly_desc_total | apply weekly_desc_trans].
  - apply order_by_ordered; [apply weekly_desc_total | apply weekly_desc_trans].
  - intros x y Hxy Hy. apply Z.ltb_lt in Hy. apply Z.ltb_lt.
    unfold weekly_desc in Hxy.
    rewrite orb_true_iff, andb_true_iff, Z.ltb_lt, Z.eqb_eq in Hxy. lia.
Qed.

(** A member with positive weekly XP keeps the rank they had at the start,
    whoever has been relegated into their league meanwhile. *)
Lemma league_rank_stable : forall L tbl0 tbl u,
    above_processed L tbl0 tbl ->
    In u tbl0 -> users.league u = L -> 0 < users.weekly_xp u ->
    position_from 1 (users.id u) (league_members L tbl)
    = position_from 1 (users.id u) (league_members L tbl0).
Proof.
  intros L tbl0 tbl u Habove Hu Hleague Hw.
  assert (Hu' : In u tbl) by (eapply above_processed_keeps; eauto).
  destruct (scorer_position tbl L u Hu' Hleague Hw) as [p [Hp Hm]].
  destruct (scorer_position tbl0 L u Hu Hleague Hw) as [p0 [Hp0 Hm0]].
  rewrite (above_processed_scorers _ _ _ Habove) in Hp.
  congruence.
Qed.

(** *** After a league's own pass *)

Lemma settled_step : forall v_now L promoted cur tbl k y,
    settled L promoted y -> 1 <= cur < L ->
    settled L promoted (pass_row v_now cur tbl k y).
Proof.
  intros v_now L promoted cur tbl k y (Hw & Hflag & Hone & Hleague) Hcur.
  destruct (pass_row_cases v_now cur tbl k y) as [-> | [Hy [p ->]]];
    [now repeat split |].
  destruct promoted; [lia |].
  repeat split; cbn.
  - apply decide_league_ge. lia.
  - rewrite Hw. pose proof (decide_league_low cur p 0). lia.
Qed.

Lemma settled_passes : forall v_now L promoted curs st y,
    NoDup (map users.id (l_users st)) ->
    In y (l_users st) -> settled L promoted y ->
    (forall c, In c curs -> 1 <= c < L) ->
    exists y',
      In y' (l_users (fold_left (league_pass v_now) curs st))
      /\ users.id y' = users.id y /\ settled L promoted y'.
Proof.
  induction curs as [| cur curs IH]; intros st y Hpk Hy Hs Hcurs; simpl.
  - exists y. auto.
  - destruct (IH (league_pass v_now st cur)
                 (pass_row v_now cur (l_users st) (l_rank st) y))
      as [y' [Hy' [Hid Hs']]].
    + now rewrite league_pass_ids.
    + rewrite league_pass_users by exact Hpk. now apply in_map.
    + apply settled_step; auto with datatypes.
    + auto with datatypes.
    + exists y'. rewrite pass_row_id in Hid. auto.
Qed.

Lemma leagues_around : forall L,
    1 <= L <= 4 ->
    exists above below,
      leagues_descending = above ++ L :: below
      /\ (forall c, In c above -> L < c)
      /\ (forall c, In c below -> 1 <= c < L).
Proof.
  intros L HL.
  assert (H : L = 4 \/ L = 3 \/ L = 2 \/ L = 1) by lia.
  destruct H as [-> | [-> | [-> | ->]]].
  - exists [], [3; 2; 1]. simpl. intuition lia.
  - exists [4], [2; 1]. simpl. intuition lia.
  - exists [4; 3], [1]. simpl. intuition lia.
  - exists [4; 3; 2], []. simpl. intuition lia.
Qed.

Lemma find_pk : forall tbl y,
    NoDup (map users.id tbl) -> In y tbl ->
    find (fun r => String.eqb (users.id r) (users.id y)) tbl = Some y.
Proof.
  intros tbl y Hpk Hy.
  destruct (find (fun r => String.eqb (users.id r) (users.id y)) tbl) as [z |] eqn:E.
  - apply find_some in E. destruct E as [Hz Hid]. apply String.eqb_eq in Hid.
    f_equal. eapply pk_same_row; eauto.
  - apply (find_none _ _ E) in Hy. now rewrite String.eqb_refl in Hy.
Qed.

(** Where a member of league [L] ends up. *)
Lemma weekly_update_member : forall v_now tbl0 u,
    NoDup (map users.id tbl0) ->
    In u tbl0 -> 1 <= users.league u <= 4 ->
    exists u' p,
      In u' (l_users (fold_left (league_pass v_now) leagues_descending
                                (mkLoop tbl0 0 1 [])))
      /\ users.id u' = users.id u
      /\ league_rank u tbl0 = Some p
      /\ (users.league u' = users.league u + 1
          <-> users.league u < 4 /\ p <= 3 /\ 500 <= users.weekly_xp u)
      /\ 1 <= users.league u' <= users.league u + 1
      /\ users.weekly_xp u' = 0
      /\ users.has_used_morning_bonus u' = false.
Proof.
  intros v_now tbl0 u Hpk Hu HL.
  set (L := users.league u) in *.
  destruct (leagues_around L HL) as [above [below [Hsplit [Habove Hbelow]]]].
  rewrite Hsplit, fold_left_app. cbn [fold_left].
  set (st0 := mkLoop tbl0 0 1 []).
  set (stb := fold_left (league_pass v_now) above st0).
  assert (Hproc : above_processed L tbl0 (l_users stb)).
  { apply above_processed_passes; auto.
    exists (fun x => x). split; [now rewrite map_id |].
    intros x. split; auto. }
  assert (Hpkb : NoDup (map users.id (l_users stb)))
    by (now rewrite (above_processed_ids _ _ _ Hproc)).
  assert (Hub : In u (l_users stb))
    by (eapply above_processed_keeps; eauto).
  destruct (pass_row_member v_now L (l_users stb) (l_rank stb) u Hub eq_refl)
    as [pb [Hpb Hrow]].
  assert (Hmem0 : In u (league_members L tbl0))
    by (apply league_members_In; auto).
  destruct (position_from_found _ 1 _ Hmem0) as [p0 [Hp0 _]].
  set (uL := pass_row v_now L (l_users stb) (l_rank stb) u) in *.
  set (promoted := decide_league L pb (users.weekly_xp u) =? L + 1).
  assert (HsL : settled L promoted uL).
  { rewrite Hrow. repeat split; cbn.
    - apply decide_league_ge. lia.
    - subst promoted.
      destruct (decide_league L pb (users.weekly_xp u) =? L + 1) eqn:E.
      + now apply Z.eqb_eq.
      + apply Z.eqb_neq in E.
        pose proof (decide_league_le L pb (users.weekly_xp u)). lia. }
  destruct (settled_passes v_now L promoted below (league_pass v_now stb L) uL)
    as [u' [Hu' [Hid (Hw & Hflag & Hone & Hleague)]]]; auto.
  { now rewrite league_pass_ids. }
  { rewrite league_pass_users by exact Hpkb. now apply in_map. }
  exists u', p0.
  split; [exact Hu' |].
  split; [rewrite Hid; apply pass_row_id |].
  split; [exact Hp0 |].
  split; [| split; [destruct promoted; lia | auto]].
  assert (Hprom : promoted = true
                  <-> L < 4 /\ pb <= 3 /\ 500 <= users.weekly_xp u).
  { subst promoted. rewrite Z.eqb_eq. apply decide_league_promotes. }
  assert (Hsame : 500 <= users.weekly_xp u -> pb = p0).
  { intros Hw500.
    assert (Heq := league_rank_stable L tbl0 (l_users stb) u Hproc Hu eq_refl).
    rewrite Hpb, Hp0 in Heq. injection Heq; [auto | lia]. }
  destruct promoted.
  - split; [intros _ | intros _; exact Hleague].
    destruct (proj1 Hprom eq_refl) as [H4 [H3 H500]].
    rewrite <- (Hsame H500). auto.
  - split; [lia |]. intros [H4 [H3 H500]].
    rewrite <- (Hsame H500) in H3.
    assert (false = true) by (apply Hprom; auto). discriminate.
Qed.

Lemma run_weekly_league_update_users : forall env db,
    t_users (snd (run_weekly_league_update env db))
    = l_users (fold_left (league_pass (now env)) leagues_descending
                         (mkLoop (t_users db) 0 1 [])).
Proof. reflexivity. Qed.

(** C4.  For every member [u] of one of the four leagues, with [p] their
    rank in that league by [(weekly_xp DESC, xp DESC)] before the update:
    after [run_weekly_league_update] the member is one tier up exactly when
    the league is not the top one, [p <= 3] and [weekly_xp >= 500]; nobody
    moves up more than one tier or drops below Bronze; and the member's
    [weekly_xp] is 0 and their morning-bonus flag is cleared. *)
Theorem weekly_update_promotes_top_three :
  forall env db u,
    pk_users db ->
    In u (t_users db) ->
    1 <= users.league u <= 4 ->
    exists u' p,
      select_user (Some (users.id u)) (snd (run_weekly_league_update env db))
      = Some u'
      /\ league_rank u (t_users db) = Some p
      /\ (users.league u' = users.league u + 1
          <-> users.league u < 4 /\ p <= 3 /\ 500 <= users.weekly_xp u)
      /\ 1 <= users.league u' <= users.league u + 1
      /\ users.weekly_xp u' = 0
      /\ users.has_used_morning_bonus u' = false.
Proof.
  intros env db u Hpk Hu HL.
  destruct (weekly_update_member (now env) (t_users db) u Hpk Hu HL)
    as [u' [p [Hin [Hid H]]]].
  exists u', p. split; [| exact H].
  unfold select_user. rewrite run_weekly_league_update_users, <- Hid.
  apply find_pk; [| exact Hin].
  rewrite league_passes_ids. exact Hpk.
Qed.

(** ** The scenarios *)

Ltac distinct_keys :=
  unfold pk_users, ledger_unique; simpl; repeat constructor; simpl;
  intuition discriminate.

Ltac in_range := unfold in_int4, int4_min, int4_max; simpl; lia.

(** Four Bronze users with weekly XP 800, 600, 550 and 300: the first is
    promoted to Silver, the fourth stays in Bronze with [weekly_xp = 0] and
    the morning-bonus flag cleared. *)
Lemma weekly_update_promotes_top_three_witness :
  league_of (users.id bronze_top) db_bronze_four_updated = Some 2
  /\ league_of (users.id bronze_fourth) db_bronze_four_updated = Some 1
  /\ option_map users.weekly_xp
       (select_user (Some (users.id bronze_fourth)) db_bronze_four_updated)
     = Some 0
  /\ option_map users.has_used_morning_bonus
       (select_user (Some (users.id bronze_fourth)) db_bronze_four_updated)
     = Some false.
Proof.
  assert (Hpk : pk_users db_bronze_four) by distinct_keys.
  unfold league_of, db_bronze_four_updated.
  destruct (weekly_update_promotes_top_three (mkSession None sunday_noon)
              db_bronze_four bronze_top Hpk)
    as [u1 [p1 [Hsel1 [Hrank1 [Hiff1 _]]]]];
    [simpl; auto | simpl; lia |].
  destruct (weekly_update_promotes_top_three (mkSession None sunday_noon)
              db_bronze_four bronze_fourth Hpk)
    as [u4 [p4 [Hsel4 [Hrank4 [Hiff4 [Hbounds4 [Hweekly4 Hflag4]]]]]]];
    [simpl; auto 6 | simpl; lia |].
  rewrite Hsel1, Hsel4. simpl.
  split; [| split; [| split]].
  - f_equal. vm_compute in Hrank1. injection Hrank1 as <-.
    apply Hiff1. simpl. lia.
  - f_equal. simpl in Hiff4, Hbounds4.
    destruct (Z.eq_dec (users.league u4) 2) as [E | E]; [| lia].
    apply Hiff4 in E. lia.
  - now f_equal.
  - now f_equal.
Defined.

(** C5, at the failing input: six Diamond and fifteen Gold members.  The
    sixth Diamond member is relegated to Gold, is then ranked sixteenth among
    the Gold members in the same run and relegated again: they end in Silver,
    two tiers down, and the snapshot lists them three times. *)
Theorem weekly_update_relegates_twice :
  league_of "diamond-6" db_two_leagues = Some 4
  /\ league_of "diamond-6" db_two_leagues_updated = Some 2
  /\ times_ranked "diamond-6" db_two_leagues_updated = 3%nat
  /\ List.length (t_users db_two_leagues) = 21%nat.
Proof. repeat split. Qed.

(** A stranger replays the test user's recorded action. *)
Lemma award_xp_replay_before_user_lookup_witness :
  select_user (auth_uid (as_stranger sunday_noon)) db_test_user_awarded = None
  /\ award_xp (as_stranger sunday_noon) 50 "test_challenge" "test_idempotency_1"
              (JObj []) db_test_user_awarded
     = Ok (already_processed_xp, db_test_user_awarded).
Proof.
  split; [reflexivity |].
  apply (award_xp_replay_before_user_lookup (as_stranger sunday_noon) 50
           "test_challenge" "test_idempotency_1" (JObj []) db_test_user_awarded).
  vm_compute. discriminate.
Defined.

(** tests/idempotency.test.sql, test 1: 100 XP, 50 awarded twice under one
    [action_id]. *)
Lemma award_xp_idempotent_witness :
  award_xp (as_test_user sunday_noon) 50 "test_challenge" "test_idempotency_1"
           (JObj []) db_test_user
  = Ok (xp_awarded_response 50 1 0, db_test_user_awarded)
  /\ award_xp (as_test_user (sunday_noon + 1)) 50 "test_challenge"
              "test_idempotency_1" (JObj []) db_test_user_awarded
     = Ok (already_processed_xp, db_test_user_awarded)
  /\ List.length (ledger_entries "test_idempotency_1" db_test_user_awarded) = 1%nat
  /\ option_map users.xp
       (select_user (Some (users.id test_user)) db_test_user_awarded)
     = Some 150.
Proof.
  assert (Hfirst : award_xp (as_test_user sunday_noon) 50 "test_challenge"
                            "test_idempotency_1" (JObj []) db_test_user
                   = Ok (xp_awarded_response 50 1 0, db_test_user_awarded))
    by reflexivity.
  destruct (award_xp_idempotent (as_test_user sunday_noon)
              (as_test_user (sunday_noon + 1)) 50 "test_challenge"
              "test_idempotency_1" (JObj []) db_test_user
              (xp_awarded_response 50 1 0) db_test_user_awarded)
    as (_ & Hsecond & _ & Hone).
  - distinct_keys.
  - vm_compute. discriminate.
  - exact Hfirst.
  - split; [exact Hfirst | split; [exact Hsecond | split; [exact Hone | reflexivity]]].
Defined.

(** 100 XP at 07:00 UTC with the three bonuses: 600. *)
Lemma award_xp_bonus_compounding_witness :
  award_xp (as_test_user sunday_7am) 100 "Daily Challenge" "challenge_1"
           (JObj []) db_bonuses
  = Ok (xp_awarded_response 600 2 6,
        awarded_db (as_test_user sunday_7am)
                   (users.set_has_streak_bonus true test_user) 600
                   "Daily Challenge" "challenge_1" (JObj []) db_bonuses).
Proof.
  apply (proj1 (award_xp_bonus_compounding (as_test_user sunday_7am) 100
                  "Daily Challenge" "challenge_1" (JObj []) db_bonuses
                  (users.set_has_streak_bonus true test_user)
                  ltac:(distinct_keys) eq_refl eq_refl eq_refl eq_refl eq_refl
                  ltac:(vm_compute; discriminate)
                  ltac:(vm_compute; intros b [<- | []]; reflexivity)
                  ltac:(in_range) ltac:(in_range) ltac:(in_range)
                  ltac:(in_range) ltac:(in_range) ltac:(in_range))).
Defined.

(** C6, the claim as stated fails: a call with [p_amount = -50] succeeds,
    writes a ledger entry of -50 and takes the test user from 100 to 50 XP. *)
Lemma award_xp_negative_amount_counterexample :
  award_xp (as_test_user sunday_noon) (-50) "Penalty" "penalty_1" (JObj [])
           db_test_user
  = Ok (xp_awarded_response (-50) 1 0,
        awarded_db (as_test_user sunday_noon) test_user (-50)
                   "Penalty" "penalty_1" (JObj []) db_test_user)
  /\ json_get "success" (xp_awarded_response (-50) 1 0) = Some (JBool true)
  /\ map xp_ledger.amount
       (t_xp_ledger (awarded_db (as_test_user sunday_noon) test_user (-50)
                                "Penalty" "penalty_1" (JObj []) db_test_user))
     = [-50]
  /\ option_map users.xp
       (select_user (Some (users.id test_user))
          (awarded_db (as_test_user sunday_noon) test_user (-50)
                      "Penalty" "penalty_1" (JObj []) db_test_user))
     = Some 50
  /\ awarded_db (as_test_user sunday_noon) test_user (-50)
                "Penalty" "penalty_1" (JObj []) db_test_user
     <> db_test_user.
Proof. repeat split. discriminate. Qed.

(** -50 XP at 07:00 UTC with the three bonuses. *)
Lemma award_xp_negative_amount_processed_witness :
  exists final db',
    final <= -50
    /\ award_xp (as_test_user sunday_7am) (-50) "Penalty" "penalty_1" (JObj [])
                db_bonuses
       = Ok (xp_awarded_response final
               (Z.quot (users.xp test_user + final) 500 + 1) (Z.quot final 100),
             db').
Proof.
  destruct (award_xp_negative_amount_processed (as_test_user sunday_7am) (-50)
              "Penalty" "penalty_1" (JObj []) db_bonuses
              (users.set_has_streak_bonus true test_user))
    as [final [db' [Hle [Hcall _]]]].
  - lia.
  - distinct_keys.
  - reflexivity.
  - reflexivity.
  - unfold award_in_range. vm_compute. intuition discriminate.
  - exists final, db'. split; [exact Hle | exact Hcall].
Defined.

(** C7, at the failing input: the test user gifts a 2x booster under the
    action id "gift_1" and the call is replayed a second later.  The probe
    compares the text of the first booster's [created_at] with "gift_1",
    finds nothing, and the replay inserts a second booster and a second
    activity instead of answering "Already processed". *)
Theorem gift_booster_replay_creates_second_booster :
  exists r1 db1 r2 db2,
    gift_booster (as_test_user sunday_7am) (users.id recipient) "2x" "gift_1"
                 db_friends = Ok (r1, db1)
    /\ gift_booster (as_test_user (sunday_7am + 1000000)) (users.id recipient)
                    "2x" "gift_1" db1 = Ok (r2, db2)
    /\ json_get "success" r2 = Some (JBool true)
    /\ json_get "message" r2 = None
    /\ List.length (t_boosters db1) = 1%nat
    /\ List.length (t_boosters db2) = 2%nat
    /\ List.length (t_activities db2) = 2%nat.
Proof.
  do 4 eexists.
  split; [vm_compute; reflexivity |].
  split; [vm_compute; reflexivity |].
  repeat split.
Qed.

(** Two grace passes and a streak of 0: redeeming "tok1" leaves one pass and
    a streak of 1; redeeming "tok1" again changes nothing. *)
Lemma redeem_grace_pass_contract_witness :
  exists r db',
    redeem_grace_pass (as_grace_user sunday_noon) "tok1" db_grace = Ok (r, db')
    /\ json_get "success" r = Some (JBool true)
    /\ option_map users.grace_passes_available
         (select_user (Some (users.id grace_user)) db') = Some 1
    /\ option_map users.grace_passes_used
         (select_user (Some (users.id grace_user)) db') = Some 1
    /\ option_map users.streak
         (select_user (Some (users.id grace_user)) db') = Some 1
    /\ redeem_grace_pass (as_grace_user (sunday_noon + 1)) "tok1" db'
       = Ok (already_processed, db').
Proof.
  destruct (redeem_grace_pass_contract (as_grace_user sunday_noon) "tok1"
              db_grace grace_user) as [_ Hsome].
  - distinct_keys.
  - reflexivity.
  - reflexivity.
  - destruct Hsome as (r & db' & u' & Hcall & Hsucc & Hsel & Hused & Havail
                       & _ & Hstreak & Hreplay).
    + simpl. lia.
    + in_range.
    + in_range.
    + exists r, db'. unfold as_grace_user in Hsel. cbn [auth_uid] in Hsel.
      split; [exact Hcall |]. split; [exact Hsucc |].
      rewrite Hsel. simpl.
      split; [now rewrite Havail |].
      split; [now rewrite Hused |].
      split; [now rewrite Hstreak |].
      apply Hreplay.
Defined.

(** A streak of 5: broken after three idle days, extended to 6 the day
    after the last activity. *)
Lemma updateStreak_cases_witness :
  UserService.streakBroken
    (fst (UserService.updateStreak device_sunday_noon (streak_client (sunday - 3))))
  = true
  /\ option_map Stats.streak
       (UserService.currentUser
          (snd (UserService.updateStreak device_sunday_noon
                  (streak_client (sunday - 1)))))
     = Some 6.
Proof.
  split.
  - destruct (updateStreak_cases device_sunday_noon (streak_client (sunday - 3))
                (Stats.mk 5 0 0 0 1 50 false (sunday - 3) 5 false false None)
                eq_refl eq_refl)
      as (stats' & _ & _ & _ & _ & _ & _ & Hbroken).
    apply Hbroken. vm_compute. intuition discriminate.
  - destruct (updateStreak_cases device_sunday_noon (streak_client (sunday - 1))
                (Stats.mk 5 0 0 0 1 50 false (sunday - 1) 5 false false None)
                eq_refl eq_refl)
      as (stats' & Huser & _ & Hyesterday & _).
    rewrite Huser. simpl. f_equal.
    rewrite Hyesterday; reflexivity.
Defined.

(** tests/league_promotion.test.sql, test 3: the Diamond user (200 weekly
    XP) is ranked before the Bronze user (800 weekly XP). *)
Lemma get_leaderboard_league_first_witness :
  exists ka kb,
    In (board_row ka diamond_user) (get_leaderboard None "weekly" db_four_leagues)
    /\ In (board_row kb bronze_user) (get_leaderboard None "weekly" db_four_leagues)
    /\ ka < kb.
Proof.
  apply (proj1 (proj2 (get_leaderboard_league_first "weekly" db_four_leagues))).
  - simpl. auto 6.
  - simpl. auto.
  - simpl. lia.
Defined.

(** * Further properties *)

(** ** Which rows a call may change *)

Lemma is_user_same_id : forall uid r r',
    users.id r' = users.id r -> is_user uid r' = is_user uid r.
Proof. intros [uid |] r r' H; simpl; [rewrite H |]; reflexivity. Qed.

Lemma touches_only_refl : forall uid tbl, touches_only uid tbl tbl.
Proof.
  intros uid tbl. induction tbl; constructor; auto.
Qed.

Lemma touches_only_trans : forall uid a b c,
    touches_only uid a b -> touches_only uid b c -> touches_only uid a c.
Proof.
  intros uid a b c Hab. revert c.
  induction Hab as [| x y l l' [Hid Hkeep] _ IH]; intros c Hbc;
    inversion Hbc as [| y' z m m' [Hid' Hkeep'] Hrest]; subst; constructor.
  - split; [congruence |].
    intros Hx. rewrite Hkeep' by (rewrite (is_user_same_id _ _ _ Hid); exact Hx).
    auto.
  - apply IH. assumption.
Qed.

Lemma touches_only_ids : forall uid tbl tbl',
    touches_only uid tbl tbl' -> map users.id tbl' = map users.id tbl.
Proof.
  intros uid tbl tbl' H. induction H as [| x y l l' [Hid _] _ IH]; simpl;
    [reflexivity | now rewrite Hid, IH].
Qed.

Lemma touches_only_other : forall uid tbl tbl' j,
    touches_only uid tbl tbl' -> uid <> Some j ->
    find (fun r => String.eqb (users.id r) j) tbl'
    = find (fun r => String.eqb (users.id r) j) tbl.
Proof.
  intros uid tbl tbl' j H Hj.
  induction H as [| x y l l' [Hid Hkeep] _ IH]; simpl; [reflexivity |].
  rewrite Hid. destruct (String.eqb (users.id x) j) eqn:E; [| exact IH].
  apply String.eqb_eq in E. rewrite Hkeep; [reflexivity |].
  destruct uid as [uid |]; simpl; [| reflexivity].
  apply String.eqb_neq. congruence.
Qed.

Lemma touches_only_absent : forall uid tbl tbl',
    touches_only uid tbl tbl' ->
    (forall r, In r tbl -> is_user uid r = false) -> tbl' = tbl.
Proof.
  intros uid tbl tbl' H. induction H as [| x y l l' [_ Hkeep] _ IH]; intros Hno;
    [reflexivity |].
  rewrite Hkeep by (apply Hno; now left).
  f_equal. apply IH. intros r Hr. apply Hno. now right.
Qed.

Lemma select_user_None_rows : forall uid db,
    select_user uid db = None ->
    forall r, In r (t_users db) -> is_user uid r = false.
Proof.
  intros [uid |] db Hsel r Hr; simpl in *; [| reflexivity].
  exact (find_none _ _ Hsel r Hr).
Qed.

Lemma update_where_touches : forall uid set tbl tbl',
    (forall r r', set r = Ok r' -> users.id r' = users.id r) ->
    update_where (is_user uid) set tbl = Ok tbl' ->
    touches_only uid tbl tbl'.
Proof.
  intros uid set tbl. induction tbl as [| x l IH]; intros tbl' Hset H; simpl in H.
  - injection H as <-. constructor.
  - apply bind_Ok in H. destruct H as [x' [Hx H]].
    apply bind_Ok in H. destruct H as [l' [Hl H]].
    injection H as <-. constructor; [| now apply IH].
    destruct (is_user uid x) eqn:E.
    + split; [now apply Hset | discriminate].
    + injection Hx as <-. split; auto.
Qed.

(** A database that differs from [db] in the caller's row only. *)
Lemma update_user_touches : forall v_now uid set db db',
    (forall r r', set r = Ok r' -> users.id r' = users.id r) ->
    update_user v_now uid set db = Ok db' ->
    exists us, touches_only uid (t_users db) us /\ db' = with_users us db.
Proof.
  intros v_now uid set db db' Hset H. unfold update_user in H.
  apply bind_Ok in H. destruct H as [us [Hus H]]. injection H as <-.
  exists us. split; [| reflexivity].
  apply update_where_touches in Hus; [exact Hus |].
  intros r r' Hr. apply bind_Ok in Hr. destruct Hr as [r1 [Hr1 Hr]].
  injection Hr as <-. simpl. now apply Hset.
Qed.

Lemma apply_morning_bonus_touches : forall v_now uid u a db a' db',
    apply_morning_bonus v_now uid u a db = Ok (a', db') ->
    exists us, touches_only uid (t_users db) us /\ db' = with_users us db.
Proof.
  intros v_now uid u a db a' db' H. unfold apply_morning_bonus in H.
  destruct ((6 <=? extract_hour_utc v_now) && (extract_hour_utc v_now <? 9)
            && negb (users.has_used_morning_bonus u)).
  - apply bind_Ok in H. destruct H as [a1 [_ H]].
    apply bind_Ok in H. destruct H as [db1 [Hup H]]. injection H as <- <-.
    apply update_user_touches in Hup; [exact Hup |].
    intros r r' Hr. now injection Hr as <-.
  - injection H as <- <-. exists (t_users db).
    split; [apply touches_only_refl | now destruct db].
Qed.

Lemma apply_streak_bonus_touches : forall v_now uid u a db a' db',
    apply_streak_bonus v_now uid u a db = Ok (a', db') ->
    exists us, touches_only uid (t_users db) us /\ db' = with_users us db.
Proof.
  intros v_now uid u a db a' db' H. unfold apply_streak_bonus in H.
  destruct (users.has_streak_bonus u).
  - apply bind_Ok in H. destruct H as [a1 [_ H]].
    apply bind_Ok in H. destruct H as [db1 [Hup H]]. injection H as <- <-.
    apply update_user_touches in Hup; [exact Hup |].
    intros r r' Hr. now injection Hr as <-.
  - injection H as <- <-. exists (t_users db).
    split; [apply touches_only_refl | now destruct db].
Qed.

Lemma insert_xp_ledger_Ok : forall e db db',
    insert_xp_ledger e db = Ok db' ->
    select_ledger (xp_ledger.action_id e) db = None
    /\ db' = with_xp_ledger (t_xp_ledger db ++ [e]) db.
Proof.
  intros e db db' H. unfold insert_xp_ledger in H.
  destruct (select_ledger (xp_ledger.action_id e) db); [discriminate |].
  injection H as <-. auto.
Qed.

Lemma record_award_touches : forall env u a p_source p_action_id p_meta db r db',
    record_award env u a p_source p_action_id p_meta db = Ok (r, db') ->
    touches_only (auth_uid env) (t_users db) (t_users db')
    /\ t_boosters db' = t_boosters db
    /\ t_offline_actions db' = t_offline_actions db
    /\ t_league_snapshots db' = t_league_snapshots db
    /\ select_ledger p_action_id db = None
    /\ (exists e, xp_ledger.action_id e = p_action_id
                  /\ t_xp_ledger db' = t_xp_ledger db ++ [e])
    /\ (exists act, t_activities db' = t_activities db ++ [act]).
Proof.
  intros env u a p_source p_action_id p_meta db r db' H. unfold record_award in H.
  apply bind_Ok in H. destruct H as [v_total [_ H]].
  apply bind_Ok in H. destruct H as [db1 [H1 H]].
  apply bind_Ok in H. destruct H as [db2 [H2 H]].
  apply bind_Ok in H. destruct H as [db3 [H3 H]].
  injection H as _ <-.
  apply insert_xp_ledger_Ok in H1. destruct H1 as [Hfresh ->]. simpl in Hfresh.
  apply update_user_touches in H2.
  - destruct H2 as [us [Ht ->]]. apply insert_activity_Ok in H3. subst db3.
    simpl in *.
    repeat (split; [first [exact Ht | exact Hfresh | reflexivity] |]).
    split; eexists; [split; [| reflexivity] |]; reflexivity.
  - intros x x' Hx.
    repeat (apply bind_Ok in Hx; destruct Hx as [? [_ Hx]]).
    now injection Hx as <-.
Qed.

(** What a returning [award_xp] may have written: the caller's row, at most
    one ledger entry under the action id and at most one activity. *)
Lemma award_xp_frame : forall env p_amount p_source p_action_id p_meta db r db',
    award_xp env p_amount p_source p_action_id p_meta db = Ok (r, db') ->
    touches_only (auth_uid env) (t_users db) (t_users db')
    /\ t_boosters db' = t_boosters db
    /\ t_offline_actions db' = t_offline_actions db
    /\ t_league_snapshots db' = t_league_snapshots db
    /\ (db' = db
        \/ (select_ledger p_action_id db = None
            /\ (exists e, xp_ledger.action_id e = p_action_id
                          /\ t_xp_ledger db' = t_xp_ledger db ++ [e])
            /\ (exists act, t_activities db' = t_activities db ++ [act]))).
Proof.
  intros env p_amount p_source p_action_id p_meta db r db' H. unfold award_xp in H.
  assert (Hsame : forall d : database,
             touches_only (auth_uid env) (t_users d) (t_users d)
             /\ t_boosters d = t_boosters d
             /\ t_offline_actions d = t_offline_actions d
             /\ t_league_snapshots d = t_league_snapshots d)
    by (intros d; repeat split; apply touches_only_refl).
  destruct (select_ledger p_action_id db) eqn:Hl.
  { injection H as _ <-. destruct (Hsame db) as [? [? [? ?]]]. auto 10. }
  destruct (select_user (auth_uid env) db) as [u |] eqn:Hu.
  2:{ injection H as _ <-. destruct (Hsame db) as [? [? [? ?]]]. auto 10. }
  apply bind_Ok in H. destruct H as [[a1 db1] [H1 H]].
  apply bind_Ok in H. destruct H as [[a2 db2] [H2 H]].
  apply bind_Ok in H. destruct H as [a3 [_ H]].
  apply apply_morning_bonus_touches in H1. destruct H1 as [us1 [T1 ->]].
  apply apply_streak_bonus_touches in H2. destruct H2 as [us2 [T2 ->]].
  apply record_award_touches in H.
  destruct H as [T3 [Hb [Ho [Hs [Hf [He Ha]]]]]]. simpl in *.
  split; [exact (touches_only_trans _ _ _ _ T1 (touches_only_trans _ _ _ _ T2 T3)) |].
  repeat (split; [assumption |]).
  right. unfold select_ledger in *. simpl in Hf. auto.
Qed.

(** X1 [award_xp_fails_only_without_user]: [award_xp] reports failure only
    for a caller without a row in [users] (or not signed in) whose action id
    is not in the ledger; the response then is 'User not found' and nothing
    has been written. *)
Theorem award_xp_fails_only_without_user :
  forall env p_amount p_source p_action_id p_meta db r db',
    award_xp env p_amount p_source p_action_id p_meta db = Ok (r, db') ->
    json_get "success" r <> Some (JBool true) ->
    r = user_not_found /\ db' = db
    /\ select_user (auth_uid env) db = None
    /\ select_ledger p_action_id db = None.
Proof.
  intros env p_amount p_source p_action_id p_meta db r db' H Hfail.
  destruct (select_ledger p_action_id db) as [e |] eqn:Hl.
  { rewrite (award_xp_replay _ _ _ _ _ _ e Hl) in H. injection H as <- <-.
    now elim Hfail. }
  destruct (select_user (auth_uid env) db) as [u |] eqn:Hu.
  { destruct (award_xp_records _ _ _ _ _ _ _ _ _ Hl Hu H) as [final [Hs _]].
    now elim Hfail. }
  unfold award_xp in H. rewrite Hl, Hu in H. injection H as <- <-. auto.
Qed.

(** X2 [award_xp_keeps_constraints]: a returning [award_xp] neither adds nor
    removes a user, keeps [action_id] unique in the ledger, and leaves the
    boosters, the offline queue and the league snapshots alone. *)
Theorem award_xp_keeps_constraints :
  forall env p_amount p_source p_action_id p_meta db r db',
    ledger_unique db ->
    award_xp env p_amount p_source p_action_id p_meta db = Ok (r, db') ->
    map users.id (t_users db') = map users.id (t_users db)
    /\ ledger_unique db'
    /\ t_boosters db' = t_boosters db
    /\ t_offline_actions db' = t_offline_actions db
    /\ t_league_snapshots db' = t_league_snapshots db.
Proof.
  intros env p_amount p_source p_action_id p_meta db r db' Huniq H.
  apply award_xp_frame in H.
  destruct H as [T [Hb [Ho [Hs Hw]]]].
  split; [exact (touches_only_ids _ _ _ T) |].
  split; [| auto].
  destruct Hw as [-> | [Hfresh [[e [He Hl]] _]]]; [exact Huniq |].
  unfold ledger_unique in *. rewrite Hl, map_app. simpl.
  apply Permutation_NoDup with (l := xp_ledger.action_id e :: map xp_ledger.action_id (t_xp_ledger db)).
  - apply Permutation_cons_append.
  - constructor; [| exact Huniq].
    rewrite He. intros Hin. apply in_map_iff in Hin. destruct Hin as [x [Hx Hin]].
    unfold select_ledger in Hfresh.
    pose proof (find_none _ _ Hfresh x Hin) as Hne. simpl in Hne.
    apply String.eqb_neq in Hne. contradiction.
Qed.

(** X3 [award_xp_other_users_untouched]: whatever [award_xp] does, the row of
    every user other than the caller is afterwards what it was. *)
Theorem award_xp_other_users_untouched :
  forall env p_amount p_source p_action_id p_meta db r db' j,
    award_xp env p_amount p_source p_action_id p_meta db = Ok (r, db') ->
    auth_uid env <> Some j ->
    select_user (Some j) db' = select_user (Some j) db.
Proof.
  intros env p_amount p_source p_action_id p_meta db r db' j H Hj.
  apply award_xp_frame in H. destruct H as [T _].
  exact (touches_only_other _ _ _ _ T Hj).
Qed.

(** ** More on award_xp *)

Lemma select_user_awarded : forall env u final p_source p_action_id p_meta db,
    select_user (auth_uid env) db = Some u ->
    select_user (auth_uid env)
      (awarded_db env u final p_source p_action_id p_meta db)
    = Some (awarded_row (now env) u final).
Proof.
  intros env u final p_source p_action_id p_meta db Hu.
  exact (select_user_replace_row _ _ _ (awarded_row (now env) u final) Hu eq_refl).
Qed.

Lemma bonus_amount_bounds : forall v_now u db p_amount,
    0 <= p_amount ->
    p_amount <= bonus_amount v_now u db p_amount <= 9 * p_amount.
Proof.
  intros v_now u db p_amount Hp. unfold bonus_amount.
  assert (Hm : p_amount <= (p_amount * 3) / 2 <= (3 * p_amount) / 2
               /\ 2 * ((p_amount * 3) / 2) <= 3 * p_amount).
  { replace (3 * p_amount) with (p_amount * 3) by lia.
    pose proof (Z.mul_div_le (p_amount * 3) 2 ltac:(lia)).
    assert (p_amount <= p_amount * 3 / 2)
      by (apply Z.div_le_lower_bound; lia).
    lia. }
  destruct (booster_factor_cases v_now u db) as [-> | [-> | ->]];
    destruct (morning_window v_now && negb (users.has_used_morning_bonus u));
    destruct (users.has_streak_bonus u); lia.
Qed.

(** X4 [award_xp_response_matches_state]: after a first-time award the
    response, the ledger entry and the caller's row agree: [xp_awarded] is
    the amount of the one new ledger entry and the increase of [xp],
    [weekly_xp] and [lifetime_xp]; [new_level] is the stored level, which is
    [xp / 500 + 1]; [gems_earned] is the increase of [gems]. *)
Theorem award_xp_response_matches_state :
  forall env p_amount p_source p_action_id p_meta db u r db',
    pk_users db ->
    select_ledger p_action_id db = None ->
    select_user (auth_uid env) db = Some u ->
    award_xp env p_amount p_source p_action_id p_meta db = Ok (r, db') ->
    exists final u',
      json_get "xp_awarded" r = Some (JNum final)
      /\ select_user (auth_uid env) db' = Some u'
      /\ t_xp_ledger db'
         = t_xp_ledger db
             ++ [xp_ledger.mk (users.id u) p_action_id final p_source p_meta (now env)]
      /\ users.xp u' = users.xp u + final
      /\ users.weekly_xp u' = users.weekly_xp u + final
      /\ users.lifetime_xp u' = users.lifetime_xp u + final
      /\ users.level u' = Z.quot (users.xp u') 500 + 1
      /\ json_get "new_level" r = Some (JNum (users.level u'))
      /\ json_get "gems_earned" r = Some (JNum (users.gems u' - users.gems u))
      /\ users.updated_at u' = now env.
Proof.
  intros env p_amount p_source p_action_id p_meta db u r db' Hpk Hl Hu H.
  destruct (award_xp_fresh_inv _ _ _ _ _ _ _ _ _ Hpk Hl Hu H) as [-> ->].
  exists (bonus_amount (now env) u db p_amount),
         (awarded_row (now env) u (bonus_amount (now env) u db p_amount)).
  rewrite (select_user_awarded _ _ _ _ _ _ _ Hu). simpl.
  repeat (split; [reflexivity |]).
  split; [do 2 f_equal; lia | reflexivity].
Qed.

(** X5 [award_xp_gain_bounds]: for a non-negative amount the bonuses never
    take anything away and at most multiply by nine: the caller's [xp],
    [weekly_xp] and [lifetime_xp] each grow by the same gain, between
    [p_amount] and [9 * p_amount], and [gems] does not shrink. *)
Theorem award_xp_gain_bounds :
  forall env p_amount p_source p_action_id p_meta db u r db',
    0 <= p_amount ->
    pk_users db ->
    select_ledger p_action_id db = None ->
    select_user (auth_uid env) db = Some u ->
    award_xp env p_amount p_source p_action_id p_meta db = Ok (r, db') ->
    exists gain u',
      select_user (auth_uid env) db' = Some u'
      /\ p_amount <= gain <= 9 * p_amount
      /\ users.xp u' = users.xp u + gain
      /\ users.weekly_xp u' = users.weekly_xp u + gain
      /\ users.lifetime_xp u' = users.lifetime_xp u + gain
      /\ users.gems u <= users.gems u'.
Proof.
  intros env p_amount p_source p_action_id p_meta db u r db' Hp Hpk Hl Hu H.
  destruct (award_xp_fresh_inv _ _ _ _ _ _ _ _ _ Hpk Hl Hu H) as [-> ->].
  pose proof (bonus_amount_bounds (now env) u db p_amount Hp) as Hb.
  exists (bonus_amount (now env) u db p_amount),
         (awarded_row (now env) u (bonus_amount (now env) u db p_amount)).
  rewrite (select_user_awarded _ _ _ _ _ _ _ Hu). simpl.
  repeat (split; [first [reflexivity | exact Hb] |]).
  assert (0 <= Z.quot (bonus_amount (now env) u db p_amount) 100)
    by (apply Z.quot_pos; lia).
  lia.
Qed.

Lemma select_ledger_awarded : forall env u final p_source aid p_meta db aid',
    select_ledger aid' db = None -> aid' <> aid ->
    select_ledger aid' (awarded_db env u final p_source aid p_meta db) = None.
Proof.
  intros env u final p_source aid p_meta db aid' Hl Hne.
  unfold select_ledger in *. simpl. rewrite find_app, Hl. simpl.
  apply String.eqb_neq in Hne. rewrite String.eqb_sym, Hne. reflexivity.
Qed.

Lemma booster_factor_same_boosters : forall v_now u u' db db',
    users.id u' = users.id u -> t_boosters db' = t_boosters db ->
    booster_factor v_now u' db' = booster_factor v_now u db.
Proof.
  intros v_now u u' db db' Hid Hb.
  unfold booster_factor, active_boosters. now rewrite Hid, Hb.
Qed.

(** X6 [award_xp_bonuses_are_one_shot]: the morning bonus and the streak
    bonus are consumed by the award that uses them.  After one award, a
    second award by the same caller under another action id gets no streak
    bonus, and gets the morning bonus only if the first award was made
    outside the morning window (and the flag was not yet set): made in the
    same morning, it is worth [p_amount] times the booster factor. *)
Theorem award_xp_bonuses_are_one_shot :
  forall env1 env2 p1 p2 src1 src2 aid1 aid2 meta1 meta2 db u r1 db1 r2 db2,
    pk_users db ->
    auth_uid env2 = auth_uid env1 ->
    select_user (auth_uid env1) db = Some u ->
    select_ledger aid1 db = None ->
    select_ledger aid2 db = None ->
    aid2 <> aid1 ->
    award_xp env1 p1 src1 aid1 meta1 db = Ok (r1, db1) ->
    award_xp env2 p2 src2 aid2 meta2 db1 = Ok (r2, db2) ->
    json_get "xp_awarded" r2
    = Some (JNum ((if morning_window (now env2)
                      && negb (morning_window (now env1)
                               || users.has_used_morning_bonus u)
                   then (p2 * 3) / 2 else p2)
                  * booster_factor (now env2) u db))
    /\ (morning_window (now env1) = true ->
        json_get "xp_awarded" r2
        = Some (JNum (p2 * booster_factor (now env2) u db))).
Proof.
  intros env1 env2 p1 p2 src1 src2 aid1 aid2 meta1 meta2 db u r1 db1 r2 db2
         Hpk Hsame Hu Hl1 Hl2 Hne H1 H2.
  destruct (award_xp_fresh_inv _ _ _ _ _ _ _ _ _ Hpk Hl1 Hu H1) as [_ ->].
  set (final1 := bonus_amount (now env1) u db p1) in *.
  assert (Hpk1 : pk_users (awarded_db env1 u final1 src1 aid1 meta1 db))
    by (apply (pk_users_replace_row db); [exact Hpk | reflexivity]).
  assert (Hu1 : select_user (auth_uid env2)
                  (awarded_db env1 u final1 src1 aid1 meta1 db)
                = Some (awarded_row (now env1) u final1))
    by (rewrite Hsame; now apply select_user_awarded).
  pose proof (select_ledger_awarded env1 u final1 src1 aid1 meta1 db aid2 Hl2 Hne)
    as Hl2'.
  destruct (award_xp_fresh_inv _ _ _ _ _ _ _ _ _ Hpk1 Hl2' Hu1 H2) as [-> _].
  assert (Heq : bonus_amount (now env2) (awarded_row (now env1) u final1)
                  (awarded_db env1 u final1 src1 aid1 meta1 db) p2
                = (if morning_window (now env2)
                      && negb (morning_window (now env1)
                               || users.has_used_morning_bonus u)
                   then (p2 * 3) / 2 else p2)
                  * booster_factor (now env2) u db).
  { unfold bonus_amount.
    rewrite (booster_factor_same_boosters (now env2) u
               (awarded_row (now env1) u final1) db
               (awarded_db env1 u final1 src1 aid1 meta1 db) eq_refl eq_refl).
    reflexivity. }
  simpl. rewrite Heq. split; [reflexivity |].
  intros Hm. rewrite Hm. simpl. now rewrite andb_false_r.
Qed.

Lemma expires_desc_total : forall x y,
    expires_desc x y = true \/ expires_desc y x = true.
Proof. intros x y. unfold expires_desc. rewrite !Z.leb_le. lia. Qed.

Lemma expires_desc_trans : forall x y z,
    expires_desc x y = true -> expires_desc y z = true -> expires_desc x z = true.
Proof. intros x y z. unfold expires_desc. rewrite !Z.leb_le. lia. Qed.

(** X7 [apply_booster_latest_expiry]: without an active booster the amount
    is left as it is; otherwise the multiplier is that of an active booster
    of the caller whose [expires_at] no other active booster exceeds. *)
Theorem apply_booster_latest_expiry :
  forall v_now u a db,
    (active_boosters (users.id u) v_now db = [] ->
     apply_booster v_now u a db = Ok a)
    /\ (active_boosters (users.id u) v_now db <> [] ->
        exists b,
          In b (active_boosters (users.id u) v_now db)
          /\ (forall b', In b' (active_boosters (users.id u) v_now db) ->
                         boosters.expires_at b' <= boosters.expires_at b)
          /\ apply_booster v_now u a db
             = (if String.eqb (boosters.type b) "3x" then int4 (a * 3)
                else if String.eqb (boosters.type b) "2x" then int4 (a * 2)
                else Ok a)).
Proof.
  intros v_now u a db. unfold apply_booster.
  set (act := active_boosters (users.id u) v_now db).
  split.
  - intros ->. reflexivity.
  - intros Hne.
    pose proof (order_by_ordered _ expires_desc expires_desc_total
                  expires_desc_trans act) as Hsorted.
    pose proof (order_by_In _ expires_desc) as Hin.
    destruct (order_by expires_desc act) as [| b rest] eqn:E.
    + destruct act as [| x act']; [now elim Hne |].
      specialize (Hin x (x :: act')). rewrite E in Hin.
      destruct (proj2 Hin (or_introl eq_refl)).
    + exists b. split; [apply (Hin b act); rewrite E; now left |].
      split; [| reflexivity].
      intros b' Hb'. apply (Hin b' act) in Hb'. rewrite E in Hb'.
      destruct Hb' as [<- | Hb']; [lia |].
      inversion Hsorted as [| ? ? _ Hall]; subst.
      rewrite Forall_forall in Hall. specialize (Hall b' Hb').
      unfold expires_desc in Hall. apply Z.leb_le in Hall. exact Hall.
Qed.

(** ** More on gift_booster *)

Lemma insert_booster_Ok : forall v_now p_to p_type v_expires_at db db',
    insert_booster v_now p_to p_type v_expires_at db = Ok db' ->
    existsb (fun r => String.eqb (users.id r) p_to) (t_users db) = true
    /\ db' = with_boosters
               (t_boosters db ++ [boosters.mk p_to p_type v_expires_at true v_now])
               db.
Proof.
  intros v_now p_to p_type v_expires_at db db' H. unfold insert_booster in H.
  destruct (existsb _ (t_users db)); [| discriminate].
  injection H as <-. auto.
Qed.

Lemma booster_duration_cases : forall t d,
    booster_duration t = Some d ->
    (t = "2x"%string /\ d = 2) \/ (t = "3x"%string /\ d = 1).
Proof.
  intros t d H. unfold booster_duration in H.
  destruct (String.eqb t "2x") eqn:E2.
  - apply String.eqb_eq in E2. injection H as <-. auto.
  - destruct (String.eqb t "3x") eqn:E3; [| discriminate].
    apply String.eqb_eq in E3. injection H as <-. auto.
Qed.

(** X8 [gift_booster_outcomes]: what [gift_booster] does when its probe
    finds nothing.  An unknown booster type is refused and nothing is
    written.  For '2x' and '3x': a recipient without a row in [users], or a
    signed-in giver without one, makes the call raise a foreign-key
    violation; with an existing recipient and no signed-in user at all the
    gift goes through, its activity carrying no user. *)
Theorem gift_booster_outcomes :
  forall env p_to_user_id p_booster_type p_action_id db,
    select_gift p_to_user_id p_action_id db = None ->
    let known := existsb (fun r => String.eqb (users.id r) p_to_user_id)
                         (t_users db) in
    (booster_duration p_booster_type = None ->
     gift_booster env p_to_user_id p_booster_type p_action_id db
     = Ok (invalid_booster_type, db))
    /\ (booster_duration p_booster_type <> None -> known = false ->
        gift_booster env p_to_user_id p_booster_type p_action_id db
        = Raise foreign_key_violation)
    /\ (booster_duration p_booster_type <> None -> known = true ->
        forall giver,
          auth_uid env = Some giver ->
          existsb (fun r => String.eqb (users.id r) giver) (t_users db) = false ->
          gift_booster env p_to_user_id p_booster_type p_action_id db
          = Raise foreign_key_violation)
    /\ (booster_duration p_booster_type <> None -> known = true ->
        auth_uid env = None ->
        exists r db',
          gift_booster env p_to_user_id p_booster_type p_action_id db = Ok (r, db')
          /\ json_get "success" r = Some (JBool true)
          /\ List.length (t_boosters db') = S (List.length (t_boosters db))
          /\ map activities.user_id (t_activities db')
             = map activities.user_id (t_activities db) ++ [None]).
Proof.
  intros env p_to t aid db Hprobe known. subst known.
  unfold gift_booster. rewrite Hprobe.
  destruct (booster_duration t) as [d |]; repeat split;
    try congruence; try (intros H; now elim H).
  - intros _ Hknown. unfold insert_booster. now rewrite Hknown.
  - intros _ Hknown giver Hgiver Hnone.
    unfold insert_booster. rewrite Hknown. cbn [bind].
    unfold insert_activity. cbn [activities.user_id t_users with_boosters].
    rewrite Hgiver, Hnone. reflexivity.
  - intros _ Hknown Hanon.
    unfold insert_booster. rewrite Hknown. cbn [bind].
    unfold insert_activity. cbn [activities.user_id]. rewrite Hanon.
    cbn [bind]. eexists. eexists. split; [reflexivity |].
    split; [reflexivity |].
    cbn [t_boosters t_activities with_boosters with_activities].
    rewrite length_app, map_app. simpl. split; [lia | reflexivity].
Qed.

Lemma gift_booster_inv : forall env p_to p_type p_action_id db r db',
    select_gift p_to p_action_id db = None ->
    gift_booster env p_to p_type p_action_id db = Ok (r, db') ->
    json_get "success" r = Some (JBool true) ->
    exists d,
      booster_duration p_type = Some d
      /\ t_users db' = t_users db
      /\ t_boosters db'
         = t_boosters db ++ [boosters.mk p_to p_type (now env + hours d) true (now env)].
Proof.
  intros env p_to t aid db r db' Hprobe H Hs. unfold gift_booster in H.
  rewrite Hprobe in H.
  destruct (booster_duration t) as [d |].
  - apply bind_Ok in H. destruct H as [db1 [H1 H]].
    apply bind_Ok in H. destruct H as [db2 [H2 H]]. injection H as _ <-.
    apply insert_booster_Ok in H1. destruct H1 as [_ ->].
    apply insert_activity_Ok in H2. subst db2.
    exists d. auto.
  - injection H as <- _. discriminate.
Qed.

(** X9 [gifted_booster_multiplies_awards]: a gift that went through gives
    the recipient the multiplier for the advertised time, a '2x' booster
    doubling for two hours and a '3x' booster tripling for one: a recipient
    with no other booster active has their amounts multiplied while [NOW()]
    is before the expiry, and left alone from the expiry on. *)
Theorem gifted_booster_multiplies_awards :
  forall env p_to_user_id p_booster_type p_action_id db r db' u v_now a,
    select_gift p_to_user_id p_action_id db = None ->
    gift_booster env p_to_user_id p_booster_type p_action_id db = Ok (r, db') ->
    json_get "success" r = Some (JBool true) ->
    users.id u = p_to_user_id ->
    active_boosters p_to_user_id v_now db = [] ->
    exists d k,
      ((p_booster_type = "2x"%string /\ d = 2 /\ k = 2)
       \/ (p_booster_type = "3x"%string /\ d = 1 /\ k = 3))
      /\ json_get "expires_at" r = Some (JTime (now env + hours d))
      /\ (v_now < now env + hours d ->
          apply_booster v_now u a db' = int4 (a * k))
      /\ (now env + hours d <= v_now ->
          apply_booster v_now u a db' = Ok a).
Proof.
  intros env p_to t aid db r db' u v_now a Hprobe H Hs Hu Hnone.
  destruct (gift_booster_inv _ _ _ _ _ _ _ Hprobe H Hs) as [d [Hd [_ Hb]]].
  assert (Hr : json_get "expires_at" r = Some (JTime (now env + hours d))).
  { unfold gift_booster in H. rewrite Hprobe, Hd in H.
    apply bind_Ok in H. destruct H as [db1 [_ H]].
    apply bind_Ok in H. destruct H as [db2 [_ H]]. now injection H as <- _. }
  assert (Hact : active_boosters p_to v_now db'
                 = if v_now <? now env + hours d
                   then [boosters.mk p_to t (now env + hours d) true (now env)]
                   else []).
  { unfold active_boosters in *. rewrite Hb, filter_app, Hnone. simpl.
    rewrite String.eqb_refl. simpl. reflexivity. }
  exists d, (if String.eqb t "3x" then 3 else 2).
  split.
  { destruct (booster_duration_cases _ _ Hd) as [[-> ->] | [-> ->]]; simpl; auto. }
  split; [exact Hr |].
  unfold apply_booster. rewrite Hu, Hact.
  split; intros Hnow.
  - apply Z.ltb_lt in Hnow. rewrite Hnow. simpl.
    destruct (booster_duration_cases _ _ Hd) as [[-> _] | [-> _]]; reflexivity.
  - apply Z.ltb_ge in Hnow. rewrite Hnow. reflexivity.
Qed.

(** ** More on redeem_grace_pass *)

Lemma t_users_upsert_processed : forall a db,
    t_users (upsert_processed a db) = t_users db.
Proof.
  intros a db. unfold upsert_processed. now destruct (existsb _ _).
Qed.

Lemma select_processed_upsert_other : forall a db aid,
    offline_actions.action_id a <> aid ->
    select_processed aid (upsert_processed a db) = select_processed aid db.
Proof.
  intros a db aid Hne. unfold upsert_processed, select_processed.
  apply String.eqb_neq in Hne.
  destruct (existsb _ (t_offline_actions db));
    cbn [t_offline_actions with_offline_actions].
  - induction (t_offline_actions db) as [| x l IH]; [reflexivity |].
    cbn [map find].
    destruct (String.eqb (offline_actions.action_id x) (offline_actions.action_id a))
      eqn:Ex.
    + apply String.eqb_eq in Ex.
      cbn [offline_actions.set_processed offline_actions.action_id
           offline_actions.processed].
      rewrite Ex, Hne. cbn [andb]. exact IH.
    + destruct (String.eqb (offline_actions.action_id x) aid
                && offline_actions.processed x); [reflexivity | exact IH].
  - rewrite find_app.
    destruct (find _ (t_offline_actions db)); [reflexivity |].
    cbn [find]. rewrite Hne. reflexivity.
Qed.

Lemma redeem_grace_pass_inv : forall env p_action_id db u r db',
    pk_users db ->
    select_processed p_action_id db = None ->
    select_user (auth_uid env) db = Some u ->
    redeem_grace_pass env p_action_id db = Ok (r, db') ->
    (users.grace_passes_available u <= 0 /\ r = no_grace_passes /\ db' = db)
    \/ (0 < users.grace_passes_available u
        /\ json_get "success" r = Some (JBool true)
        /\ db' = redeemed_db env u p_action_id db).
Proof.
  intros env aid db u r db' Hpk Hfresh Hu H. unfold redeem_grace_pass in H.
  rewrite Hfresh, Hu in H.
  destruct (users.grace_passes_available u <=? 0) eqn:E.
  - injection H as <- <-. apply Z.leb_le in E. auto.
  - apply Z.leb_gt in E. right. split; [exact E |].
    rewrite (update_user_pk _ _ _ _ u Hpk Hu) in H.
    apply bind_Ok in H. destruct H as [db1 [H1 H]].
    apply bind_Ok in H. destruct H as [remaining [_ H]]. injection H as <- <-.
    apply bind_Ok in H1. destruct H1 as [u1 [H1 Hdb]]. injection Hdb as <-.
    apply bind_Ok in H1. destruct H1 as [used' [Hused H1]].
    apply bind_Ok in H1. destruct H1 as [avail' [Havail H1]]. injection H1 as <-.
    apply int4_Ok in Hused, Havail. destruct Hused as [-> _], Havail as [-> _].
    split; reflexivity.
Qed.

Lemma select_user_redeemed : forall env u p_action_id db,
    select_user (auth_uid env) db = Some u ->
    select_user (auth_uid env) (redeemed_db env u p_action_id db)
    = Some (redeemed_row (now env) u).
Proof.
  intros env u aid db Hu. unfold redeemed_db, select_user.
  rewrite t_users_upsert_processed. cbn [t_users with_users].
  exact (select_user_replace_row (auth_uid env) db u (redeemed_row (now env) u)
           Hu eq_refl).
Qed.

(** X10 [redeem_grace_pass_conserves_passes]: whatever a call of
    [redeem_grace_pass] returns, the caller's passes are only moved from
    available to used: the sum of [grace_passes_used] and
    [grace_passes_available] stays what it was, the available passes never
    grow and never fall below zero, and a positive streak is never
    changed. *)
Theorem redeem_grace_pass_conserves_passes :
  forall env p_action_id db u r db',
    pk_users db ->
    select_user (auth_uid env) db = Some u ->
    0 <= users.grace_passes_available u ->
    redeem_grace_pass env p_action_id db = Ok (r, db') ->
    exists u',
      select_user (auth_uid env) db' = Some u'
      /\ users.grace_passes_used u' + users.grace_passes_available u'
         = users.grace_passes_used u + users.grace_passes_available u
      /\ 0 <= users.grace_passes_available u' <= users.grace_passes_available u
      /\ (0 < users.streak u -> users.streak u' = users.streak u)
      /\ users.xp u' = users.xp u.
Proof.
  intros env aid db u r db' Hpk Hu Havail H.
  destruct (select_processed aid db) as [a |] eqn:Hp.
  { rewrite redeem_grace_pass_replay in H by congruence. injection H as _ <-.
    exists u. repeat split; auto; lia. }
  destruct (redeem_grace_pass_inv _ _ _ _ _ _ Hpk Hp Hu H)
    as [[_ [_ ->]] | [Hpos [_ ->]]].
  { exists u. repeat split; auto; lia. }
  exists (redeemed_row (now env) u).
  split; [now apply select_user_redeemed |].
  simpl. repeat split; try lia.
  intros Hs. apply Z.ltb_lt in Hs. now rewrite Hs.
Qed.

(** X11 [redeem_grace_pass_last_pass]: the action id guards against a
    replay, not against spending: once the caller's last pass is redeemed,
    a redemption under any other unprocessed action id fails with 'No grace
    passes available' and changes nothing. *)
Theorem redeem_grace_pass_last_pass :
  forall env1 env2 aid1 aid2 db u r1 db1,
    pk_users db ->
    auth_uid env2 = auth_uid env1 ->
    select_user (auth_uid env1) db = Some u ->
    users.grace_passes_available u = 1 ->
    select_processed aid1 db = None ->
    select_processed aid2 db = None ->
    aid1 <> aid2 ->
    redeem_grace_pass env1 aid1 db = Ok (r1, db1) ->
    json_get "success" r1 = Some (JBool true)
    /\ redeem_grace_pass env2 aid2 db1 = Ok (no_grace_passes, db1).
Proof.
  intros env1 env2 aid1 aid2 db u r1 db1 Hpk Hsame Hu Hone Hp1 Hp2 Hne H.
  destruct (redeem_grace_pass_inv _ _ _ _ _ _ Hpk Hp1 Hu H)
    as [[Hno _] | [_ [Hs ->]]]; [lia |].
  split; [exact Hs |].
  unfold redeem_grace_pass. rewrite Hsame.
  rewrite (select_user_redeemed _ _ _ _ Hu).
  unfold redeemed_db at 1.
  rewrite select_processed_upsert_other by exact Hne.
  unfold select_processed in *. cbn [t_offline_actions with_users].
  rewrite Hp2. cbn [redeemed_row users.grace_passes_available
                    users.update_updated_at_column users.set_grace].
  rewrite Hone. reflexivity.
Qed.

(** ** The offline queue *)

Lemma and_then_Done : forall (A B : Type) (m : attempt A) (k : A -> attempt B) b,
    and_then m k = Done b -> exists a, m = Done a /\ k a = Done b.
Proof.
  intros A B [a | e] k b H; simpl in H; [eauto | discriminate].
Qed.

Lemma lift_Done : forall (A : Type) (m : result A) a,
    lift m = Done a -> m = Ok a.
Proof.
  intros A [x | e] a H; simpl in H; [now injection H as -> | discriminate].
Qed.

Lemma redeem_grace_pass_frame : forall env p_action_id db r db',
    redeem_grace_pass env p_action_id db = Ok (r, db') ->
    db' = db
    \/ exists us a,
         touches_only (auth_uid env) (t_users db) us
         /\ offline_actions.processed a = true
         /\ db' = upsert_processed a (with_users us db).
Proof.
  intros env aid db r db' H. unfold redeem_grace_pass in H.
  destruct (select_processed aid db); [injection H as _ <-; now left |].
  destruct (select_user (auth_uid env) db) as [u |];
    [| injection H as _ <-; now left].
  destruct (users.grace_passes_available u <=? 0);
    [injection H as _ <-; now left |].
  apply bind_Ok in H. destruct H as [db1 [H1 H]].
  apply bind_Ok in H. destruct H as [remaining [_ H]]. injection H as _ <-.
  apply update_user_touches in H1.
  - destruct H1 as [us [T ->]]. right. exists us. eexists.
    split; [exact T |]. split; [| reflexivity]. reflexivity.
  - intros x x' Hx.
    repeat (apply bind_Ok in Hx; destruct Hx as [? [_ Hx]]).
    now injection Hx as <-.
Qed.

Lemma upsert_processed_pending : forall a db r,
    offline_actions.processed a = true ->
    In r (t_offline_actions (upsert_processed a db)) ->
    offline_actions.processed r = false ->
    In r (t_offline_actions db).
Proof.
  intros a db r Ha Hin Hr. unfold upsert_processed in Hin.
  destruct (existsb _ (t_offline_actions db));
    cbn [t_offline_actions with_offline_actions] in Hin.
  - apply in_map_iff in Hin. destruct Hin as [x [Hx Hin]].
    destruct (String.eqb (offline_actions.action_id x) (offline_actions.action_id a)).
    + subst r. discriminate.
    + now subst r.
  - apply in_app_or in Hin. destruct Hin as [Hin | [<- | []]]; [exact Hin |].
    congruence.
Qed.


Lemma with_offline_actions_same : forall db,
    with_offline_actions (t_offline_actions db) db = db.
Proof. now destruct db. Qed.

Lemma step_frame_refl : forall env db, step_frame env db db.
Proof.
  intros env db. split; [apply touches_only_refl |].
  split; [auto |]. intros _. symmetry. apply with_offline_actions_same.
Qed.

Lemma step_frame_trans : forall env a b c,
    step_frame env a b -> step_frame env b c -> step_frame env a c.
Proof.
  intros env a b c [T1 [P1 N1]] [T2 [P2 N2]].
  split; [exact (touches_only_trans _ _ _ _ T1 T2) |].
  split; [auto |].
  intros Hnone. specialize (N1 Hnone).
  assert (Hb : select_user (auth_uid env) b = None).
  { rewrite N1. destruct (auth_uid env); [exact Hnone | reflexivity]. }
  specialize (N2 Hb). rewrite N1 in N2. rewrite N2. reflexivity.
Qed.

Lemma award_xp_step : forall env p_amount p_source p_action_id p_meta db r db',
    award_xp env p_amount p_source p_action_id p_meta db = Ok (r, db') ->
    step_frame env db db'.
Proof.
  intros env p_amount p_source aid p_meta db r db' H.
  pose proof (award_xp_frame _ _ _ _ _ _ _ _ H) as [T [_ [Ho _]]].
  split; [exact T |]. split.
  - intros x Hx _. now rewrite <- Ho.
  - intros Hnone. unfold award_xp in H. rewrite Hnone in H.
    destruct (select_ledger aid db); injection H as _ <-;
      symmetry; apply with_offline_actions_same.
Qed.

Lemma award_xp_nullable_step :
  forall env p_amount p_source p_action_id p_meta db r db',
    award_xp_nullable env p_amount p_source p_action_id p_meta db = Done (r, db') ->
    step_frame env db db'.
Proof.
  intros env p_amount p_source aid p_meta db r db' H. unfold award_xp_nullable in H.
  assert (Hearly :
            match select_ledger aid db with
            | Some _ => Done (already_processed_xp, db)
            | None =>
                match select_user (auth_uid env) db with
                | Some _ => Aborted not_null_violation
                | None => Done (user_not_found, db)
                end
            end = Done (r, db') -> step_frame env db db').
  { intros H'. destruct (select_ledger aid db);
      [| destruct (select_user (auth_uid env) db); [discriminate |]];
      injection H' as _ <-; apply step_frame_refl. }
  destruct p_amount as [amount |], p_source as [source |].
  - apply lift_Done in H. exact (award_xp_step _ _ _ _ _ _ _ _ H).
  - apply Hearly.
    destruct (select_ledger aid db); [exact H |].
    destruct (select_user (auth_uid env) db); [| exact H].
    apply and_then_Done in H. destruct H as [? [_ H]]. discriminate.
  - apply Hearly. exact H.
  - apply Hearly. exact H.
Qed.

Lemma redeem_grace_pass_step : forall env p_action_id db r db',
    redeem_grace_pass env p_action_id db = Ok (r, db') ->
    step_frame env db db'.
Proof.
  intros env aid db r db' H.
  assert (Hnone : select_user (auth_uid env) db = None -> db' = db).
  { intros Hn. unfold redeem_grace_pass in H. rewrite Hn in H.
    destruct (select_processed aid db); now injection H as _ <-. }
  destruct (redeem_grace_pass_frame _ _ _ _ _ H) as [-> | [us [a [T [Ha ->]]]]];
    [apply step_frame_refl |].
  split; [now rewrite t_users_upsert_processed |].
  split.
  - intros x Hx Hp. exact (upsert_processed_pending _ _ _ Ha Hx Hp).
  - intros Hn. rewrite (Hnone Hn). symmetry. apply with_offline_actions_same.
Qed.

Lemma mark_processed_step : forall env v_action db,
    step_frame env db (mark_processed v_action db).
Proof.
  intros env v db. split; [apply touches_only_refl |]. split.
  - intros r Hr Hp. simpl in Hr. apply in_map_iff in Hr.
    destruct Hr as [x [Hx Hin]].
    destruct (String.eqb (offline_actions.action_id x) (offline_actions.action_id v));
      subst r; [discriminate | exact Hin].
  - reflexivity.
Qed.

Lemma mark_processed_marks : forall v_action db r,
    In r (t_offline_actions (mark_processed v_action db)) ->
    offline_actions.processed r = false ->
    offline_actions.action_id r <> offline_actions.action_id v_action.
Proof.
  intros v db r Hr Hp. simpl in Hr. apply in_map_iff in Hr.
  destruct Hr as [x [Hx Hin]].
  destruct (String.eqb (offline_actions.action_id x) (offline_actions.action_id v))
    eqn:E; subst r; [discriminate |].
  now apply String.eqb_neq.
Qed.

Lemma dispatch_action_step : forall int4in jsonb_out env v_action db r db',
    dispatch_action int4in jsonb_out env v_action db = Done (r, db') ->
    step_frame env db db'.
Proof.
  intros int4in jsonb_out env v db r db' H. unfold dispatch_action in H.
  destruct (String.eqb (offline_actions.action_type v) "award_xp").
  - apply and_then_Done in H. destruct H as [p_amount [_ H]].
    exact (award_xp_nullable_step _ _ _ _ _ _ _ _ H).
  - destruct (String.eqb (offline_actions.action_type v) "redeem_grace_pass").
    + apply lift_Done in H. exact (redeem_grace_pass_step _ _ _ _ _ H).
    + injection H as _ <-. apply step_frame_refl.
Qed.

Lemma process_action_Aborted : forall int4in jsonb_out env acts e,
    fold_left (process_action int4in jsonb_out env) acts (Aborted e) = Aborted e.
Proof.
  intros int4in jsonb_out env acts e. induction acts; simpl; auto.
Qed.

(** The loop over the fetched rows [acts], when it runs to its end. *)
Lemma process_actions_Done : forall int4in jsonb_out env acts c db c' db',
    fold_left (process_action int4in jsonb_out env) acts (Done (c, db))
    = Done (c', db') ->
    c' = c + Z.of_nat (List.length acts)
    /\ step_frame env db db'
    /\ forall r, In r (t_offline_actions db') ->
                 offline_actions.processed r = false ->
                 ~ In (offline_actions.action_id r)
                      (map offline_actions.action_id acts).
Proof.
  intros int4in jsonb_out env acts.
  induction acts as [| v rest IH]; intros c db c' db' H.
  - injection H as <- <-. split; [simpl; lia |].
    split; [apply step_frame_refl | auto].
  - cbn [fold_left] in H.
    destruct (process_action int4in jsonb_out env (Done (c, db)) v)
      as [[c1 db1] | e] eqn:E;
      [| now rewrite process_action_Aborted in H].
    cbn [process_action and_then] in E.
    apply and_then_Done in E. destruct E as [[r0 db0] [Hd E]].
    injection E as <- <-.
    destruct (IH _ _ _ _ H) as [-> [Hrest Hmarks]].
    pose proof (dispatch_action_step _ _ _ _ _ _ _ Hd) as H0.
    pose proof (mark_processed_step env v db0) as H1.
    split; [cbn [List.length]; lia |].
    split; [exact (step_frame_trans _ _ _ _ (step_frame_trans _ _ _ _ H0 H1) Hrest) |].
    intros r Hr Hp [Hv | Hin]; [| exact (Hmarks r Hr Hp Hin)].
    destruct Hrest as [_ [Hkeep _]].
    exact (mark_processed_marks v db0 r (Hkeep r Hr Hp) Hp (eq_sym Hv)).
Qed.

Lemma filter_none : forall (A : Type) (p : A -> bool) l,
    (forall x, In x l -> p x = false) -> filter p l = [].
Proof.
  intros A p l. induction l as [| x l IH]; intros H; simpl; [reflexivity |].
  rewrite (H x (or_introl eq_refl)). apply IH. intros y Hy. apply H. now right.
Qed.

Lemma process_offline_actions_Done : forall int4in jsonb_out env p_user_id db r db',
    process_offline_actions int4in jsonb_out env p_user_id db = Done (r, db') ->
    r = jsonb_build_object
          [("success", JBool true);
           ("processed_count",
            JNum (Z.of_nat (List.length (queued_actions p_user_id db))))]%string
    /\ step_frame env db db'
    /\ queued_actions p_user_id db' = [].
Proof.
  intros int4in jsonb_out env p db r db' H. unfold process_offline_actions in H.
  apply and_then_Done in H. destruct H as [[c d] [H E]]. injection E as <- <-.
  destruct (process_actions_Done _ _ _ _ _ _ _ _ H) as [-> [Hframe Hmarks]].
  split; [reflexivity |]. split; [exact Hframe |].
  unfold queued_actions at 1. rewrite filter_none; [reflexivity |].
  intros x Hx.
  destruct (String.eqb (offline_actions.user_id x) p) eqn:Eu; [| reflexivity].
  destruct (offline_actions.processed x) eqn:Ep; [reflexivity |].
  exfalso. apply (Hmarks x Hx Ep). apply in_map.
  apply order_by_In. apply filter_In. split.
  - destruct Hframe as [_ [Hkeep _]]. exact (Hkeep x Hx Ep).
  - now rewrite Eu, Ep.
Qed.

(** X12 [process_offline_actions_drains_queue]: when
    [process_offline_actions] returns, it reports success with
    [processed_count] the number of actions of [p_user_id] that were waiting,
    and none of that user's actions is left unprocessed, whatever their
    type, their payload and the outcome of each. *)
Theorem process_offline_actions_drains_queue :
  forall int4in jsonb_out env p_user_id db r db',
    process_offline_actions int4in jsonb_out env p_user_id db = Done (r, db') ->
    json_get "success" r = Some (JBool true)
    /\ json_get "processed_count" r
       = Some (JNum (Z.of_nat (List.length (queued_actions p_user_id db))))
    /\ forall a, In a (t_offline_actions db') ->
                 offline_actions.user_id a = p_user_id ->
                 offline_actions.processed a = true.
Proof.
  intros int4in jsonb_out env p db r db' H.
  destruct (process_offline_actions_Done _ _ _ _ _ _ _ H) as [-> [_ Hq]].
  split; [reflexivity |]. split; [reflexivity |].
  intros a Ha Hu.
  destruct (offline_actions.processed a) eqn:Ep; [reflexivity |].
  assert (Hin : In a (queued_actions p db')).
  { apply order_by_In. apply filter_In. split; [exact Ha |].
    rewrite Hu, String.eqb_refl, Ep. reflexivity. }
  rewrite Hq in Hin. destruct Hin.
Qed.

(** X13 [process_offline_actions_second_run]: once a run has returned,
    a further run for the same user, by any caller at any time, processes
    nothing: it reports [processed_count] 0 and leaves the database as it
    is. *)
Theorem process_offline_actions_second_run :
  forall int4in jsonb_out env env' p_user_id db r db',
    process_offline_actions int4in jsonb_out env p_user_id db = Done (r, db') ->
    process_offline_actions int4in jsonb_out env' p_user_id db'
    = Done (jsonb_build_object [("success", JBool true);
                                ("processed_count", JNum 0)]%string, db').
Proof.
  intros int4in jsonb_out env env' p db r db' H.
  destruct (process_offline_actions_Done _ _ _ _ _ _ _ H) as [_ [_ Hq]].
  unfold process_offline_actions. rewrite Hq. reflexivity.
Qed.

(** X14 [process_offline_actions_without_user_row]: the queued awards and
    redemptions are carried out for the caller ([auth.uid()]), not for
    [p_user_id].  When the caller has no row in [users] (or nobody is signed
    in), a run that returns has changed nothing but the queue, and has marked
    every waiting action processed all the same: what was queued is dropped
    without being credited. *)
Theorem process_offline_actions_without_user_row :
  forall int4in jsonb_out env p_user_id db r db',
    select_user (auth_uid env) db = None ->
    process_offline_actions int4in jsonb_out env p_user_id db = Done (r, db') ->
    t_users db' = t_users db
    /\ t_xp_ledger db' = t_xp_ledger db
    /\ t_activities db' = t_activities db
    /\ t_boosters db' = t_boosters db
    /\ queued_actions p_user_id db' = [].
Proof.
  intros int4in jsonb_out env p db r db' Hnone H.
  destruct (process_offline_actions_Done _ _ _ _ _ _ _ H) as [_ [[_ [_ Hn]] Hq]].
  rewrite (Hn Hnone) in *. simpl. auto.
Qed.

(** X15 [process_offline_actions_touches_caller_only]: a run changes no row
    of [users] but the caller's; in particular the owner of the queue, when
    somebody else runs it, keeps their row as it was. *)
Theorem process_offline_actions_touches_caller_only :
  forall int4in jsonb_out env p_user_id db r db' j,
    process_offline_actions int4in jsonb_out env p_user_id db = Done (r, db') ->
    auth_uid env <> Some j ->
    select_user (Some j) db' = select_user (Some j) db.
Proof.
  intros int4in jsonb_out env p db r db' j H Hj.
  destruct (process_offline_actions_Done _ _ _ _ _ _ _ H) as [_ [[T _] _]].
  exact (touches_only_other _ _ _ _ T Hj).
Qed.

(** ** More on the weekly league update *)

Lemma standing_only_refl : forall u, standing_only u u.
Proof.
  intros u. exists (users.league u), (users.league_position u),
    (users.weekly_xp u), (users.has_used_morning_bonus u), (users.updated_at u).
  now destruct u.
Qed.

Lemma standing_only_trans : forall a b c,
    standing_only a b -> standing_only b c -> standing_only a c.
Proof.
  intros a b c (l1 & p1 & w1 & m1 & t1 & ->) (l2 & p2 & w2 & m2 & t2 & ->).
  exists l2, p2, w2, m2, t2. reflexivity.
Qed.

Lemma standing_only_settle : forall v_now v_league v_position u,
    standing_only u (users.update_updated_at_column v_now
                       (users.set_league v_league v_position u)).
Proof.
  intros v_now lg pos u. exists lg, pos, 0, false, v_now. reflexivity.
Qed.

Lemma row_after_standing : forall v_now cur recs c k x,
    standing_only x (row_after v_now cur c k recs x).
Proof.
  intros v_now cur recs. induction recs as [| r recs IH]; intros c k x; simpl.
  - apply standing_only_refl.
  - eapply standing_only_trans; [| apply IH].
    destruct (String.eqb (users.id x) (users.id r));
      [apply standing_only_settle | apply standing_only_refl].
Qed.

Lemma league_pass_rows : forall v_now st cur,
    l_users (league_pass v_now st cur)
    = map (row_after v_now cur 0 (l_rank st)
             (league_members cur (l_users st))) (l_users st).
Proof.
  intros v_now st cur. unfold league_pass. now rewrite fold_league_step_users.
Qed.

Lemma league_passes_standing : forall v_now curs st,
    exists G, l_users (fold_left (league_pass v_now) curs st) = map G (l_users st)
              /\ forall x, standing_only x (G x).
Proof.
  intros v_now curs. induction curs as [| cur curs IH]; intros st; simpl.
  - exists (fun x => x). split; [now rewrite map_id | apply standing_only_refl].
  - destruct (IH (league_pass v_now st cur)) as [G [HG Hs]].
    rewrite league_pass_rows, map_map in HG.
    eexists. split; [exact HG |].
    intros x. cbn beta.
    eapply standing_only_trans; [apply row_after_standing | apply Hs].
Qed.

(** X17 [weekly_update_rewrites_standing_only]: the weekly update keeps
    every user, in place, and rewrites nothing of a user but the league
    standing (league, position, weekly XP, morning-bonus flag, [updated_at]):
    XP, lifetime XP, level, gems, streak and grace passes are what they
    were.  It appends one snapshot and leaves the other tables alone. *)
Theorem weekly_update_rewrites_standing_only :
  forall env db,
    (exists G, t_users (snd (run_weekly_league_update env db)) = map G (t_users db)
               /\ forall u, standing_only u (G u))
    /\ t_xp_ledger (snd (run_weekly_league_update env db)) = t_xp_ledger db
    /\ t_activities (snd (run_weekly_league_update env db)) = t_activities db
    /\ t_boosters (snd (run_weekly_league_update env db)) = t_boosters db
    /\ t_offline_actions (snd (run_weekly_league_update env db))
       = t_offline_actions db
    /\ exists snapshot,
         t_league_snapshots (snd (run_weekly_league_update env db))
         = t_league_snapshots db ++ [snapshot].
Proof.
  intros env db. split.
  - rewrite run_weekly_league_update_users.
    exact (league_passes_standing (now env) leagues_descending
             (mkLoop (t_users db) 0 1 [])).
  - repeat (split; [reflexivity |]). eexists. reflexivity.
Qed.

Lemma untouched_passes : forall v_now curs st u,
    NoDup (map users.id (l_users st)) ->
    In u (l_users st) ->
    (forall c, In c curs -> users.league u <> c) ->
    In u (l_users (fold_left (league_pass v_now) curs st)).
Proof.
  intros v_now curs. induction curs as [| cur curs IH]; intros st u Hpk Hu Hc;
    simpl; [exact Hu |].
  apply IH.
  - now rewrite league_pass_ids.
  - rewrite league_pass_users by exact Hpk.
    rewrite <- (pass_row_other v_now cur (l_users st) (l_rank st) u)
      by auto with datatypes.
    now apply in_map.
  - auto with datatypes.
Qed.

Lemma unscored_passes : forall v_now curs st y,
    NoDup (map users.id (l_users st)) ->
    In y (l_users st) -> users.weekly_xp y = 0 ->
    exists y',
      In y' (l_users (fold_left (league_pass v_now) curs st))
      /\ users.id y' = users.id y
      /\ users.weekly_xp y' = 0
      /\ users.league y' <= users.league y.
Proof.
  intros v_now curs. induction curs as [| cur curs IH]; intros st y Hpk Hy Hw; simpl.
  - exists y. repeat split; auto; lia.
  - destruct (IH (league_pass v_now st cur)
                 (pass_row v_now cur (l_users st) (l_rank st) y))
      as [y' [Hy' [Hid [Hw' Hl]]]].
    + now rewrite league_pass_ids.
    + rewrite league_pass_users by exact Hpk. now apply in_map.
    + destruct (pass_row_cases v_now cur (l_users st) (l_rank st) y)
        as [-> | [_ [p ->]]]; [exact Hw | reflexivity].
    + exists y'. rewrite pass_row_id in Hid.
      repeat split; auto.
      destruct (pass_row_cases v_now cur (l_users st) (l_rank st) y)
        as [E | [Hcur [p E]]]; rewrite E in Hl; [exact Hl |].
      cbn in Hl. rewrite Hw in Hl.
      pose proof (decide_league_low cur p 0). lia.
Qed.

Lemma in_leagues_descending : forall c,
    In c leagues_descending <-> 1 <= c <= 4.
Proof. intros c. unfold leagues_descending. simpl. lia. Qed.

(** Where the row of a user comes from, after the update. *)
Lemma weekly_update_origin : forall v_now tbl0 u',
    NoDup (map users.id tbl0) ->
    In u' (l_users (fold_left (league_pass v_now) leagues_descending
                              (mkLoop tbl0 0 1 []))) ->
    exists u,
      In u tbl0 /\ users.id u' = users.id u
      /\ ((1 <= users.league u <= 4
           /\ 1 <= users.league u' <= 4 /\ users.weekly_xp u' = 0)
          \/ (~ 1 <= users.league u <= 4 /\ u' = u)).
Proof.
  intros v_now tbl0 u' Hpk Hu'.
  set (st := fold_left (league_pass v_now) leagues_descending (mkLoop tbl0 0 1 []))
    in *.
  assert (Hids : map users.id (l_users st) = map users.id tbl0)
    by apply league_passes_ids.
  assert (Hpk' : NoDup (map users.id (l_users st))) by now rewrite Hids.
  assert (Hin : In (users.id u') (map users.id tbl0))
    by (rewrite <- Hids; now apply in_map).
  apply in_map_iff in Hin. destruct Hin as [u [Hid Hu]].
  exists u. split; [exact Hu |]. split; [now symmetry |].
  destruct (Z_le_dec 1 (users.league u)) as [H1 |];
    [destruct (Z_le_dec (users.league u) 4) as [H4 |] |].
  - left.
    destruct (weekly_update_member v_now tbl0 u Hpk Hu (conj H1 H4))
      as (y & p & Hy & Hidy & _ & Hprom & Hbounds & Hw & _).
    assert (y = u')
      by (apply (pk_same_row (l_users st)); [exact Hpk' | exact Hy | exact Hu' |];
          congruence).
    subst y.
    split; [lia |]. split; [| exact Hw].
    destruct (Z.eq_dec (users.league u') (users.league u + 1)) as [E | E];
      [apply Hprom in E |]; lia.
  - right. split; [lia |].
    apply (pk_same_row (l_users st)); [exact Hpk' | exact Hu' | | now symmetry].
    apply untouched_passes; [exact Hpk | exact Hu |].
    intros c Hc. apply in_leagues_descending in Hc. lia.
  - right. split; [lia |].
    apply (pk_same_row (l_users st)); [exact Hpk' | exact Hu' | | now symmetry].
    apply untouched_passes; [exact Hpk | exact Hu |].
    intros c Hc. apply in_leagues_descending in Hc. lia.
Qed.

(** X18 [weekly_update_leagues_stay_valid]: the update never moves a user
    out of the four leagues or into them: a user in league 1 to 4 is
    afterwards in league 1 to 4, with [weekly_xp] 0, and a user whose league
    number is none of these is not touched at all. *)
Theorem weekly_update_leagues_stay_valid :
  forall env db u',
    pk_users db ->
    In u' (t_users (snd (run_weekly_league_update env db))) ->
    exists u,
      select_user (Some (users.id u')) db = Some u
      /\ ((1 <= users.league u <= 4
           /\ 1 <= users.league u' <= 4 /\ users.weekly_xp u' = 0)
          \/ (~ 1 <= users.league u <= 4 /\ u' = u)).
Proof.
  intros env db u' Hpk Hu'. rewrite run_weekly_league_update_users in Hu'.
  destruct (weekly_update_origin _ _ _ Hpk Hu') as [u [Hu [Hid Hcases]]].
  exists u. split; [| exact Hcases].
  unfold select_user. rewrite Hid. apply find_pk; [exact Hpk | exact Hu].
Qed.

(** X19 [weekly_update_second_run_promotes_nobody]: running the update a
    second time, before anybody has earned XP again, promotes nobody: every
    user is afterwards in the league the first run left them in, or in a
    lower one. *)
Theorem weekly_update_second_run_promotes_nobody :
  forall env1 env2 db u1,
    pk_users db ->
    In u1 (t_users (snd (run_weekly_league_update env1 db))) ->
    exists u2,
      select_user (Some (users.id u1))
        (snd (run_weekly_league_update env2
                (snd (run_weekly_league_update env1 db)))) = Some u2
      /\ users.league u2 <= users.league u1.
Proof.
  intros env1 env2 db u1 Hpk Hu1.
  set (db1 := snd (run_weekly_league_update env1 db)) in *.
  assert (Hpk1 : NoDup (map users.id (t_users db1))).
  { subst db1. rewrite run_weekly_league_update_users, league_passes_ids.
    exact Hpk. }
  pose proof Hu1 as Horigin. subst db1.
  rewrite run_weekly_league_update_users in Horigin.
  destruct (weekly_update_origin _ _ _ Hpk Horigin) as [u [_ [_ Hcases]]].
  set (db1 := snd (run_weekly_league_update env1 db)) in *.
  set (st0 := mkLoop (t_users db1) 0 1 []).
  assert (Hfinal : exists u2,
             In u2 (l_users (fold_left (league_pass (now env2))
                                       leagues_descending st0))
             /\ users.id u2 = users.id u1
             /\ users.league u2 <= users.league u1).
  { destruct Hcases as [[_ [_ Hw]] | [Hout ->]].
    - destruct (unscored_passes (now env2) leagues_descending st0 u1 Hpk1 Hu1 Hw)
        as [u2 [Hu2 [Hid [_ Hl]]]].
      exists u2. split; [exact Hu2 | split; [exact Hid | exact Hl]].
    - exists u. split; [| split; [reflexivity | lia]].
      apply untouched_passes; [exact Hpk1 | exact Hu1 |].
      intros c Hc. apply in_leagues_descending in Hc. lia. }
  destruct Hfinal as [u2 [Hu2 [Hid Hl]]].
  exists u2. split; [| exact Hl].
  unfold select_user. rewrite run_weekly_league_update_users. rewrite <- Hid.
  apply find_pk; [| exact Hu2].
  rewrite league_passes_ids. exact Hpk1.
Qed.

(** ** The rankings of the snapshot *)

Lemma sorted_app : forall (A : Type) (R : A -> A -> Prop) l l',
    StronglySorted R l -> StronglySorted R l' ->
    (forall x y, In x l -> In y l' -> R x y) ->
    StronglySorted R (l ++ l').
Proof.
  intros A R l l' Hl Hl' Hcross. induction Hl as [| x l Hl IH Hx]; simpl;
    [exact Hl' |].
  constructor.
  - apply IH. intros a b Ha Hb. apply Hcross; [now right | exact Hb].
  - apply Forall_app. split; [exact Hx |].
    apply Forall_forall. intros y Hy. apply Hcross; [now left | exact Hy].
Qed.

Lemma same_league_sorted : forall cur l,
    Forall (fun e => ranking.old_league e = cur) l ->
    StronglySorted by_old_league l.
Proof.
  intros cur l H. induction H as [| x l Hx Hl IH]; constructor; [exact IH |].
  eapply Forall_impl; [| exact Hl].
  intros y Hy. unfold by_old_league. cbn beta in Hy. lia.
Qed.

(** What the iterations over the fetched rows [recs] add to the rankings. *)
Lemma fold_league_step_rankings : forall v_now cur recs st,
    exists news,
      l_rankings (fold_left (league_step v_now cur) recs st)
      = l_rankings st ++ news
      /\ l_rank (fold_left (league_step v_now cur) recs st)
         = l_rank st + Z.of_nat (List.length news)
      /\ Forall (fun e => ranking.old_league e = cur) news
      /\ (forall k e, nth_error news k = Some e ->
                      ranking.rank e = l_rank st + Z.of_nat k)
      /\ (forall r, In r recs ->
            exists e, In e news
                      /\ ranking.user_id e = users.id r
                      /\ ranking.weekly_xp e = users.weekly_xp r
                      /\ ranking.old_league e = cur).
Proof.
  intros v_now cur recs. induction recs as [| r recs IH]; intros st.
  - exists []. simpl. rewrite app_nil_r.
    split; [reflexivity |]. split; [lia |]. split; [constructor |].
    split; [intros [| k] e H; discriminate | intros r []].
  - destruct (IH (league_step v_now cur st r))
      as [news [Hr [Hk [Hold [Hnth Hall]]]]].
    cbn [fold_left]. cbn [league_step l_rankings l_rank] in Hr, Hk, Hnth.
    eexists (_ :: news).
    split; [rewrite Hr, <- app_assoc; reflexivity |].
    split; [rewrite Hk; cbn [List.length]; lia |].
    split; [constructor; [reflexivity | exact Hold] |].
    split.
    + intros [| k] e H; simpl in H.
      * injection H as <-. simpl. lia.
      * rewrite (Hnth k e H). lia.
    + intros x [<- | Hx].
      * eexists. split; [now left |]. repeat split.
      * destruct (Hall x Hx) as [e [He Hprops]].
        exists e. split; [now right | exact Hprops].
Qed.

Lemma league_pass_rankings : forall v_now st cur,
    exists news,
      l_rankings (league_pass v_now st cur) = l_rankings st ++ news
      /\ l_rank (league_pass v_now st cur)
         = l_rank st + Z.of_nat (List.length news)
      /\ Forall (fun e => ranking.old_league e = cur) news
      /\ (forall k e, nth_error news k = Some e ->
                      ranking.rank e = l_rank st + Z.of_nat k)
      /\ (forall r, In r (league_members cur (l_users st)) ->
            exists e, In e news
                      /\ ranking.user_id e = users.id r
                      /\ ranking.weekly_xp e = users.weekly_xp r
                      /\ ranking.old_league e = cur).
Proof.
  intros v_now st cur. unfold league_pass.
  exact (fold_league_step_rankings v_now cur
           (league_members cur (l_users st))
           (mkLoop (l_users st) 0 (l_rank st) (l_rankings st))).
Qed.

Lemma league_passes_extend : forall v_now curs st,
    exists more,
      l_rankings (fold_left (league_pass v_now) curs st) = l_rankings st ++ more.
Proof.
  intros v_now curs. induction curs as [| cur curs IH]; intros st; simpl.
  - exists []. now rewrite app_nil_r.
  - destruct (IH (league_pass v_now st cur)) as [more Hmore].
    destruct (league_pass_rankings v_now st cur) as [news [Hnews _]].
    exists (news ++ more). now rewrite Hmore, Hnews, app_assoc.
Qed.

(** The rankings while the passes run: ranks count from 1 without a gap,
    and the entries are in the order of the leagues, none below [L]. *)
Lemma ranked_pass : forall v_now st cur L,
    l_rank st = 1 + Z.of_nat (List.length (l_rankings st)) ->
    (forall k e, nth_error (l_rankings st) k = Some e ->
                 ranking.rank e = 1 + Z.of_nat k) ->
    StronglySorted by_old_league (l_rankings st) ->
    Forall (fun e => L <= ranking.old_league e) (l_rankings st) ->
    cur <= L ->
    l_rank (league_pass v_now st cur)
    = 1 + Z.of_nat (List.length (l_rankings (league_pass v_now st cur)))
    /\ (forall k e, nth_error (l_rankings (league_pass v_now st cur)) k = Some e ->
                    ranking.rank e = 1 + Z.of_nat k)
    /\ StronglySorted by_old_league (l_rankings (league_pass v_now st cur))
    /\ Forall (fun e => cur <= ranking.old_league e)
              (l_rankings (league_pass v_now st cur)).
Proof.
  intros v_now st cur L Hrank Hnth Hsorted Hall Hcur.
  destruct (league_pass_rankings v_now st cur)
    as [news [-> [-> [Hold [Hnew _]]]]].
  rewrite length_app, Hrank.
  split; [lia |]. split; [| split].
  - intros k e He.
    destruct (Nat.lt_ge_cases k (List.length (l_rankings st))) as [Hk | Hk].
    + rewrite nth_error_app1 in He by exact Hk. now apply Hnth.
    + rewrite nth_error_app2 in He by exact Hk.
      rewrite (Hnew _ _ He). lia.
  - apply sorted_app; [exact Hsorted | exact (same_league_sorted cur news Hold) |].
    intros x y Hx Hy. unfold by_old_league.
    rewrite Forall_forall in Hall, Hold.
    specialize (Hall x Hx). specialize (Hold y Hy). cbn beta in *. lia.
  - apply Forall_app. split.
    + eapply Forall_impl; [| exact Hall]. intros e He. cbn beta in *. lia.
    + eapply Forall_impl; [| exact Hold]. intros e He. cbn beta in *. lia.
Qed.

Lemma league_loops_ranked : forall env db,
    (forall k e, nth_error (l_rankings (league_loops env db)) k = Some e ->
                 ranking.rank e = 1 + Z.of_nat k)
    /\ StronglySorted by_old_league (l_rankings (league_loops env db)).
Proof.
  intros env db. unfold league_loops, leagues_descending. cbn [fold_left].
  set (st0 := mkLoop (t_users db) 0 1 []).
  assert (A0 : l_rank st0 = 1 + Z.of_nat (List.length (l_rankings st0)))
    by reflexivity.
  assert (B0 : forall k e, nth_error (l_rankings st0) k = Some e ->
                           ranking.rank e = 1 + Z.of_nat k)
    by (intros [| k] e He; discriminate).
  assert (C0 : StronglySorted by_old_league (l_rankings st0)) by constructor.
  assert (D0 : Forall (fun e => 4 <= ranking.old_league e) (l_rankings st0))
    by constructor.
  destruct (ranked_pass (now env) st0 4 4 A0 B0 C0 D0 ltac:(lia))
    as (A4 & B4 & C4 & D4).
  destruct (ranked_pass (now env) _ 3 4 A4 B4 C4 D4 ltac:(lia))
    as (A3 & B3 & C3 & D3).
  destruct (ranked_pass (now env) _ 2 3 A3 B3 C3 D3 ltac:(lia))
    as (A2 & B2 & C2 & D2).
  destruct (ranked_pass (now env) _ 1 2 A2 B2 C2 D2 ltac:(lia))
    as (A1 & B1 & C1 & D1).
  split; assumption.
Qed.

(** X20 [weekly_update_rankings_in_order]: the rankings stored in the
    snapshot carry the ranks 1, 2, 3, ... without a gap, in the order of the
    leagues processed (Diamond entries first, Bronze entries last), and
    [users_processed] is their number. *)
Theorem weekly_update_rankings_in_order :
  forall env db,
    (forall k e, nth_error (l_rankings (league_loops env db)) k = Some e ->
                 ranking.rank e = 1 + Z.of_nat k)
    /\ StronglySorted by_old_league (l_rankings (league_loops env db))
    /\ json_get "users_processed" (fst (run_weekly_league_update env db))
       = Some (JNum (Z.of_nat (List.length (l_rankings (league_loops env db)))))
    /\ exists v_week_start v_week_end,
         t_league_snapshots (snd (run_weekly_league_update env db))
         = t_league_snapshots db
             ++ [league_snapshots.mk v_week_start v_week_end
                   (l_rankings (league_loops env db)) (now env)].
Proof.
  intros env db.
  destruct (league_loops_ranked env db) as [Hranks Hsorted].
  split; [exact Hranks |]. split; [exact Hsorted |].
  split; [reflexivity |]. eexists. eexists. reflexivity.
Qed.

(** X21 [weekly_update_snapshot_records_members]: every member of a league
    has an entry in the rankings that records them as they were before the
    update: their id, the league they were in and the weekly XP they had. *)
Theorem weekly_update_snapshot_records_members :
  forall env db u,
    pk_users db ->
    In u (t_users db) ->
    1 <= users.league u <= 4 ->
    exists e,
      In e (l_rankings (league_loops env db))
      /\ ranking.user_id e = users.id u
      /\ ranking.old_league e = users.league u
      /\ ranking.weekly_xp e = users.weekly_xp u.
Proof.
  intros env db u Hpk Hu HL.
  set (L := users.league u) in *.
  destruct (leagues_around L HL) as [above [below [Hsplit [Habove _]]]].
  unfold league_loops. rewrite Hsplit, fold_left_app. cbn [fold_left].
  set (stb := fold_left (league_pass (now env)) above
                        (mkLoop (t_users db) 0 1 [])).
  assert (Hproc : above_processed L (t_users db) (l_users stb)).
  { apply above_processed_passes; [exact Hpk | | exact Habove].
    exists (fun x => x). split; [now rewrite map_id |].
    intros x. split; [reflexivity | now left]. }
  assert (Hmem : In u (league_members L (l_users stb))).
  { apply league_members_In. split; [| reflexivity].
    exact (above_processed_keeps L (t_users db) (l_users stb) u Hproc Hu eq_refl). }
  destruct (league_pass_rankings (now env) stb L)
    as [news [Hnews [_ [_ [_ Hall]]]]].
  destruct (Hall u Hmem) as [e [He [Hid [Hw Hold]]]].
  destruct (league_passes_extend (now env) below (league_pass (now env) stb L))
    as [more Hmore].
  exists e. split; [| split; [exact Hid | split; [exact Hold | exact Hw]]].
  rewrite Hmore, Hnews. apply in_or_app. left. apply in_or_app. now right.
Qed.



(** ** More on get_leaderboard *)

Lemma row_number_respects :
  forall (before : users.row -> users.row -> bool)
         (P : leaderboard.row -> leaderboard.row -> Prop),
    (forall r, ~ P r r) ->
    (forall x y n m, before x y = true -> ~ P (board_row n y) (board_row m x)) ->
    forall l n,
      ordered before l ->
      forall ra rb,
        In ra (row_number n l) -> In rb (row_number n l) ->
        P ra rb -> leaderboard.rank ra < leaderboard.rank rb.
Proof.
  intros before P Hirr Hbefore.
  induction l as [| x l IH]; intros n Hl ra rb Ha Hb HP; [contradiction |].
  inversion Hl as [| ? ? Hl' Hx]; subst.
  rewrite Forall_forall in Hx.
  simpl in Ha, Hb.
  destruct Ha as [<- | Ha]; destruct Hb as [<- | Hb].
  - now elim (Hirr _ HP).
  - destruct (row_number_In _ _ _ Hb) as [u [Hu [Hr Hn]]]. cbn. lia.
  - destruct (row_number_In _ _ _ Ha) as [u [Hu [Hr Hn]]].
    rewrite Hr in HP.
    now elim (Hbefore x u _ _ (Hx u Hu) HP).
  - exact (IH (n + 1) Hl' ra rb Ha Hb HP).
Qed.

(** X23 [get_leaderboard_league_filter]: with a league given, the
    leaderboard holds the users of that league and nobody else: every row is
    of that league, every user of the league has a row, there are as many
    rows as such users, and the ranks run 1, 2, 3, ... in the order
    returned. *)
Theorem get_leaderboard_league_filter :
  forall v_league p_timeframe db,
    (forall r, In r (get_leaderboard (Some v_league) p_timeframe db) ->
               leaderboard.league r = v_league)
    /\ (forall u, In u (t_users db) -> users.league u = v_league ->
          exists k, In (board_row k u)
                       (get_leaderboard (Some v_league) p_timeframe db))
    /\ List.length (get_leaderboard (Some v_league) p_timeframe db)
       = List.length (filter (fun u => users.league u =? v_league) (t_users db))
    /\ (forall k r,
           nth_error (get_leaderboard (Some v_league) p_timeframe db) k = Some r ->
           leaderboard.rank r = 1 + Z.of_nat k).
Proof.
  intros lg tf db. unfold get_leaderboard.
  set (selected := filter (fun u => users.league u =? lg) (t_users db)).
  split; [| split; [| split]].
  - intros r Hr.
    assert (Hu : exists u, In u selected /\ r = board_row (leaderboard.rank r) u).
    { destruct (String.eqb tf "weekly");
        destruct (row_number_In _ _ _ Hr) as [u [Hu [Hrow _]]];
        exists u; (split; [| exact Hrow]);
        exact (proj1 (order_by_In _ _ u selected) Hu). }
    destruct Hu as [u [Hu ->]].
    apply filter_In in Hu. destruct Hu as [_ Hu]. apply Z.eqb_eq in Hu.
    exact Hu.
  - intros u Hu Hl.
    assert (Hsel : In u selected)
      by (apply filter_In; split; [exact Hu | now apply Z.eqb_eq]).
    destruct (String.eqb tf "weekly"); apply row_number_complete;
      exact (proj2 (order_by_In _ _ u selected) Hsel).
  - destruct (String.eqb tf "weekly");
      now rewrite row_number_length, order_by_length.
  - intros k r H.
    destruct (String.eqb tf "weekly"); apply (row_number_nth _ _ _ _ H).
Qed.

(** X24 [get_leaderboard_weekly_order]: in the 'weekly' leaderboard, with
    or without a league filter, rows of the same league are ranked by weekly
    XP, the higher first, and rows with the same weekly XP by XP. *)
Theorem get_leaderboard_weekly_order :
  forall p_league db ra rb,
    In ra (get_leaderboard p_league "weekly" db) ->
    In rb (get_leaderboard p_league "weekly" db) ->
    leaderboard.league ra = leaderboard.league rb ->
    leaderboard.weekly_xp rb < leaderboard.weekly_xp ra
    \/ (leaderboard.weekly_xp rb = leaderboard.weekly_xp ra
        /\ leaderboard.xp rb < leaderboard.xp ra) ->
    leaderboard.rank ra < leaderboard.rank rb.
Proof.
  intros p_league db ra rb Ha Hb Hl Hlt.
  unfold get_leaderboard in Ha, Hb. simpl in Ha, Hb.
  refine (row_number_respects league_weekly_desc
            (fun a b => leaderboard.league a = leaderboard.league b
                        /\ (leaderboard.weekly_xp b < leaderboard.weekly_xp a
                            \/ (leaderboard.weekly_xp b = leaderboard.weekly_xp a
                                /\ leaderboard.xp b < leaderboard.xp a)))
            _ _ _ 1 _ ra rb Ha Hb (conj Hl Hlt)).
  - intros r [_ H]. lia.
  - intros x y n m Hxy [H1 H2]. cbn in H1, H2. revert Hxy. order_facts. lia.
  - apply order_by_ordered;
      [apply league_weekly_desc_total | apply league_weekly_desc_trans].
Qed.

(** ** More on the client-side services *)

Lemma updateStreak_written : forall dev c stats,
    UserService.currentUser c = Some stats ->
    UserService.write_ok dev = true ->
    let today := UserService.iso_day (UserService.date_now dev) in
    let lastActive := Stats.last_active_date stats in
    let newStreak :=
      if lastActive =? today - 1 then Stats.streak stats + 1
      else if lastActive =? today then Stats.streak stats else 1 in
    UserService.updateStreak dev c
    = (UserService.mkReport
         (negb (lastActive =? today - 1) && negb (lastActive =? today)
          && (3 <=? Stats.streak stats))
         (Stats.streak stats),
       UserService.mkClient
         (Some (Stats.merge stats
                  (Stats.activity newStreak today
                     (Stats.total_days_studied stats + 1))))
         (UserService.friend_activities c
            ++ (if Z.rem newStreak 7 =? 0
                then [Stats.mkActivity "milestone_reached"
                        ("Reached a " ++ int_text newStreak
                           ++ "-day streak! " ++ fire)%string]
                else []))
         (UserService.offline_queue c)).
Proof.
  intros dev c stats Hc Hw today lastActive newStreak.
  unfold UserService.updateStreak. rewrite Hc, iso_day_yesterday.
  fold today. fold lastActive.
  unfold UserService.updateUserStats, UserService.createFriendActivity.
  rewrite Hc, Hw. subst newStreak.
  destruct (lastActive =? today - 1); [| destruct (lastActive =? today)];
    cbn [negb andb];
    match goal with
    | |- context [Z.rem ?n 7 =? 0] => destruct (Z.rem n 7 =? 0)
    end;
    cbn [UserService.currentUser UserService.friend_activities
         UserService.offline_queue];
    rewrite ?app_nil_r; reflexivity.
Qed.

(** X25 [updateStreak_same_day_twice]: a second [updateStreak] on the same
    UTC day leaves the streak as the first call set it and reports no broken
    streak, but counts another day studied: [total_days_studied] has grown
    by two. *)
Theorem updateStreak_same_day_twice :
  forall dev1 dev2 c stats,
    UserService.currentUser c = Some stats ->
    UserService.write_ok dev1 = true ->
    UserService.write_ok dev2 = true ->
    UserService.iso_day (UserService.date_now dev2)
    = UserService.iso_day (UserService.date_now dev1) ->
    exists s1 s2,
      UserService.currentUser (snd (UserService.updateStreak dev1 c)) = Some s1
      /\ UserService.currentUser
           (snd (UserService.updateStreak dev2
                   (snd (UserService.updateStreak dev1 c)))) = Some s2
      /\ Stats.streak s2 = Stats.streak s1
      /\ Stats.total_days_studied s2 = Stats.total_days_studied stats + 2
      /\ UserService.streakBroken
           (fst (UserService.updateStreak dev2
                   (snd (UserService.updateStreak dev1 c)))) = false.
Proof.
  intros dev1 dev2 c stats Hc Hw1 Hw2 Hday.
  rewrite (updateStreak_written dev1 c stats Hc Hw1). cbn [snd].
  eexists. eexists. split; [reflexivity |].
  erewrite updateStreak_written; [| reflexivity | exact Hw2].
  cbn [snd fst UserService.currentUser UserService.streakBroken].
  split; [reflexivity |].
  rewrite Hday.
  set (today := UserService.iso_day (UserService.date_now dev1)).
  cbn [Stats.merge Stats.activity Stats.over Stats.last_active_date
       Stats.p_last_active_date Stats.streak Stats.p_streak
       Stats.total_days_studied Stats.p_total_days_studied].
  replace (today =? today - 1) with false by (symmetry; apply Z.eqb_neq; lia).
  rewrite Z.eqb_refl. cbn [negb andb].
  split; [reflexivity |]. split; [lia | reflexivity].
Qed.


(** X27 [grace_pass_bridges_missed_day]: after a missed day [updateStreak]
    resets the streak to 1 and reports the streak that was lost;
    [restoreStreakWithGracePass] with that number puts the streak back
    while the last active day stays today, so that the streak grows again
    with the next day's activity. *)
Theorem grace_pass_bridges_missed_day :
  forall dev next c stats,
    UserService.currentUser c = Some stats ->
    UserService.write_ok dev = true ->
    UserService.write_ok next = true ->
    Stats.last_active_date stats
    < UserService.iso_day (UserService.date_now dev) - 1 ->
    UserService.iso_day (UserService.date_now next)
    = UserService.iso_day (UserService.date_now dev) + 1 ->
    exists s1 s2 s3,
      UserService.currentUser (snd (UserService.updateStreak dev c)) = Some s1
      /\ Stats.streak s1 = 1
      /\ UserService.currentUser
           (UserService.restoreStreakWithGracePass dev
              (UserService.previousStreak (fst (UserService.updateStreak dev c)))
              (snd (UserService.updateStreak dev c))) = Some s2
      /\ Stats.streak s2 = Stats.streak stats
      /\ Stats.last_active_date s2 = UserService.iso_day (UserService.date_now dev)
      /\ UserService.currentUser
           (snd (UserService.updateStreak next
                   (UserService.restoreStreakWithGracePass dev
                      (UserService.previousStreak
                         (fst (UserService.updateStreak dev c)))
                      (snd (UserService.updateStreak dev c))))) = Some s3
      /\ Stats.streak s3 = Stats.streak stats + 1.
Proof.
  intros dev next c stats Hc Hw Hw' Hmissed Hnext.
  rewrite (updateStreak_written dev c stats Hc Hw). cbn [snd fst].
  set (today := UserService.iso_day (UserService.date_now dev)) in *.
  replace (Stats.last_active_date stats =? today - 1) with false
    by (symmetry; apply Z.eqb_neq; lia).
  replace (Stats.last_active_date stats =? today) with false
    by (symmetry; apply Z.eqb_neq; lia).
  unfold UserService.restoreStreakWithGracePass, UserService.updateUserStats.
  cbn [UserService.currentUser UserService.previousStreak]. rewrite Hw.
  eexists. eexists. eexists.
  split; [reflexivity |]. split; [reflexivity |].
  split; [reflexivity |]. split; [reflexivity |]. split; [reflexivity |].
  erewrite updateStreak_written; [| reflexivity | exact Hw'].
  cbn [snd UserService.currentUser]. split; [reflexivity |].
  rewrite Hnext.
  cbn [Stats.merge Stats.activity Stats.only_streak Stats.over
       Stats.last_active_date Stats.p_last_active_date Stats.streak
       Stats.p_streak].
  replace (today =? today + 1 - 1) with true by (symmetry; apply Z.eqb_eq; lia).
  reflexivity.
Qed.

Lemma getBoosterShop_find : forall boosterId item,
    find (fun b => String.eqb (BoosterItem.id b) boosterId)
         LocalUserService.getBoosterShop = Some item ->
    (boosterId = "2x_xp"%string /\ item = BoosterItem.mk "2x_xp" "2x" 50 2)
    \/ (boosterId = "3x_xp"%string /\ item = BoosterItem.mk "3x_xp" "3x" 100 1).
Proof.
  intros boosterId item H. unfold LocalUserService.getBoosterShop in H.
  cbn [find BoosterItem.id] in H.
  destruct (String.eqb "2x_xp" boosterId) eqn:E2.
  - apply String.eqb_eq in E2. injection H as <-. auto.
  - destruct (String.eqb "3x_xp" boosterId) eqn:E3; [| discriminate].
    apply String.eqb_eq in E3. injection H as <-. auto.
Qed.

(** X28 [purchaseBooster_spends_gems]: a purchase goes through exactly
    when the id is '2x_xp' and the user holds 50 gems or it is '3x_xp' and
    the user holds 100; otherwise storage is left as it is.  A purchase takes
    the price off the gems, which therefore never become negative, and
    replaces the active booster by the new one, running 2 hours (2x) or
    1 hour (3x); until then [addXP] multiplies by 2 or 3. *)
Theorem purchaseBooster_spends_gems :
  forall dev boosterId s user,
    LocalUserService.stored s = Some user ->
    0 <= Stats.gems user ->
    (fst (LocalUserService.purchaseBooster dev boosterId s) = true
     <-> (boosterId = "2x_xp"%string /\ 50 <= Stats.gems user)
         \/ (boosterId = "3x_xp"%string /\ 100 <= Stats.gems user))
    /\ (fst (LocalUserService.purchaseBooster dev boosterId s) = false ->
        snd (LocalUserService.purchaseBooster dev boosterId s) = s)
    /\ (fst (LocalUserService.purchaseBooster dev boosterId s) = true ->
        exists price hrs k user',
          ((boosterId = "2x_xp"%string /\ price = 50 /\ hrs = 2 /\ k = 2)
           \/ (boosterId = "3x_xp"%string /\ price = 100 /\ hrs = 1 /\ k = 3))
          /\ LocalUserService.stored
               (snd (LocalUserService.purchaseBooster dev boosterId s))
             = Some user'
          /\ Stats.gems user' = Stats.gems user - price
          /\ 0 <= Stats.gems user'
          /\ Stats.xp user' = Stats.xp user
          /\ option_map Stats.expiresAt (Stats.active_booster user')
             = Some (LocalUserService.date_now dev + hrs * 3600000)
          /\ forall later amount,
               Stats.has_streak_bonus user = false ->
               Stats.has_used_morning_bonus user = true ->
               (LocalUserService.date_now later
                < LocalUserService.date_now dev + hrs * 3600000 ->
                LocalUserService.finalAmount later user' amount = amount * k)
               /\ (LocalUserService.date_now dev + hrs * 3600000
                   <= LocalUserService.date_now later ->
                   LocalUserService.finalAmount later user' amount = amount)).
Proof.
  intros dev boosterId s user Hs Hgems.
  unfold LocalUserService.purchaseBooster. rewrite Hs.
  destruct (find (fun b => String.eqb (BoosterItem.id b) boosterId)
                 LocalUserService.getBoosterShop) as [item |] eqn:Hfind.
  - destruct (getBoosterShop_find _ _ Hfind) as [[-> ->] | [-> ->]];
      cbn [BoosterItem.gemCost BoosterItem.duration BoosterItem.type].
    + destruct (50 <=? Stats.gems user) eqn:E;
        [apply Z.leb_le in E | apply Z.leb_gt in E]; cbn [fst snd].
      * split; [split; [intros _; left; split; [reflexivity | lia] | reflexivity] |].
        split; [discriminate |]. intros _.
        exists 50, 2, 2. eexists.
        split; [left; repeat split |].
        split; [reflexivity |].
        cbn [Stats.set_booster Stats.gems Stats.xp Stats.active_booster
             option_map Stats.expiresAt].
        repeat (split; [first [reflexivity | lia | f_equal; lia] |]).
        intros later amount Hsb Hmb. unfold LocalUserService.finalAmount.
        cbn [Stats.set_booster Stats.has_used_morning_bonus
             Stats.has_streak_bonus Stats.active_booster Stats.expiresAt
             Stats.type].
        rewrite Hsb, Hmb, andb_false_r. cbn [String.eqb].
        split; intros Hlater.
        -- replace (LocalUserService.date_now later
                    <? LocalUserService.date_now dev + 2 * 60 * 60 * 1000)
             with true by (symmetry; apply Z.ltb_lt; lia).
           reflexivity.
        -- replace (LocalUserService.date_now later
                    <? LocalUserService.date_now dev + 2 * 60 * 60 * 1000)
             with false by (symmetry; apply Z.ltb_ge; lia).
           reflexivity.
      * split; [split; [discriminate |] |].
        { intros [[_ H] | [H _]]; [lia | discriminate]. }
        split; [reflexivity | discriminate].
    + destruct (100 <=? Stats.gems user) eqn:E;
        [apply Z.leb_le in E | apply Z.leb_gt in E]; cbn [fst snd].
      * split; [split; [intros _; right; split; [reflexivity | lia] | reflexivity] |].
        split; [discriminate |]. intros _.
        exists 100, 1, 3. eexists.
        split; [right; repeat split |].
        split; [reflexivity |].
        cbn [Stats.set_booster Stats.gems Stats.xp Stats.active_booster
             option_map Stats.expiresAt].
        repeat (split; [first [reflexivity | lia | f_equal; lia] |]).
        intros later amount Hsb Hmb. unfold LocalUserService.finalAmount.
        cbn [Stats.set_booster Stats.has_used_morning_bonus
             Stats.has_streak_bonus Stats.active_booster Stats.expiresAt
             Stats.type].
        rewrite Hsb, Hmb, andb_false_r. cbn [String.eqb].
        split; intros Hlater.
        -- replace (LocalUserService.date_now later
                    <? LocalUserService.date_now dev + 1 * 60 * 60 * 1000)
             with true by (symmetry; apply Z.ltb_lt; lia).
           reflexivity.
        -- replace (LocalUserService.date_now later
                    <? LocalUserService.date_now dev + 1 * 60 * 60 * 1000)
             with false by (symmetry; apply Z.ltb_ge; lia).
           reflexivity.
      * split; [split; [discriminate |] |].
        { intros [[H _] | [_ H]]; [discriminate | lia]. }
        split; [reflexivity | discriminate].
  - cbn [fst snd]. split; [split; [discriminate |] |].
    + unfold LocalUserService.getBoosterShop in Hfind.
      cbn [find BoosterItem.id] in Hfind.
      intros [[-> _] | [-> _]]; cbn in Hfind; discriminate.
    + split; [reflexivity | discriminate].
Qed.

(** ** The queue in the normal case *)

Lemma payload_amount_number : forall int4in jsonb_out payload n,
    json_get "amount" payload = Some (JNum n) ->
    in_int4 n ->
    payload_amount int4in jsonb_out payload = Done (Some n).
Proof.
  intros int4in jsonb_out payload n H Hn. unfold payload_amount.
  rewrite H, (int4_in _ Hn). reflexivity.
Qed.

(** X16 [process_offline_actions_credits_award]: a queue that holds one
    waiting award, with a number as amount and a string as source, is
    processed like the direct call: for a caller with a row and an action id
    not yet in the ledger, the run returns with [processed_count] 1, the
    database is the one [award_xp] leaves, and the action is marked
    processed. *)
Theorem process_offline_actions_credits_award :
  forall int4in jsonb_out env p_user_id db v_action u p_amount p_source,
    pk_users db ->
    queued_actions p_user_id db = [v_action] ->
    offline_actions.action_type v_action = "award_xp"%string ->
    json_get "amount" (offline_actions.payload v_action) = Some (JNum p_amount) ->
    json_get "source" (offline_actions.payload v_action) = Some (JStr p_source) ->
    select_ledger (offline_actions.action_id v_action) db = None ->
    select_user (auth_uid env) db = Some u ->
    award_in_range (now env) u db p_amount ->
    process_offline_actions int4in jsonb_out env p_user_id db
    = Done (jsonb_build_object [("success", JBool true);
                                ("processed_count", JNum 1)]%string,
            mark_processed v_action
              (awarded_db env u (bonus_amount (now env) u db p_amount) p_source
                 (offline_actions.action_id v_action)
                 (payload_meta (offline_actions.payload v_action)) db)).
Proof.
  intros int4in jsonb_out env p db v u n src Hpk Hq Htype Hamount Hsource
         Hfresh Hu Hrange.
  unfold process_offline_actions. rewrite Hq. cbn [fold_left].
  unfold process_action. cbn [and_then].
  unfold dispatch_action. rewrite Htype. cbn [String.eqb Ascii.eqb Bool.eqb].
  rewrite (payload_amount_number int4in jsonb_out _ n Hamount
             (proj1 Hrange)).
  cbn [and_then]. unfold json_get_text. rewrite Hsource.
  unfold award_xp_nullable.
  rewrite (award_xp_fresh_Ok env n src _ _ db u Hpk Hfresh Hu Hrange).
  reflexivity.
Qed.

(** ** The client against the server *)




Local Open Scope string_scope.

(** ** Scenarios of the further properties *)

(** A stranger's award under a fresh action id. *)
Lemma award_xp_fails_only_without_user_witness :
  award_xp (as_stranger sunday_noon) 50 "test_challenge" "fresh_1" (JObj [])
           db_test_user
  = Ok (user_not_found, db_test_user)
  /\ select_user (auth_uid (as_stranger sunday_noon)) db_test_user = None.
Proof.
  assert (Hcall : award_xp (as_stranger sunday_noon) 50 "test_challenge"
                           "fresh_1" (JObj []) db_test_user
                  = Ok (user_not_found, db_test_user)) by reflexivity.
  destruct (award_xp_fails_only_without_user _ _ _ _ _ _ _ _ Hcall)
    as (_ & _ & Hnone & _).
  - vm_compute. discriminate.
  - split; [exact Hcall | exact Hnone].
Defined.

Lemma award_xp_keeps_constraints_witness :
  map users.id (t_users db_test_user_awarded) = map users.id (t_users db_test_user)
  /\ ledger_unique db_test_user_awarded.
Proof.
  assert (Hcall : award_xp (as_test_user sunday_noon) 50 "test_challenge"
                           "test_idempotency_1" (JObj []) db_test_user
                  = Ok (xp_awarded_response 50 1 0, db_test_user_awarded))
    by reflexivity.
  assert (Hunique : ledger_unique db_test_user) by distinct_keys.
  destruct (award_xp_keeps_constraints _ _ _ _ _ _ _ _ Hunique Hcall)
    as (Hids & Huniq & _).
  split; [exact Hids | exact Huniq].
Defined.

(** The friend's row after the test user's award. *)
Lemma award_xp_other_users_untouched_witness :
  select_user (Some (users.id recipient)) db_friends_awarded = Some recipient.
Proof.
  assert (Hcall : award_xp (as_test_user sunday_noon) 50 "test_challenge"
                           "friends_1" (JObj []) db_friends
                  = Ok (xp_awarded_response 50 1 0, db_friends_awarded))
    by reflexivity.
  rewrite (award_xp_other_users_untouched _ _ _ _ _ _ _ _ (users.id recipient) Hcall).
  - reflexivity.
  - simpl. discriminate.
Defined.

Lemma award_xp_response_matches_state_witness :
  exists u',
    select_user (Some (users.id test_user)) db_test_user_awarded = Some u'
    /\ users.xp u' = 150
    /\ json_get "new_level" (xp_awarded_response 50 1 0)
       = Some (JNum (users.level u')).
Proof.
  destruct (award_xp_response_matches_state (as_test_user sunday_noon) 50
              "test_challenge" "test_idempotency_1" (JObj []) db_test_user
              test_user (xp_awarded_response 50 1 0) db_test_user_awarded)
    as (final & u' & Hfinal & Hsel & _ & Hxp & _ & _ & _ & Hlevel & _).
  - distinct_keys.
  - reflexivity.
  - reflexivity.
  - reflexivity.
  - exists u'. split; [exact Hsel |]. split; [| exact Hlevel].
    injection Hfinal as <-. exact Hxp.
Defined.

Lemma award_xp_gain_bounds_witness :
  exists gain u',
    select_user (Some (users.id test_user)) db_test_user_awarded = Some u'
    /\ 50 <= gain <= 450
    /\ users.xp u' = 100 + gain.
Proof.
  destruct (award_xp_gain_bounds (as_test_user sunday_noon) 50
              "test_challenge" "test_idempotency_1" (JObj []) db_test_user
              test_user (xp_awarded_response 50 1 0) db_test_user_awarded)
    as (gain & u' & Hsel & Hgain & Hxp & _).
  - lia.
  - distinct_keys.
  - reflexivity.
  - reflexivity.
  - reflexivity.
  - exists gain, u'. split; [exact Hsel |]. split; [exact Hgain | exact Hxp].
Defined.

(** 100 XP at 07:00 with the three bonuses give 600; 100 XP a minute later
    give 200, the booster alone being left. *)
Lemma award_xp_bonuses_are_one_shot_witness :
  award_xp (as_test_user (sunday_7am + 60000000)) 100 "Memory Verses"
           "flashcards_1" (JObj []) db_bonuses_awarded
  = Ok (xp_awarded_response 200 2 2, db_bonuses_awarded_again)
  /\ 100 * booster_factor (sunday_7am + 60000000)
             (users.set_has_streak_bonus true test_user) db_bonuses = 200.
Proof.
  assert (H1 : award_xp (as_test_user sunday_7am) 100 "Daily Challenge"
                        "challenge_1" (JObj []) db_bonuses
               = Ok (xp_awarded_response 600 2 6, db_bonuses_awarded))
    by reflexivity.
  assert (H2 : award_xp (as_test_user (sunday_7am + 60000000)) 100
                        "Memory Verses" "flashcards_1" (JObj [])
                        db_bonuses_awarded
               = Ok (xp_awarded_response 200 2 2, db_bonuses_awarded_again))
    by reflexivity.
  destruct (award_xp_bonuses_are_one_shot
              (as_test_user sunday_7am) (as_test_user (sunday_7am + 60000000))
              100 100 "Daily Challenge" "Memory Verses" "challenge_1"
              "flashcards_1" (JObj []) (JObj []) db_bonuses
              (users.set_has_streak_bonus true test_user)
              (xp_awarded_response 600 2 6) db_bonuses_awarded
              (xp_awarded_response 200 2 2) db_bonuses_awarded_again)
    as [_ Hmorning].
  - distinct_keys.
  - reflexivity.
  - reflexivity.
  - reflexivity.
  - reflexivity.
  - discriminate.
  - exact H1.
  - exact H2.
  - split; [exact H2 |].
    specialize (Hmorning eq_refl).
    assert (Hx : json_get "xp_awarded" (xp_awarded_response 200 2 2)
                 = Some (JNum 200)) by reflexivity.
    rewrite Hx in Hmorning. symmetry.
    exact (f_equal (fun o => match o with
                             | Some (JNum n) => n
                             | _ => 0
                             end) Hmorning).
Defined.

(** A gift to somebody who has no row, and a gift of an unknown type. *)
Lemma gift_booster_outcomes_witness :
  gift_booster (as_test_user sunday_noon) "nobody" "2x" "gift_3" db_friends
  = Raise foreign_key_violation
  /\ gift_booster (as_test_user sunday_noon) (users.id recipient) "5x" "gift_4"
                  db_friends
     = Ok (invalid_booster_type, db_friends).
Proof.
  pose proof (gift_booster_outcomes (as_test_user sunday_noon) "nobody" "2x"
                "gift_3" db_friends eq_refl) as Hmissing.
  pose proof (gift_booster_outcomes (as_test_user sunday_noon)
                (users.id recipient) "5x" "gift_4" db_friends eq_refl) as Htype.
  cbv zeta in Hmissing, Htype.
  destruct Hmissing as (_ & Hfk & _). destruct Htype as (Hinvalid & _).
  split.
  - apply Hfk; [discriminate | reflexivity].
  - apply Hinvalid. reflexivity.
Defined.

(** Half an hour after the gift of a 3x booster, the friend's 50 XP count
    as 150. *)
Lemma gifted_booster_multiplies_awards_witness :
  apply_booster (sunday_noon + 1800000000) recipient 50 db_friends_gifted
  = Ok 150.
Proof.
  destruct (gifted_booster_multiplies_awards (as_test_user sunday_noon)
              (users.id recipient) "3x" "gift_2" db_friends
              (jsonb_build_object
                 [("success", JBool true);
                  ("expires_at", JTime (sunday_noon + hours 1))])
              db_friends_gifted recipient (sunday_noon + 1800000000) 50)
    as (d & k & Hcases & _ & Hbefore & _).
  - reflexivity.
  - reflexivity.
  - reflexivity.
  - reflexivity.
  - reflexivity.
  - destruct Hcases as [[H _] | [_ [-> ->]]]; [discriminate H |].
    rewrite Hbefore; [reflexivity |].
    vm_compute. reflexivity.
Defined.

Lemma redeem_grace_pass_conserves_passes_witness :
  exists u',
    select_user (Some (users.id grace_user))
      (redeemed_db (as_grace_user sunday_noon) grace_user "tok1" db_grace)
    = Some u'
    /\ users.grace_passes_used u' + users.grace_passes_available u' = 2.
Proof.
  destruct (redeem_grace_pass_conserves_passes (as_grace_user sunday_noon) "tok1"
              db_grace grace_user
              (jsonb_build_object [("success", JBool true);
                                   ("grace_passes_remaining", JNum 1)])
              (redeemed_db (as_grace_user sunday_noon) grace_user "tok1" db_grace))
    as (u' & Hsel & Hsum & _).
  - distinct_keys.
  - reflexivity.
  - simpl. lia.
  - reflexivity.
  - exists u'. split; [exact Hsel | exact Hsum].
Defined.

(** With the last pass gone, a redemption under another action id fails. *)
Lemma redeem_grace_pass_last_pass_witness :
  redeem_grace_pass (as_grace_user (sunday_noon + 1)) "tok3" db_last_pass_redeemed
  = Ok (no_grace_passes, db_last_pass_redeemed).
Proof.
  destruct (redeem_grace_pass_last_pass (as_grace_user sunday_noon)
              (as_grace_user (sunday_noon + 1)) "tok2" "tok3" db_last_pass
              (users.set_grace 1 1 4 grace_user)
              (jsonb_build_object [("success", JBool true);
                                   ("grace_passes_remaining", JNum 0)])
              db_last_pass_redeemed)
    as [_ Hsecond].
  - distinct_keys.
  - reflexivity.
  - reflexivity.
  - reflexivity.
  - reflexivity.
  - reflexivity.
  - discriminate.
  - reflexivity.
  - exact Hsecond.
Defined.

(** The test user runs their own queue of three: the award is credited, the
    grace pass redeemed, the unknown action dropped. *)
Lemma process_offline_actions_drains_queue_witness :
  process_offline_actions int4in_rejecting jsonb_out_blank
    (as_test_user sunday_noon) (users.id test_user) db_queue
  = Done (jsonb_build_object [("success", JBool true);
                              ("processed_count", JNum 3)],
          db_queue_after (as_test_user sunday_noon))
  /\ json_get "processed_count"
       (jsonb_build_object [("success", JBool true);
                            ("processed_count", JNum 3)])
     = Some (JNum (Z.of_nat (List.length
                               (queued_actions (users.id test_user) db_queue))))
  /\ map offline_actions.processed
       (t_offline_actions (db_queue_after (as_test_user sunday_noon)))
     = [true; true; true]
  /\ option_map users.xp
       (select_user (Some (users.id test_user))
          (db_queue_after (as_test_user sunday_noon))) = Some 150.
Proof.
  assert (Hrun : process_offline_actions int4in_rejecting jsonb_out_blank
                   (as_test_user sunday_noon) (users.id test_user) db_queue
                 = Done (jsonb_build_object [("success", JBool true);
                                             ("processed_count", JNum 3)],
                         db_queue_after (as_test_user sunday_noon)))
    by (vm_compute; reflexivity).
  destruct (process_offline_actions_drains_queue _ _ _ _ _ _ _ Hrun)
    as (_ & Hcount & _).
  split; [exact Hrun |]. split; [exact Hcount |].
  split; vm_compute; reflexivity.
Defined.

Lemma process_offline_actions_second_run_witness :
  process_offline_actions int4in_rejecting jsonb_out_blank
    (as_stranger (sunday_noon + 1)) (users.id test_user)
    (db_queue_after (as_test_user sunday_noon))
  = Done (jsonb_build_object [("success", JBool true);
                              ("processed_count", JNum 0)],
          db_queue_after (as_test_user sunday_noon)).
Proof.
  apply (process_offline_actions_second_run int4in_rejecting jsonb_out_blank
           (as_test_user sunday_noon) (as_stranger (sunday_noon + 1))
           (users.id test_user) db_queue
           (jsonb_build_object [("success", JBool true);
                                ("processed_count", JNum 3)])).
  vm_compute. reflexivity.
Defined.

(** A stranger runs the test user's queue: nothing is credited, and the
    queue is empty afterwards. *)
Lemma process_offline_actions_without_user_row_witness :
  t_users (db_queue_after (as_stranger sunday_noon)) = t_users db_queue
  /\ t_xp_ledger (db_queue_after (as_stranger sunday_noon)) = []
  /\ queued_actions (users.id test_user) (db_queue_after (as_stranger sunday_noon))
     = [].
Proof.
  destruct (process_offline_actions_without_user_row int4in_rejecting
              jsonb_out_blank (as_stranger sunday_noon) (users.id test_user)
              db_queue
              (jsonb_build_object [("success", JBool true);
                                   ("processed_count", JNum 3)])
              (db_queue_after (as_stranger sunday_noon)))
    as (Hu & Hl & _ & _ & Hq).
  - reflexivity.
  - vm_compute. reflexivity.
  - split; [exact Hu |]. split; [exact Hl | exact Hq].
Defined.

(** The friend runs the test user's queue: the test user's row is as it
    was, and the 50 XP are the friend's. *)
Lemma process_offline_actions_touches_caller_only_witness :
  select_user (Some (users.id test_user)) (db_queue_after (as_recipient sunday_noon))
  = Some test_user
  /\ option_map users.xp
       (select_user (Some (users.id recipient))
          (db_queue_after (as_recipient sunday_noon))) = Some 50.
Proof.
  split; [| vm_compute; reflexivity].
  rewrite (process_offline_actions_touches_caller_only int4in_rejecting
             jsonb_out_blank (as_recipient sunday_noon) (users.id test_user)
             db_queue
             (jsonb_build_object [("success", JBool true);
                                  ("processed_count", JNum 3)])
             (db_queue_after (as_recipient sunday_noon)) (users.id test_user)).
  - reflexivity.
  - vm_compute. reflexivity.
  - simpl. discriminate.
Defined.

Lemma process_offline_actions_credits_award_witness :
  process_offline_actions int4in_rejecting jsonb_out_blank
    (as_test_user sunday_noon) (users.id test_user) db_queue_award_only
  = Done (jsonb_build_object [("success", JBool true);
                              ("processed_count", JNum 1)],
          mark_processed queued_award
            (awarded_db (as_test_user sunday_noon) test_user 50
               "Offline Challenge" "offline_award_xp_1" (JObj [])
               db_queue_award_only)).
Proof.
  apply (process_offline_actions_credits_award int4in_rejecting jsonb_out_blank
           (as_test_user sunday_noon) (users.id test_user) db_queue_award_only
           queued_award test_user 50 "Offline Challenge").
  - distinct_keys.
  - reflexivity.
  - reflexivity.
  - reflexivity.
  - reflexivity.
  - reflexivity.
  - reflexivity.
  - unfold award_in_range. vm_compute. intuition discriminate.
Defined.

(** The Bronze user promoted to Silver by the update. *)
Lemma weekly_update_leagues_stay_valid_witness :
  exists u,
    select_user (Some (users.id bronze_top_promoted)) db_bronze_four = Some u
    /\ ((1 <= users.league u <= 4
         /\ 1 <= users.league bronze_top_promoted <= 4
         /\ users.weekly_xp bronze_top_promoted = 0)
        \/ (~ 1 <= users.league u <= 4 /\ bronze_top_promoted = u)).
Proof.
  apply (weekly_update_leagues_stay_valid (mkSession None sunday_noon)
           db_bronze_four bronze_top_promoted).
  - distinct_keys.
  - left. reflexivity.
Defined.

Lemma weekly_update_second_run_promotes_nobody_witness :
  exists u2,
    select_user (Some (users.id bronze_top_promoted))
      (snd (run_weekly_league_update (mkSession None (sunday_noon + 1))
              (snd (run_weekly_league_update (mkSession None sunday_noon)
                      db_bronze_four)))) = Some u2
    /\ users.league u2 <= users.league bronze_top_promoted.
Proof.
  apply (weekly_update_second_run_promotes_nobody (mkSession None sunday_noon)
           (mkSession None (sunday_noon + 1)) db_bronze_four bronze_top_promoted).
  - distinct_keys.
  - left. reflexivity.
Defined.

Lemma weekly_update_snapshot_records_members_witness :
  exists e,
    In e (l_rankings (league_loops (mkSession None sunday_noon) db_bronze_four))
    /\ ranking.user_id e = users.id bronze_top
    /\ ranking.old_league e = users.league bronze_top
    /\ ranking.weekly_xp e = users.weekly_xp bronze_top.
Proof.
  apply (weekly_update_snapshot_records_members (mkSession None sunday_noon)
           db_bronze_four bronze_top).
  - distinct_keys.
  - left. reflexivity.
  - simpl. lia.
Defined.


Lemma get_leaderboard_weekly_order_witness :
  leaderboard.rank (board_row 1 bronze_top)
  < leaderboard.rank (board_row 2 bronze_second).
Proof.
  apply (get_leaderboard_weekly_order None db_bronze_four
           (board_row 1 bronze_top) (board_row 2 bronze_second)).
  - left. reflexivity.
  - right. left. reflexivity.
  - reflexivity.
  - left. simpl. lia.
Defined.

Lemma updateStreak_same_day_twice_witness :
  exists s1 s2,
    UserService.currentUser
      (snd (UserService.updateStreak device_sunday_noon
              (streak_client (sunday - 1)))) = Some s1
    /\ UserService.currentUser
         (snd (UserService.updateStreak device_sunday_noon
                 (snd (UserService.updateStreak device_sunday_noon
                         (streak_client (sunday - 1)))))) = Some s2
    /\ Stats.streak s2 = Stats.streak s1
    /\ Stats.total_days_studied s2 = 5 + 2
    /\ UserService.streakBroken
         (fst (UserService.updateStreak device_sunday_noon
                 (snd (UserService.updateStreak device_sunday_noon
                         (streak_client (sunday - 1)))))) = false.
Proof.
  apply (updateStreak_same_day_twice device_sunday_noon device_sunday_noon
           (streak_client (sunday - 1))
           (Stats.mk 5 0 0 0 1 50 false (sunday - 1) 5 false false None));
    reflexivity.
Defined.


Lemma grace_pass_bridges_missed_day_witness :
  exists s3,
    UserService.currentUser
      (snd (UserService.updateStreak device_monday_noon
              (UserService.restoreStreakWithGracePass device_sunday_noon
                 (UserService.previousStreak
                    (fst (UserService.updateStreak device_sunday_noon
                            (streak_client (sunday - 3)))))
                 (snd (UserService.updateStreak device_sunday_noon
                         (streak_client (sunday - 3))))))) = Some s3
    /\ Stats.streak s3 = 5 + 1.
Proof.
  destruct (grace_pass_bridges_missed_day device_sunday_noon device_monday_noon
              (streak_client (sunday - 3))
              (Stats.mk 5 0 0 0 1 50 false (sunday - 3) 5 false false None))
    as (s1 & s2 & s3 & _ & _ & _ & _ & _ & Hsel & Hstreak).
  - reflexivity.
  - reflexivity.
  - reflexivity.
  - vm_compute. reflexivity.
  - vm_compute. reflexivity.
  - exists s3. split; [exact Hsel | exact Hstreak].
Defined.

(** 120 gems buy the 3x booster once. *)
Lemma purchaseBooster_spends_gems_witness :
  fst (LocalUserService.purchaseBooster (local_device 1793534400000) "3x_xp"
         local_storage) = true
  /\ option_map Stats.gems
       (LocalUserService.stored
          (snd (LocalUserService.purchaseBooster (local_device 1793534400000)
                  "3x_xp" local_storage))) = Some 20.
Proof.
  destruct (purchaseBooster_spends_gems (local_device 1793534400000) "3x_xp"
              local_storage
              (Stats.mk 5 0 0 0 1 120 false (sunday - 1) 5 true false None))
    as (Hiff & _ & _).
  - reflexivity.
  - simpl. lia.
  - split; [| reflexivity].
    apply Hiff. right. split; [reflexivity | simpl; lia].
Defined.

(** The local streak of 5, last extended yesterday, becomes 6. *)
Lemma local_updateStreak_cases_witness :
  exists stats',
    LocalUserService.stored
      (LocalUserService.updateStreak (local_device 1793534400000) local_storage)
    = Some stats'
    /\ Stats.streak stats' = 5 + 1.
Proof.
  pose proof (local_updateStreak_cases (local_device 1793534400000) local_storage
                (Stats.mk 5 0 0 0 1 120 false (sunday - 1) 5 true false None)
                eq_refl) as Hcases.
  cbv zeta in Hcases.
  destruct Hcases as (stats' & Hstored & _ & Hyesterday & _).
  - vm_compute. discriminate.
  - exists stats'. split; [exact Hstored |]. apply Hyesterday. reflexivity.
Defined.


Local Close Scope string_scope.
